(** * GameNest: the game catalog and the game detector

    A shallow embedding of the logic of [GameNest.py]: the strings and
    Windows paths the detector works on, the directory walk and the
    executable chooser [find_game_exe], the record type [GameEntry] with
    its JSON form, and the handlers of [GameNestLauncher] that read or
    change the catalog.

    Conventions.
    - A Python [str] is a [string]; [str.lower] is modelled on the ASCII
      letters (bytes outside A-Z are left as they are).
    - [os.path] is [ntpath] (the program imports [win32api] and runs on
      Windows only).  Drives are the drive-letter form [X:]; UNC prefixes
      are not modelled.
    - A directory is a tree of [entry]; the order of a [list entry] is the
      order in which the operating system lists the directory.  Symbolic
      links and errors during a walk are not modelled.
    - The backing file is what [json.load] makes of it: the value it
      returns, or the fact that reading or parsing raises.  The text that
      [json.dump] writes is the library's business.
    - A save fails when [open] refuses the file, and then the file is as
      it was.  [open(..., "w")] empties the file before [json.dump]
      writes; a write that breaks off after that is not modelled.
    - Attributes hold values of any type, as in Python; an operation on a
      value of the wrong type raises as Python does.
    - Calls that only repaint widgets ([refresh_sidebar],
      [refresh_folders_list], [on_game_selected], [load_background]) are
      left out.  The blur slider is kept, because [QSlider.setValue] calls
      back into the launcher. *)

From Stdlib Require Import ZArith List String Ascii Bool Lia Permutation.
Import ListNotations.

Open Scope string_scope.
Open Scope Z_scope.

(** ** Python strings *)

Module Str.

Definition lower_char (c : ascii) : ascii :=
  let n := nat_of_ascii c in
  if (Nat.leb 65 n && Nat.leb n 90)%bool then ascii_of_nat (n + 32) else c.

(** [s.lower()] *)
Fixpoint lower (s : string) : string :=
  match s with
  | EmptyString => EmptyString
  | String c r => String (lower_char c) (lower r)
  end.

(** [x in s] for two strings *)
Fixpoint contains (x s : string) : bool :=
  if String.prefix x s then true
  else match s with
       | EmptyString => false
       | String _ r => contains x r
       end.

Definition len (s : string) : Z := Z.of_nat (String.length s).

(** [s[i:j]] for [0 <= i], [0 <= j] *)
Definition slice (s : string) (i j : Z) : string :=
  String.substring (Z.to_nat i) (Z.to_nat (j - i)) s.

(** [s.endswith(x)] *)
Definition endswith (s x : string) : bool :=
  (len x <=? len s) && String.eqb (slice s (len s - len x) (len s)) x.

(** [s.rfind(c)] for a class of characters, [-1] when there is none;
    [i] is the index of the first character of [s]. *)
Fixpoint rfind_from (f : ascii -> bool) (s : string) (i : Z) : Z :=
  match s with
  | EmptyString => -1
  | String c r =>
      let j := rfind_from f r (i + 1) in
      if 0 <=? j then j else if f c then i else -1
  end.

Definition rfind (f : ascii -> bool) (s : string) : Z := rfind_from f s 0.

Fixpoint all_chars (f : ascii -> bool) (s : string) : bool :=
  match s with
  | EmptyString => true
  | String c r => f c && all_chars f r
  end.

Definition is_empty (s : string) : bool :=
  match s with EmptyString => true | _ => false end.

End Str.

(** ** [os.path] on Windows *)

Module Path.

Definition sep : string := "\".

Definition is_sep (c : ascii) : bool :=
  Ascii.eqb c "\"%char || Ascii.eqb c "/"%char.

Definition is_dot (c : ascii) : bool := Ascii.eqb c "."%char.

(** [ntpath.splitdrive], drive-letter form. *)
Definition splitdrive (p : string) : string * string :=
  match p with
  | String a (String b r) =>
      if Ascii.eqb b ":"%char then (String a (String b EmptyString), r)
      else (EmptyString, p)
  | _ => (EmptyString, p)
  end.

(** The part of [p] after its last separator, with a flag telling
    whether a separator was met. *)
Fixpoint split_tail (p : string) : bool * string :=
  match p with
  | EmptyString => (false, EmptyString)
  | String c r =>
      let '(seen, t) := split_tail r in
      if seen then (true, t)
      else if is_sep c then (true, t)
      else (false, String c t)
  end.

(** [os.path.basename(p)] *)
Definition basename (p : string) : string :=
  snd (split_tail (snd (splitdrive p))).

(** [os.path.splitext(p)[0]]: the text before the last dot of the last
    component, unless that component has only dots before it. *)
Definition splitext_root (p : string) : string :=
  let sepIndex := Str.rfind is_sep p in
  let dotIndex := Str.rfind is_dot p in
  if sepIndex <? dotIndex then
    if Str.all_chars is_dot (Str.slice p (sepIndex + 1) dotIndex)
    then p
    else Str.slice p 0 dotIndex
  else p.

Definition starts_with_sep (p : string) : bool :=
  match p with
  | String c _ => is_sep c
  | EmptyString => false
  end.

Definition ends_with_sep (p : string) : bool :=
  match Str.rfind is_sep p with
  | j => (0 <=? j) && (j =? Str.len p - 1)
  end.

(** [os.path.join(path, p)] *)
Definition join (path p : string) : string :=
  let '(result_drive, result_path) := splitdrive path in
  let '(p_drive, p_path) := splitdrive p in
  let relative (drive : string) :=
    let result_path' :=
      if negb (Str.is_empty result_path) && negb (ends_with_sep result_path)
      then result_path ++ sep else result_path in
    drive ++ result_path' ++ p_path in
  if starts_with_sep p_path then
    (if negb (Str.is_empty p_drive) || Str.is_empty result_drive
     then p_drive else result_drive) ++ p_path
  else if negb (Str.is_empty p_drive) && negb (String.eqb p_drive result_drive) then
    if negb (String.eqb (Str.lower p_drive) (Str.lower result_drive))
    then p_drive ++ p_path
    else relative p_drive
  else relative result_drive.

End Path.

(** ** Directory trees and [os.walk] *)

#[local] Unset Elimination Schemes.
Inductive entry : Type :=
| File (name : string)
| Dir (name : string) (children : list entry).
#[local] Set Elimination Schemes.

(** Induction over a tree, with the hypothesis available for every child. *)
Section EntryInduction.
Variable P : entry -> Prop.
Hypothesis P_File : forall n, P (File n).
Hypothesis P_Dir : forall n sub, Forall P sub -> P (Dir n sub).

Fixpoint entry_tree_ind (e : entry) : P e :=
  match e with
  | File n => P_File n
  | Dir n sub =>
      P_Dir n sub
        ((fix children (l : list entry) : Forall P l :=
            match l with
            | [] => Forall_nil P
            | x :: r => Forall_cons x (entry_tree_ind x) (children r)
            end) sub)
  end.
End EntryInduction.

Definition dirnames (es : list entry) : list string :=
  flat_map (fun e => match e with Dir n _ => [n] | File _ => [] end) es.

Definition filenames (es : list entry) : list string :=
  flat_map (fun e => match e with File n => [n] | Dir _ _ => [] end) es.

(** One step of [os.walk]: the triples produced for the subtree [e] of the
    directory [top]. *)
Fixpoint walk_entry (top : string) (e : entry) : list (string * list string * list string) :=
  match e with
  | File _ => []
  | Dir n sub =>
      let p := Path.join top n in
      (p, dirnames sub, filenames sub) :: flat_map (walk_entry p) sub
  end.

(** [os.walk(top)] where [children] is what lies beneath [top]: top-down,
    a directory before its sub-directories, these in listing order. *)
Definition os_walk (top : string) (children : list entry) : list (string * list string * list string) :=
  (top, dirnames children, filenames children) :: flat_map (walk_entry top) children.

(** ** The executable chooser: [find_game_exe] *)

Definition is_exe_name (f : string) : bool := Str.endswith (Str.lower f) ".exe".

(** Lines 890-894: the two nested loops that fill [candidates]. *)
Definition exe_candidates (folder_path : string) (contents : list entry) : list string :=
  flat_map (fun t => match t with
                     | (root, _, files) => map (Path.join root) (filter is_exe_name files)
                     end)
           (os_walk folder_path contents).

Definition exclusions : list string := ["unitycrashhandler"; "_data"; "_x64"].

(** [any(x in os.path.basename(c).lower() for x in [...])] *)
Definition any_exclusion (c : string) : bool :=
  existsb (fun x => Str.contains x (Str.lower (Path.basename c))) exclusions.

(** Lines 898-901, the first loop. *)
Fixpoint name_loop (folder_basename : string) (candidates : list string) : option string :=
  match candidates with
  | [] => None
  | c :: rest =>
      if Str.contains folder_basename (Str.lower (Path.splitext_root (Path.basename c))) then
        if negb (any_exclusion c) then Some c
        else name_loop folder_basename rest
      else name_loop folder_basename rest
  end.

(** Lines 902-905, the second loop. *)
Fixpoint launcher_loop (candidates : list string) : option string :=
  match candidates with
  | [] => None
  | c :: rest =>
      if Str.contains "launcher" (Str.lower (Path.basename c)) then
        if negb (any_exclusion c) then Some c
        else launcher_loop rest
      else launcher_loop rest
  end.

Definition find_game_exe (folder_path : string) (contents : list entry) : option string :=
  let candidates := exe_candidates folder_path contents in
  match candidates with
  | [] => None
  | first :: _ =>
      let folder_basename := Str.lower (Path.basename folder_path) in
      match name_loop folder_basename candidates with
      | Some c => Some c
      | None =>
          match launcher_loop candidates with
          | Some c => Some c
          | None =>
              let filtered := filter (fun c => negb (any_exclusion c)) candidates in
              match filtered with
              | c :: _ => Some c
              | [] => Some first
              end
          end
      end
  end.

(** ** The selection heuristic as the specification words it *)

Module Heuristic.

(** The candidate's base filename, sans extension, contains the folder's
    base name; both compared in lower case. *)
Definition name_matches (folder_name c : string) : bool :=
  Str.contains (Str.lower folder_name)
               (Str.lower (Path.splitext_root (Path.basename c))).

(** The candidate's filename contains none of the exclusion substrings. *)
Definition passes_exclusion (c : string) : bool :=
  forallb (fun x => negb (Str.contains x (Str.lower (Path.basename c))))
          exclusions.

(** The candidate's filename contains "launcher". *)
Definition is_launcher (c : string) : bool :=
  Str.contains "launcher" (Str.lower (Path.basename c)).

(** The four steps, in order, the first that matches wins; no candidate,
    no choice. *)
Definition select (folder_name : string) (candidates : list string) : option string :=
  match find (fun c => name_matches folder_name c && passes_exclusion c) candidates with
  | Some c => Some c
  | None =>
      match find (fun c => is_launcher c && passes_exclusion c) candidates with
      | Some c => Some c
      | None =>
          match find passes_exclusion candidates with
          | Some c => Some c
          | None => hd_error candidates
          end
      end
  end.

End Heuristic.

(** A file named [f] lies in the directory [d] somewhere beneath [top],
    whose content is [es]. *)
Inductive file_at : string -> list entry -> string -> string -> Prop :=
| file_here top es f :
    In (File f) es -> file_at top es top f
| file_below top es n sub d f :
    In (Dir n sub) es -> file_at (Path.join top n) sub d f -> file_at top es d f.

(** ** Python values

    The values that [json.load] produces and [json.dump] accepts.  An
    attribute of a Python object holds any of them, whatever the schema
    says, so the fields of the records below are [pyval]s.  Numbers with a
    fraction are not modelled.  A [PDict] lists its bindings in insertion
    order; dictionaries built by [json.load] or by a literal have distinct
    keys. *)

#[local] Unset Elimination Schemes.
Inductive pyval : Type :=
| PNone
| PBool (b : bool)
| PInt (z : Z)
| PStr (s : string)
| PList (l : list pyval)
| PDict (d : list (string * pyval)).
#[local] Set Elimination Schemes.

Inductive exn : Type :=
| KeyError (key : string)
| TypeError
| AttributeError
| IndexError
| OverflowError
| OSError
| JSONDecodeError
| SystemExit.

Inductive result (A : Type) : Type :=
| Ok (a : A)
| Raise (e : exn).
Arguments Ok {A} a.
Arguments Raise {A} e.

Module Py.

(** [d.get(k)] on the bindings of a dictionary *)
Fixpoint lookup (d : list (string * pyval)) (k : string) : option pyval :=
  match d with
  | [] => None
  | (k', v) :: r => if String.eqb k' k then Some v else lookup r k
  end.

(** [d[k] = v] on the bindings of a dictionary: the value is replaced
    where the key stands, a new key goes to the end. *)
Fixpoint store (d : list (string * pyval)) (k : string) (v : pyval) : list (string * pyval) :=
  match d with
  | [] => [(k, v)]
  | (k', v') :: r => if String.eqb k' k then (k', v) :: r else (k', v') :: store r k v
  end.

(** [x.get(k, default)] *)
Definition get (x : pyval) (k : string) (default : pyval) : result pyval :=
  match x with
  | PDict d => Ok (match lookup d k with Some v => v | None => default end)
  | _ => Raise AttributeError
  end.

(** [x[k]] for a string [k] *)
Definition item (x : pyval) (k : string) : result pyval :=
  match x with
  | PDict d => match lookup d k with Some v => Ok v | None => Raise (KeyError k) end
  | _ => Raise TypeError
  end.

Fixpoint chars (s : string) : list pyval :=
  match s with
  | EmptyString => []
  | String c r => PStr (String c EmptyString) :: chars r
  end.

(** The values that [for x in v] runs through. *)
Definition iterate (v : pyval) : result (list pyval) :=
  match v with
  | PList l => Ok l
  | PStr s => Ok (chars s)
  | PDict d => Ok (map (fun kv => PStr (fst kv)) d)
  | _ => Raise TypeError
  end.

(** [a == b]: numbers by value ([True == 1]), lists element by
    element, dictionaries binding by binding whatever the order. *)
Fixpoint eq (a b : pyval) {struct a} : bool :=
  match a, b with
  | PNone, PNone => true
  | PBool x, PBool y => Bool.eqb x y
  | PBool x, PInt y => Z.b2z x =? y
  | PInt x, PBool y => x =? Z.b2z y
  | PInt x, PInt y => x =? y
  | PStr x, PStr y => String.eqb x y
  | PList l1, PList l2 =>
      (fix eq_list (l1 l2 : list pyval) {struct l1} : bool :=
         match l1, l2 with
         | [], [] => true
         | x :: r1, y :: r2 => eq x y && eq_list r1 r2
         | _, _ => false
         end) l1 l2
  | PDict d1, PDict d2 =>
      Nat.eqb (List.length d1) (List.length d2) &&
      (fix eq_bindings (d : list (string * pyval)) {struct d} : bool :=
         match d with
         | [] => true
         | (k, v) :: r =>
             match lookup d2 k with
             | Some v' => eq v v'
             | None => false
             end && eq_bindings r
         end) d1
  | _, _ => false
  end.

(** [v == s] for a string [s] *)
Definition eq_str (v : pyval) (s : string) : bool := eq v (PStr s).

(** [bool(v)] *)
Definition truthy (v : pyval) : bool :=
  match v with
  | PNone => false
  | PBool b => b
  | PInt z => negb (z =? 0)
  | PStr s => negb (Str.is_empty s)
  | PList l => match l with [] => false | _ => true end
  | PDict d => match d with [] => false | _ => true end
  end.

(** The integer a Qt setter receives for [v]; a [bool] is an [int]. *)
Definition as_int (v : pyval) : result Z :=
  match v with
  | PInt z => Ok z
  | PBool b => Ok (Z.b2z b)
  | _ => Raise TypeError
  end.

(** [v + n] for an integer [n], as [v += n] computes it on the values a
    playtime can hold; a list or a string does not take an integer. *)
Definition add_int (v : pyval) (n : Z) : result pyval :=
  match v with
  | PInt z => Ok (PInt (z + n))
  | PBool b => Ok (PInt (Z.b2z b + n))
  | _ => Raise TypeError
  end.

(** [s in v] for a string [s] *)
Definition str_in (s : string) (v : pyval) : result bool :=
  match v with
  | PList l => Ok (existsb (fun x => eq_str x s) l)
  | PStr t => Ok (Str.contains s t)
  | PDict d => Ok (existsb (fun kv => String.eqb (fst kv) s) d)
  | _ => Raise TypeError
  end.

(** [l.remove(s)] on the elements of a list: the first element equal to
    [s] goes. *)
Fixpoint remove_str (s : string) (l : list pyval) : list pyval :=
  match l with
  | [] => []
  | x :: r => if eq_str x s then r else x :: remove_str s r
  end.

End Py.

(** ** [class GameEntry] *)

Module GameEntry.

Record t : Type := make {
  name : pyval;
  path : pyval;
  icon_path : pyval;
  is_favorite : pyval;
  notes : pyval;
  last_played : pyval;
  total_playtime : pyval
}.

(** [GameEntry(name, path, icon_path)] *)
Definition init (name path icon_path : pyval) : t :=
  {| name := name; path := path; icon_path := icon_path;
     is_favorite := PBool false; notes := PStr ""; last_played := PStr "Never";
     total_playtime := PInt 0 |}.

Definition set_name (v : pyval) (g : t) : t :=
  make v (path g) (icon_path g) (is_favorite g) (notes g) (last_played g) (total_playtime g).
Definition set_is_favorite (v : pyval) (g : t) : t :=
  make (name g) (path g) (icon_path g) v (notes g) (last_played g) (total_playtime g).
Definition set_notes (v : pyval) (g : t) : t :=
  make (name g) (path g) (icon_path g) (is_favorite g) v (last_played g) (total_playtime g).
Definition set_last_played (v : pyval) (g : t) : t :=
  make (name g) (path g) (icon_path g) (is_favorite g) (notes g) v (total_playtime g).
Definition set_total_playtime (v : pyval) (g : t) : t :=
  make (name g) (path g) (icon_path g) (is_favorite g) (notes g) (last_played g) v.

Definition to_dict (g : t) : pyval :=
  PDict [ ("name", name g);
          ("path", path g);
          ("icon_path", icon_path g);
          ("is_favorite", is_favorite g);
          ("notes", notes g);
          ("last_played", last_played g);
          ("total_playtime", total_playtime g) ].

Definition from_dict (data : pyval) : result t :=
  match Py.item data "name" with
  | Raise e => Raise e
  | Ok n =>
  match Py.item data "path" with
  | Raise e => Raise e
  | Ok p =>
  match Py.get data "icon_path" PNone with
  | Raise e => Raise e
  | Ok i =>
  let g := init n p i in
  match Py.get data "is_favorite" (PBool false) with
  | Raise e => Raise e
  | Ok f =>
  let g := set_is_favorite f g in
  match Py.get data "notes" (PStr "") with
  | Raise e => Raise e
  | Ok s =>
  let g := set_notes s g in
  match Py.get data "last_played" (PStr "Never") with
  | Raise e => Raise e
  | Ok l =>
  let g := set_last_played l g in
  match Py.get data "total_playtime" (PInt 0) with
  | Raise e => Raise e
  | Ok tp =>
  let g := set_total_playtime tp g in
  Ok g
  end end end end end end end.

End GameEntry.

(** ** The launcher and its surroundings

    [World] holds the attributes of the [GameNestLauncher] object that the
    catalog logic reads or writes, the position of the blur slider, the
    backing file [games.json] and the message boxes shown so far.  What
    the handlers do to the widgets (sidebar, labels, background image) is
    presentation and is left out. *)

Inductive file_content : Type :=
| Absent                       (* no such file *)
| Unreadable                   (* [open] or the read raises *)
| Malformed (text : string)    (* [json.load] raises *)
| Json (v : pyval).            (* [json.load] returns [v] *)

Inductive message : Type :=
| Warning (text : string) (e : exn)
| Information (title text : string)
| PlaytimeRecorded (name : pyval) (session_seconds : Z).

Record World : Type := mkWorld {
  games : list GameEntry.t;
  custom_scan_folders : pyval;
  custom_background_path : pyval;
  bg_blur_amount : pyval;
  blur_slider : Z;
  games_file : file_content;
  writable : bool;
  shown : list message
}.

Definition set_games (v : list GameEntry.t) (w : World) : World :=
  mkWorld v (custom_scan_folders w) (custom_background_path w) (bg_blur_amount w)
          (blur_slider w) (games_file w) (writable w) (shown w).
Definition set_custom_scan_folders (v : pyval) (w : World) : World :=
  mkWorld (games w) v (custom_background_path w) (bg_blur_amount w)
          (blur_slider w) (games_file w) (writable w) (shown w).
Definition set_custom_background_path (v : pyval) (w : World) : World :=
  mkWorld (games w) (custom_scan_folders w) v (bg_blur_amount w)
          (blur_slider w) (games_file w) (writable w) (shown w).
Definition set_bg_blur_amount (v : pyval) (w : World) : World :=
  mkWorld (games w) (custom_scan_folders w) (custom_background_path w) v
          (blur_slider w) (games_file w) (writable w) (shown w).
Definition set_blur_slider (v : Z) (w : World) : World :=
  mkWorld (games w) (custom_scan_folders w) (custom_background_path w) (bg_blur_amount w)
          v (games_file w) (writable w) (shown w).
Definition set_games_file (v : file_content) (w : World) : World :=
  mkWorld (games w) (custom_scan_folders w) (custom_background_path w) (bg_blur_amount w)
          (blur_slider w) v (writable w) (shown w).
Definition show (m : message) (w : World) : World :=
  mkWorld (games w) (custom_scan_folders w) (custom_background_path w) (bg_blur_amount w)
          (blur_slider w) (games_file w) (writable w) (shown w ++ [m]).

(** Code that changes the world and may raise: what was changed before an
    exception stays changed. *)
Definition M (A : Type) : Type := World -> World * result A.

Definition ret {A} (a : A) : M A := fun w => (w, Ok a).

Definition bind {A B} (m : M A) (k : A -> M B) : M B :=
  fun w => match m w with
           | (w', Ok a) => k a w'
           | (w', Raise e) => (w', Raise e)
           end.

Definition raise {A} (e : exn) : M A := fun w => (w, Raise e).

Definition lift {A} (r : result A) : M A := fun w => (w, r).

Definition read : M World := fun w => (w, Ok w).

Definition modify (f : World -> World) : M unit := fun w => (f w, Ok tt).

(** [try: m except Exception as e: h e]; [SystemExit] is no [Exception]. *)
Definition try_except (m : M unit) (h : exn -> M unit) : M unit :=
  fun w => match m w with
           | (w', Ok a) => (w', Ok a)
           | (w', Raise SystemExit) => (w', Raise SystemExit)
           | (w', Raise e) => h e w'
           end.

Declare Scope py_scope.
Delimit Scope py_scope with py.
Notation "x <- m ;; k" := (bind m (fun x => k))
  (at level 61, m at next level, right associativity) : py_scope.
Notation "m ;; k" := (bind m (fun _ => k))
  (at level 61, right associativity) : py_scope.
Open Scope py_scope.

(** [for x in l: body x] *)
Fixpoint for_each {A} (l : list A) (body : A -> M unit) : M unit :=
  match l with
  | [] => ret tt
  | x :: r => body x ;; for_each r body
  end.

(** The first record whose path equals [p], by its position in the list:
    [next((g for g in self.games if g.path == p), None)]. *)
Fixpoint locate (p : string) (gs : list GameEntry.t) : option nat :=
  match gs with
  | [] => None
  | g :: r => if Py.eq_str (GameEntry.path g) p then Some O
              else option_map S (locate p r)
  end.

(** An assignment to an attribute of the record at position [i]. *)
Fixpoint update_at (i : nat) (f : GameEntry.t -> GameEntry.t) (gs : list GameEntry.t) : list GameEntry.t :=
  match gs, i with
  | [], _ => []
  | g :: r, O => f g :: r
  | g :: r, S j => g :: update_at j f r
  end.

Fixpoint remove_at (i : nat) (gs : list GameEntry.t) : list GameEntry.t :=
  match gs, i with
  | [], _ => []
  | _ :: r, O => r
  | g :: r, S j => g :: remove_at j r
  end.

(** ** Local time as [QDateTime] formats it *)

Record datetime : Type := {
  year : Z; month : Z; day : Z; hour : Z; minute : Z; second : Z
}.

Definition digit (n : Z) : string :=
  String (ascii_of_nat (48 + Z.to_nat (n mod 10))) EmptyString.

Definition two_digits (n : Z) : string := digit (n / 10) ++ digit n.

Definition four_digits (n : Z) : string :=
  digit (n / 1000) ++ digit (n / 100) ++ digit (n / 10) ++ digit n.

(** [toString("yyyy-MM-dd hh:mm:ss")] *)
Definition format_datetime (t : datetime) : string :=
  four_digits (year t) ++ "-" ++ two_digits (month t) ++ "-" ++ two_digits (day t)
  ++ " " ++ two_digits (hour t) ++ ":" ++ two_digits (minute t) ++ ":" ++ two_digits (second t).

(** ** [class GameNestLauncher]

    Each handler takes, next to the world, what the user or the operating
    system answers while it runs: the file picked in a dialog ([None] when
    the dialog is cancelled), the button pressed in a question box, the
    path carried by the sidebar item it acts on.  A class body that
    defines a method several times keeps the last definition; that is the
    one embedded here. *)

Definition default_folders : list string :=
  [ "C:\Program Files (x86)\Steam\steamapps\common";
    "C:\Program Files\Epic Games";
    "C:\Program Files\HoYoPlay\games";
    "C:\Program Files\GOG Galaxy\Games";
    "C:\Games" ].

(** The directories that exist, each with what lies beneath it. *)
Definition filesystem : Type := list (string * list entry).

Fixpoint listing (fs : filesystem) (p : string) : option (list entry) :=
  match fs with
  | [] => None
  | (q, es) :: r => if String.eqb q p then Some es else listing r p
  end.

Inductive menu_choice : Type :=
| LaunchAction (started : bool)
| RenameAction (new_name : string) (ok : bool)
| RemoveAction (confirm : bool)
| NotesAction (text : string) (ok : bool)
| NoAction.

Inductive add_choice : Type :=
| DetectAction (fs : filesystem) (selection : option (list nat))
| ManualAction (file : option string)
| NoAddAction.

Inductive event : Type :=
| BlurSliderMoved (position : Z)
| FavoriteClicked (item : option string)
| BackgroundClicked (file : option string)
| ContextMenuRequested (item : option string) (action : menu_choice)
| LaunchClicked (item : option string) (started : bool)
| AddClicked (admin : bool) (choice : add_choice)
| AddFolderClicked (folder : option string)
| RemoveFolderClicked (selected : list string)
| ResetClicked (confirm : bool).

Module GameNestLauncher.
Section Handlers.

(** The icon provider [get_game_icon]: the path of an icon, or [None]. *)
Variable get_game_icon : string -> option string.

Definition icon_value (exe : string) : pyval :=
  match get_game_icon exe with
  | Some p => PStr p
  | None => PNone
  end.

(** *** Persistence *)

(** [{**g.to_dict(), "notes": g.notes, "last_played": g.last_played}] *)
Definition game_json (g : GameEntry.t) : pyval :=
  match GameEntry.to_dict g with
  | PDict d =>
      PDict (Py.store (Py.store d "notes" (GameEntry.notes g))
                      "last_played" (GameEntry.last_played g))
  | v => v
  end.

(** The object that [save_games] hands to [json.dump]. *)
Definition document (w : World) : pyval :=
  PDict [ ("games", PList (map game_json (games w)));
          ("custom_scan_folders", custom_scan_folders w);
          ("custom_background_path", custom_background_path w);
          ("custom_background_blur", bg_blur_amount w) ].

Definition save_games : M unit :=
  try_except
    (w <- read ;;
     if writable w
     then modify (set_games_file (Json (document w)))
     else raise OSError)
    (fun e => modify (show (Warning "Failed to save games.json: " e))).

Definition set_background_blur (value : Z) : M unit :=
  modify (set_bg_blur_amount (PInt value)) ;;
  save_games.

(** [QSlider.setValue] with the range 0..20 set in [__init__]: the value
    is bound to the range, and [valueChanged], which is connected to
    [set_background_blur], fires when the position changes.  A Python
    integer that does not fit a C [int] is refused. *)
Definition blur_slider_setValue (value : Z) : M unit :=
  if (value <? - 2147483648) || (2147483647 <? value) then raise OverflowError
  else
    w <- read ;;
    let v := Z.max 0 (Z.min 20 value) in
    if v =? blur_slider w then ret tt
    else (modify (set_blur_slider v) ;; set_background_blur v).

(** [open(...)] and [json.load(f)] *)
Definition json_load : M pyval :=
  fun w => match games_file w with
           | Json v => (w, Ok v)
           | Malformed _ => (w, Raise JSONDecodeError)
           | Unreadable => (w, Raise OSError)
           | Absent => (w, Raise OSError)
           end.

(** [os.path.exists(self.games_file)] *)
Definition games_file_exists (w : World) : bool :=
  match games_file w with
  | Absent => false
  | _ => true
  end.

(** Lines 629-632: one round of the loop of [load_games]. *)
Definition append_loaded (x : pyval) : M unit :=
  g <- lift (GameEntry.from_dict x) ;;
  n <- lift (Py.get x "notes" (PStr "")) ;;
  l <- lift (Py.get x "last_played" (PStr "Never")) ;;
  let g := GameEntry.set_last_played l (GameEntry.set_notes n g) in
  modify (fun w => set_games (games w ++ [g]) w).

(** Lines 627-637: what [load_games] does with the parsed [data]. *)
Definition load_document (data : pyval) : M unit :=
  modify (set_games []) ;;
  xs <- lift (Py.get data "games" (PList [])) ;;
  items <- lift (Py.iterate xs) ;;
  for_each items append_loaded ;;
  folders <- lift (Py.get data "custom_scan_folders" (PList [])) ;;
  modify (set_custom_scan_folders folders) ;;
  background <- lift (Py.get data "custom_background_path" PNone) ;;
  modify (set_custom_background_path background) ;;
  blur <- lift (Py.get data "custom_background_blur" (PInt 0)) ;;
  modify (set_bg_blur_amount blur) ;;
  (* setBlurRadius and setValue both want a number *)
  radius <- lift (Py.as_int blur) ;;
  blur_slider_setValue radius.

Definition load_games : M unit :=
  w <- read ;;
  if games_file_exists w then
    try_except
      (data <- json_load ;;
       load_document data)
      (fun e => modify (show (Warning "Failed to load games.json: " e)))
  else save_games.

(** The attributes as [__init__] sets them, before it calls
    [load_games]. *)
Definition initial (file : file_content) (can_write : bool) : World :=
  mkWorld [] (PList []) PNone (PInt 0) 0 file can_write [].

Definition startup (file : file_content) (can_write : bool) : World * result unit :=
  load_games (initial file can_write).

(** *** Favorites, background, the context menu *)

Definition toggle_favorite (item : option string) : M unit :=
  match item with
  | None => ret tt
  | Some data =>
      w <- read ;;
      match locate data (games w) with
      | None => ret tt
      | Some game =>
          modify (fun w =>
            set_games (update_at game
              (fun g => GameEntry.set_is_favorite
                          (PBool (negb (Py.truthy (GameEntry.is_favorite g)))) g)
              (games w)) w) ;;
          save_games
      end
  end.

Definition set_custom_background (file : option string) : M unit :=
  match file with
  | None => ret tt
  | Some path =>
      modify (set_custom_background_path (PStr path)) ;;
      save_games
  end.

(** [game] is the position of the record in [self.games]. *)
Definition rename_game (game : nat) (new_name : string) (ok : bool) : M unit :=
  if ok && negb (Str.is_empty new_name) then
    modify (fun w => set_games (update_at game (GameEntry.set_name (PStr new_name)) (games w)) w) ;;
    save_games
  else ret tt.

Definition remove_game (game : nat) (confirm : bool) : M unit :=
  if confirm then
    modify (fun w => set_games (remove_at game (games w)) w) ;;
    save_games
  else ret tt.

Definition edit_notes (game : nat) (text : string) (ok : bool) : M unit :=
  if ok then
    modify (fun w => set_games (update_at game (GameEntry.set_notes (PStr text)) (games w)) w) ;;
    save_games
  else ret tt.

(** Lines 753-762, the definition the class keeps. *)
Definition launch_selected_game (item : option string) (started : bool) : M unit :=
  match item with
  | None => modify (show (Information "Launch" "Please select a game first."))
  | Some path =>
      try_except
        (if started then ret tt else raise OSError)
        (fun e => modify (show (Warning "Failed to launch: " e)))
  end.

Definition sidebar_context_menu (item : option string) (action : menu_choice) : M unit :=
  match item with
  | None => ret tt
  | Some path =>
      w <- read ;;
      match locate path (games w) with
      | None => ret tt
      | Some game =>
          match action with
          | LaunchAction started => launch_selected_game (Some path) started
          | RenameAction new_name ok => rename_game game new_name ok
          | RemoveAction confirm => remove_game game confirm
          | NotesAction text ok => edit_notes game text ok
          | NoAction => ret tt
          end
      end
  end.

(** *** Adding games *)

(** Lines 835-847, the definition the class keeps. *)
Definition add_game_manually (file : option string) : M unit :=
  match file with
  | None => ret tt
  | Some exe =>
      let name := Path.splitext_root (Path.basename exe) in
      let icon_path := icon_value exe in
      modify (fun w => set_games (games w ++ [GameEntry.init (PStr name) (PStr exe) icon_path]) w) ;;
      save_games
  end.

(** [default_folders + self.custom_scan_folders], the paths that exist.
    The folders are strings in every list the program builds; a value of
    another type is refused here. *)
Fixpoint existing (fs : filesystem) (ps : list pyval) : result (list string) :=
  match ps with
  | [] => Ok []
  | PStr p :: r =>
      match existing fs r with
      | Raise e => Raise e
      | Ok l => Ok (match listing fs p with Some _ => p :: l | None => l end)
      end
  | _ :: _ => Raise TypeError
  end.

Definition to_scan (fs : filesystem) (folders : pyval) : result (list string) :=
  match folders with
  | PList l => existing fs (map PStr default_folders ++ l)
  | _ => Raise TypeError
  end.

(** Lines 913-918: the children of one root. *)
Fixpoint scan_root (known : list GameEntry.t) (root : string) (entries : list entry) : list GameEntry.t :=
  match entries with
  | [] => []
  | File _ :: rest => scan_root known root rest
  | Dir entry_name sub :: rest =>
      match find_game_exe (Path.join root entry_name) sub with
      | Some exe_found =>
          if negb (Str.is_empty exe_found)
             && negb (existsb (fun g => Py.eq_str (GameEntry.path g) exe_found) known)
          then GameEntry.init (PStr entry_name) (PStr exe_found) (icon_value exe_found)
               :: scan_root known root rest
          else scan_root known root rest
      | None => scan_root known root rest
      end
  end.

(** Lines 911-918: the candidates of all the roots. *)
Fixpoint scan_roots (fs : filesystem) (known : list GameEntry.t) (roots : list string) : list GameEntry.t :=
  match roots with
  | [] => []
  | root :: rest =>
      match listing fs root with
      | Some entries => scan_root known root entries ++ scan_roots fs known rest
      | None => scan_roots fs known rest
      end
  end.

(** [[candidates[i.row()] for i in listw.selectedIndexes()]] *)
Fixpoint selected_candidates (candidates : list GameEntry.t) (rows : list nat) : result (list GameEntry.t) :=
  match rows with
  | [] => Ok []
  | i :: r =>
      match nth_error candidates i with
      | None => Raise IndexError
      | Some c =>
          match selected_candidates candidates r with
          | Raise e => Raise e
          | Ok l => Ok (c :: l)
          end
      end
  end.

(** Lines 942-944: a selected candidate enters the catalog unless a
    record there has its path. *)
Fixpoint accept_selected (selected : list GameEntry.t) (gs : list GameEntry.t) : list GameEntry.t :=
  match selected with
  | [] => gs
  | s :: rest =>
      if negb (existsb (fun g => Py.eq (GameEntry.path g) (GameEntry.path s)) gs)
      then accept_selected rest (gs ++ [s])
      else accept_selected rest gs
  end.

Definition detect_games (fs : filesystem) (selection : option (list nat)) : M unit :=
  w <- read ;;
  roots <- lift (to_scan fs (custom_scan_folders w)) ;;
  let candidates := scan_roots fs (games w) roots in
  match candidates with
  | [] => modify (show (Information "Detect" "No games found in the specified folders."))
  | _ :: _ =>
      match selection with
      | None => ret tt
      | Some rows =>
          selected <- lift (selected_candidates candidates rows) ;;
          modify (fun w => set_games (accept_selected selected (games w)) w) ;;
          save_games
      end
  end.

(** [admin] is what [is_admin()] answers; [run_as_admin] ends the
    process. *)
Definition on_add_clicked (admin : bool) (choice : add_choice) : M unit :=
  match choice with
  | DetectAction fs selection =>
      if negb admin then raise SystemExit else detect_games fs selection
  | ManualAction file => add_game_manually file
  | NoAddAction => ret tt
  end.

(** *** The settings tab *)

(** Lines 949-956, the definition the class keeps. *)
Definition add_scan_folder (choice : option string) : M unit :=
  match choice with
  | None => ret tt
  | Some folder =>
      w <- read ;;
      present <- lift (Py.str_in folder (custom_scan_folders w)) ;;
      if negb present then
        match custom_scan_folders w with
        | PList l => modify (set_custom_scan_folders (PList (l ++ [PStr folder])))
        | _ => raise AttributeError
        end
      else ret tt
  end.

(** Lines 958-964, the definition the class keeps. *)
Definition remove_scan_folder (selected : list string) : M unit :=
  for_each selected (fun folder =>
    w <- read ;;
    present <- lift (Py.str_in folder (custom_scan_folders w)) ;;
    if present then
      match custom_scan_folders w with
      | PList l => modify (set_custom_scan_folders (PList (Py.remove_str folder l)))
      | _ => raise AttributeError
      end
    else ret tt).

(** Lines 971-976, the definition the class keeps. *)
Definition reset_games_list (confirm : bool) : M unit :=
  if confirm then
    modify (set_games []) ;;
    save_games
  else ret tt.

(** *** The event loop *)

Definition handle (ev : event) : M unit :=
  match ev with
  | BlurSliderMoved position => blur_slider_setValue position
  | FavoriteClicked item => toggle_favorite item
  | BackgroundClicked file => set_custom_background file
  | ContextMenuRequested item action => sidebar_context_menu item action
  | LaunchClicked item started => launch_selected_game item started
  | AddClicked admin choice => on_add_clicked admin choice
  | AddFolderClicked folder => add_scan_folder folder
  | RemoveFolderClicked selected => remove_scan_folder selected
  | ResetClicked confirm => reset_games_list confirm
  end.

(** The launcher from its start through a sequence of events; an
    exception that no handler catches ends it. *)
Definition run (file : file_content) (can_write : bool) (evs : list event) : World * result unit :=
  (load_games ;; for_each evs handle) (initial file can_write).

End Handlers.
End GameNestLauncher.

(** ** The module-level [launch_selected_game] (lines 68-108)

    A function of the module, outside the class; no button is connected to
    it.  [popen_ok] tells whether the process starts, [session_seconds] is
    [int(end_time - start_time)], [now] the local time when the process
    has ended. *)
Definition launch_selected_game (item : option string) (popen_ok : bool)
    (session_seconds : Z) (now : datetime) : M unit :=
  match item with
  | None => modify (show (Information "Launch" "Please select a game first."))
  | Some data =>
      w <- read ;;
      match locate data (games w) with
      | None => ret tt
      | Some game =>
          try_except
            ((if popen_ok then ret tt else raise OSError) ;;
             w <- read ;;
             match nth_error (games w) game with
             | None => ret tt
             | Some g =>
                 total <- lift (Py.add_int (GameEntry.total_playtime g) session_seconds) ;;
                 modify (fun w => set_games (update_at game (GameEntry.set_total_playtime total) (games w)) w) ;;
                 modify (fun w => set_games (update_at game
                          (GameEntry.set_last_played (PStr (format_datetime now))) (games w)) w) ;;
                 GameNestLauncher.save_games ;;
                 modify (show (PlaytimeRecorded (GameEntry.name g) session_seconds))
             end)
            (fun e => modify (show (Warning "Failed to launch: " e)))
      end
  end.

(** ** Notions used in the statements *)

(** The catalog a launcher holds: records, scan folders, background path
    and blur value. *)
Definition catalog (w : World) : list GameEntry.t * pyval * pyval * pyval :=
  (games w, custom_scan_folders w, custom_background_path w, bg_blur_amount w).

Definition empty_catalog : list GameEntry.t * pyval * pyval * pyval :=
  ([], PList [], PNone, PInt 0).

(** The backing file holds the document of the launcher as it is now. *)
Definition persisted (w : World) : Prop :=
  games_file w = Json (GameNestLauncher.document w).

(** An integer in the range of the blur slider. *)
Definition blur_in_range (v : pyval) : Prop :=
  exists b, v = PInt b /\ 0 <= b <= 20.

(** A backing file whose blur value, when it has one, follows the schema. *)
Definition file_blur_ok (f : file_content) : Prop :=
  match f with
  | Json (PDict d) =>
      match Py.lookup d "custom_background_blur" with
      | Some v => blur_in_range v
      | None => True
      end
  | _ => True
  end.

(** The file cannot be read or cannot be parsed. *)
Definition load_fails (f : file_content) : Prop :=
  f = Unreadable \/ exists text, f = Malformed text.

(** The value of the key [k] in the bindings [d], or [default]. *)
Definition field (d : list (string * pyval)) (k : string) (default : pyval) : pyval :=
  match Py.lookup d k with
  | Some v => v
  | None => default
  end.

(** The bindings [d] have the key [k]. *)
Definition has_key (d : list (string * pyval)) (k : string) : Prop :=
  exists v, Py.lookup d k = Some v.

(** The record that the schema describes for a games entry with the
    bindings [d]: stored values where the keys are present, the defaults
    where they are absent. *)
Definition record_of (d : list (string * pyval)) : GameEntry.t :=
  {| GameEntry.name := field d "name" PNone;
     GameEntry.path := field d "path" PNone;
     GameEntry.icon_path := field d "icon_path" PNone;
     GameEntry.is_favorite := field d "is_favorite" (PBool false);
     GameEntry.notes := field d "notes" (PStr "");
     GameEntry.last_played := field d "last_played" (PStr "Never");
     GameEntry.total_playtime := field d "total_playtime" (PInt 0) |}.

(** The keys of a games entry. *)
Definition schema_keys : list string :=
  ["name"; "path"; "icon_path"; "is_favorite"; "notes"; "last_played"; "total_playtime"].

(** What one round of the loop of [load_games] makes of the entry [x]. *)
Definition load_record (x : pyval) : result GameEntry.t :=
  match GameEntry.from_dict x with
  | Raise e => Raise e
  | Ok g =>
      match Py.get x "notes" (PStr ""), Py.get x "last_played" (PStr "Never") with
      | Ok n, Ok l => Ok (GameEntry.set_last_played l (GameEntry.set_notes n g))
      | Raise e, _ => Raise e
      | _, Raise e => Raise e
      end
  end.

(** The records that the loop appends for the entries [items], and how it
    ends. *)
Fixpoint load_records (items : list pyval) : list GameEntry.t * result unit :=
  match items with
  | [] => ([], Ok tt)
  | x :: rest =>
      match load_record x with
      | Raise e => ([], Raise e)
      | Ok g => let '(gs, r) := load_records rest in (g :: gs, r)
      end
  end.

(** The blur value is in range, in the launcher and in the file. *)
Definition blur_invariant (w : World) : Prop :=
  blur_in_range (bg_blur_amount w) /\ file_blur_ok (games_file w).

(** The code [m] leaves a world that satisfies [I] whenever it starts in
    one, whether it returns or raises. *)
Definition preserves (I : World -> Prop) {A} (m : M A) : Prop :=
  forall w, I w -> I (fst (m w)).

(** ** More of the launcher *)

(** Line 565 of [on_game_selected] and lines 103-104 of the module-level
    [launch_selected_game]: the hours, minutes and seconds shown for a
    number of seconds; [//] and [%] round down. *)
Definition playtime_parts (seconds : Z) : Z * Z * Z :=
  (seconds / 3600, (seconds mod 3600) / 60, seconds mod 60).

(** Lines 520-533, [update_default_background]: one tick of the timer.
    With a custom background nothing moves; otherwise the shift advances
    and the two hues of the gradient are handed to [QColor.fromHsv]. *)
Definition update_default_background (custom_background_path : pyval) (gradient_shift : Z)
  : Z * option (Z * Z) :=
  if Py.truthy custom_background_path then (gradient_shift, None)
  else
    let shift := (gradient_shift + 1) mod 360 in
    (shift, Some (shift, (shift + 60) mod 360)).

(** Lines 469-479, [filter_sidebar]: the items, text and path, that the
    sidebar shows for the text typed in the search bar.  A name that is
    no string has no [lower]. *)
Fixpoint filter_sidebar_items (query : string) (gs : list GameEntry.t) : result (list (pyval * pyval)) :=
  match gs with
  | [] => Ok []
  | g :: rest =>
      match GameEntry.name g with
      | PStr n =>
          match filter_sidebar_items query rest with
          | Raise e => Raise e
          | Ok items =>
              if Str.contains query (Str.lower n)
              then Ok ((GameEntry.name g, GameEntry.path g) :: items)
              else Ok items
          end
      | _ => Raise AttributeError
      end
  end.

Definition filter_sidebar (search_text : string) (w : World) : result (list (pyval * pyval)) :=
  filter_sidebar_items (Str.lower search_text) (games w).

(** A name without separator and without colon, as the entries of a
    directory have. *)
Definition plain_name (n : string) : bool :=
  Str.all_chars (fun c => negb (Path.is_sep c) && negb (Ascii.eqb c ":"%char)) n.

(** The paths of the records, in order. *)
Definition paths (gs : list GameEntry.t) : list pyval := map GameEntry.path gs.

(** No two records have equal paths. *)
Definition distinct_paths (gs : list GameEntry.t) : Prop :=
  ForallOrdPairs (fun g h => Py.eq (GameEntry.path g) (GameEntry.path h) = false) gs.

(** The scan folders are the strings [l]. *)
Definition folders_are (w : World) (l : list string) : Prop :=
  custom_scan_folders w = PList (map PStr l).

(** [os.path.exists(p)] for a folder [p] *)
Definition folder_exists (fs : filesystem) (p : string) : bool :=
  match listing fs p with
  | Some _ => true
  | None => false
  end.

(** The folder Halo of the specification's examples: its three files, in
    the order in which the specification names them. *)
Definition halo_folder : list entry :=
  [File "Halo.exe"; File "unitycrashhandler64.exe"; File "HaloLauncher.exe"].

(** The two handlers of the scan-folder buttons. *)
Definition folder_event (ev : event) : bool :=
  match ev with
  | AddFolderClicked _ | RemoveFolderClicked _ => true
  | _ => false
  end.

(** The backing file can be written and holds the document. *)
Definition saved (w : World) : Prop :=
  writable w = true /\ persisted w.

(** The events that edit a record in place or leave the records alone:
    all but adding, removing and the reset. *)
Definition keeps_records (ev : event) : bool :=
  match ev with
  | AddClicked _ _ | ResetClicked _ => false
  | ContextMenuRequested _ (RemoveAction _) => false
  | _ => true
  end.

(** [not v] on the favorite flag, as [toggle_favorite] assigns it. *)
Definition flip_favorite (g : GameEntry.t) : GameEntry.t :=
  GameEntry.set_is_favorite (PBool (negb (Py.truthy (GameEntry.is_favorite g)))) g.

(** The name of [g] is a string that contains [query], in lower case. *)
Definition name_contains (query : string) (g : GameEntry.t) : bool :=
  match GameEntry.name g with
  | PStr n => Str.contains query (Str.lower n)
  | _ => false
  end.

(** The text and the path that a sidebar item carries for [g]. *)
Definition sidebar_item (g : GameEntry.t) : pyval * pyval :=
  (GameEntry.name g, GameEntry.path g).

(** The gradient shift after one tick of the timer. *)
Definition tick (custom_background_path : pyval) (gradient_shift : Z) : Z :=
  fst (update_default_background custom_background_path gradient_shift).

(** The slider shows the blur value, and the file follows the schema. *)
Definition slider_shows_blur (w : World) : Prop :=
  bg_blur_amount w = PInt (blur_slider w)
  /\ 0 <= blur_slider w <= 20
  /\ file_blur_ok (games_file w).

(** The code [m] never ends in [SystemExit], the one exception that
    [try_except] lets through. *)
Definition no_exit {A} (m : M A) : Prop :=
  forall w, snd (m w) <> Raise SystemExit.

(** A backing file whose blur value, when it has one, is an integer that
    the slider takes and does not have to raise: from 0 up to the largest
    C [int]. *)
Definition file_blur_fits (f : file_content) : Prop :=
  match f with
  | Json (PDict d) =>
      match Py.lookup d "custom_background_blur" with
      | Some v => exists b, v = PInt b /\ 0 <= b <= 2147483647
      | None => True
      end
  | _ => True
  end.

(** The blur value is the position of the slider. *)
Definition blur_shown (w : World) : Prop :=
  bg_blur_amount w = PInt (blur_slider w) /\ 0 <= blur_slider w <= 20.

(** The blur value and the slider as [__init__] sets them. *)
Definition blur_unset (w : World) : Prop :=
  bg_blur_amount w = PInt 0 /\ blur_slider w = 0.

(** * Properties *)

(** ** Paths and strings on examples *)

Example join_root_child : Path.join "C:\Games" "Halo" = "C:\Games\Halo".
Proof. reflexivity. Qed.

Example join_after_separator : Path.join "D:/" "Halo" = "D:/Halo".
Proof. reflexivity. Qed.

Example join_bare_drive : Path.join "D:" "Halo" = "D:Halo".
Proof. reflexivity. Qed.

Example basename_of_exe : Path.basename "C:\Games\Halo\Halo.exe" = "Halo.exe".
Proof. reflexivity. Qed.

Example splitext_plain : Path.splitext_root "HaloLauncher.exe" = "HaloLauncher".
Proof. reflexivity. Qed.

Example splitext_leading_dot : Path.splitext_root ".exe" = ".exe".
Proof. reflexivity. Qed.

Example splitext_two_dots : Path.splitext_root "a.b.exe" = "a.b".
Proof. reflexivity. Qed.

Example lower_mixed_case : Str.lower "UnityCrashHandler64.EXE" = "unitycrashhandler64.exe".
Proof. reflexivity. Qed.

Example exe_name_any_case : is_exe_name "Setup.ExE" = true /\ is_exe_name "readme.txt" = false.
Proof. split; reflexivity. Qed.

(** ** The walk and the candidates *)

Lemma in_filenames f es : In f (filenames es) <-> In (File f) es.
Proof.
  unfold filenames. rewrite in_flat_map. split.
  - intros [e [He Hf]]. destruct e as [n | n sub]; simpl in Hf.
    + destruct Hf as [-> | []]. exact He.
    + contradiction.
  - intros H. exists (File f). split; [exact H | simpl; auto].
Qed.

Lemma walk_entry_dir top n sub : walk_entry top (Dir n sub) = os_walk (Path.join top n) sub.
Proof. reflexivity. Qed.

(** Every file that a triple of the walk lists lies in the directory the
    triple names. *)
Lemma walk_entry_sound e :
  forall top root dirs files f,
    In (root, dirs, files) (walk_entry top e) -> In f files ->
    match e with
    | Dir n sub => file_at (Path.join top n) sub root f
    | File _ => False
    end.
Proof.
  induction e as [n | n sub IH] using entry_tree_ind; intros top root dirs files f Ht Hf.
  - simpl in Ht. contradiction.
  - simpl in Ht. destruct Ht as [Ht | Ht].
    + injection Ht as <- _ <-. apply file_here. apply in_filenames. exact Hf.
    + apply in_flat_map in Ht. destruct Ht as [e' [He' Ht]].
      rewrite Forall_forall in IH. specialize (IH e' He' _ _ _ _ f Ht Hf).
      destruct e' as [m | m sub']; [contradiction |].
      eapply file_below; eauto.
Qed.

Lemma os_walk_sound top es root dirs files f :
  In (root, dirs, files) (os_walk top es) -> In f files -> file_at top es root f.
Proof.
  unfold os_walk. intros [Ht | Ht] Hf.
  - injection Ht as <- _ <-. apply file_here. apply in_filenames. exact Hf.
  - apply in_flat_map in Ht. destruct Ht as [e [He Ht]].
    pose proof (walk_entry_sound e _ _ _ _ f Ht Hf) as H.
    destruct e as [m | m sub]; [contradiction |].
    eapply file_below; eauto.
Qed.

Lemma os_walk_complete top es d f :
  file_at top es d f ->
  exists dirs files, In (d, dirs, files) (os_walk top es) /\ In f files.
Proof.
  induction 1 as [top es f H | top es n sub d f Hin _ IH].
  - exists (dirnames es), (filenames es). split.
    + left. reflexivity.
    + apply in_filenames. exact H.
  - destruct IH as [dirs [files [Ht Hf]]]. exists dirs, files. split; [| exact Hf].
    right. apply in_flat_map. exists (Dir n sub). split; [exact Hin |].
    rewrite walk_entry_dir. exact Ht.
Qed.

(** The candidates are the paths of the files beneath the folder whose
    name ends in ".exe". *)
Lemma exe_candidates_spec folder_path contents c :
  In c (exe_candidates folder_path contents) <->
  exists d f, file_at folder_path contents d f /\ is_exe_name f = true /\ c = Path.join d f.
Proof.
  unfold exe_candidates. rewrite in_flat_map. split.
  - intros [[[root dirs] files] [Ht Hc]].
    apply in_map_iff in Hc. destruct Hc as [f [<- Hf]].
    apply filter_In in Hf. destruct Hf as [Hf Hexe].
    exists root, f. split; [| split]; auto.
    eapply os_walk_sound; eauto.
  - intros [d [f [Hat [Hexe ->]]]].
    apply os_walk_complete in Hat. destruct Hat as [dirs [files [Ht Hf]]].
    exists (d, dirs, files). split; [exact Ht |].
    apply in_map. apply filter_In. auto.
Qed.

(** ** The loops of [find_game_exe] *)

Lemma any_exclusion_passes c : negb (any_exclusion c) = Heuristic.passes_exclusion c.
Proof.
  unfold any_exclusion, Heuristic.passes_exclusion.
  induction exclusions as [| x xs IH]; simpl.
  - reflexivity.
  - rewrite negb_orb, IH. reflexivity.
Qed.

Lemma name_loop_find folder_path candidates :
  name_loop (Str.lower (Path.basename folder_path)) candidates =
  find (fun c => Heuristic.name_matches (Path.basename folder_path) c
                 && Heuristic.passes_exclusion c) candidates.
Proof.
  induction candidates as [| c rest IH]; simpl.
  - reflexivity.
  - unfold Heuristic.name_matches at 1. rewrite <- any_exclusion_passes.
    destruct (Str.contains _ _); simpl.
    + destruct (negb (any_exclusion c)); [reflexivity | exact IH].
    + exact IH.
Qed.

Lemma launcher_loop_find candidates :
  launcher_loop candidates =
  find (fun c => Heuristic.is_launcher c && Heuristic.passes_exclusion c) candidates.
Proof.
  induction candidates as [| c rest IH]; simpl.
  - reflexivity.
  - unfold Heuristic.is_launcher at 1. rewrite <- any_exclusion_passes.
    destruct (Str.contains _ _); simpl.
    + destruct (negb (any_exclusion c)); [reflexivity | exact IH].
    + exact IH.
Qed.

Lemma filtered_head_find candidates :
  hd_error (filter (fun c => negb (any_exclusion c)) candidates) =
  find Heuristic.passes_exclusion candidates.
Proof.
  induction candidates as [| c rest IH]; simpl.
  - reflexivity.
  - rewrite <- any_exclusion_passes. destruct (negb (any_exclusion c)); [reflexivity | exact IH].
Qed.

Lemma find_game_exe_select folder_path contents :
  find_game_exe folder_path contents =
  Heuristic.select (Path.basename folder_path) (exe_candidates folder_path contents).
Proof.
  unfold find_game_exe, Heuristic.select.
  rewrite <- name_loop_find, <- launcher_loop_find, <- filtered_head_find.
  destruct (exe_candidates folder_path contents) as [| first rest] eqn:E.
  - reflexivity.
  - destruct (name_loop _ _); [reflexivity |].
    destruct (launcher_loop _); [reflexivity |].
    destruct (filter _ _); reflexivity.
Qed.

Lemma find_some_in {A} (f : A -> bool) l x : find f l = Some x -> In x l.
Proof. intros H. apply find_some in H. tauto. Qed.

(** Case analysis on the [find] that the goal inspects first. *)
Ltac case_find :=
  match goal with
  | |- context [match find ?f ?l with _ => _ end] => destruct (find f l) eqn:?
  end.

Lemma select_in folder_name candidates c :
  Heuristic.select folder_name candidates = Some c -> In c candidates.
Proof.
  unfold Heuristic.select.
  repeat (case_find; [intros [= <-]; eapply find_some_in; eauto |]).
  destruct candidates; simpl; [discriminate | intros [= <-]; auto].
Qed.

Lemma select_none folder_name candidates :
  Heuristic.select folder_name candidates = None <-> candidates = [].
Proof.
  unfold Heuristic.select. split.
  - repeat (case_find; [discriminate |]).
    destruct candidates; [reflexivity | discriminate].
  - intros ->. reflexivity.
Qed.

(** The orders in which a directory of three entries can be listed. *)
Lemma listings_of_three {A} (a b c : A) l :
  Permutation l [a; b; c] ->
  In l [ [a; b; c]; [a; c; b]; [b; a; c]; [b; c; a]; [c; a; b]; [c; b; a] ].
Proof.
  intros H.
  destruct (Permutation_vs_cons_inv H) as (l1 & l2 & ->).
  apply Permutation_sym, Permutation_cons_app_inv, Permutation_length_2_inv in H.
  destruct l1 as [| p [| q [| r l1]]]; simpl in *;
    destruct H as [H | H]; inversion H; subst; simpl; tauto.
Qed.

(** C1. [find_game_exe] is the four-step heuristic: on the candidates of
    the folder it returns the first one that matches the folder's base name
    and passes the exclusion filter; failing that the first one that
    contains "launcher" and passes the filter; failing that the first one
    that passes the filter; failing that the first candidate.  For the
    folder Game4 with UnityCrashHandler64.exe alone it picks that file.
    For the folder Halo with Halo.exe, unitycrashhandler64.exe and
    HaloLauncher.exe the pick depends on the order of the listing, since
    Halo.exe and HaloLauncher.exe both match the name and pass the filter:
    it is Halo.exe when the files are listed in the order above, and in
    every listing of the three files that has Halo.exe before
    HaloLauncher.exe; it is HaloLauncher.exe in every listing that has
    HaloLauncher.exe before Halo.exe. *)
Theorem find_game_exe_heuristic :
  (forall folder_path contents,
      find_game_exe folder_path contents =
      Heuristic.select (Path.basename folder_path) (exe_candidates folder_path contents))
  /\ find_game_exe "C:\Games\Halo"
       [File "Halo.exe"; File "unitycrashhandler64.exe"; File "HaloLauncher.exe"]
     = Some "C:\Games\Halo\Halo.exe"
  /\ find_game_exe "C:\Games\Game4" [File "UnityCrashHandler64.exe"]
     = Some "C:\Games\Game4\UnityCrashHandler64.exe"
  /\ (forall pre post,
        Permutation (pre ++ File "Halo.exe" :: post) halo_folder ->
        In (File "HaloLauncher.exe") post ->
        find_game_exe "C:\Games\Halo" (pre ++ File "Halo.exe" :: post)
        = Some "C:\Games\Halo\Halo.exe")
  /\ (forall pre post,
        Permutation (pre ++ File "HaloLauncher.exe" :: post) halo_folder ->
        In (File "Halo.exe") post ->
        find_game_exe "C:\Games\Halo" (pre ++ File "HaloLauncher.exe" :: post)
        = Some "C:\Games\Halo\HaloLauncher.exe").
Proof.
  split; [| split; [| split]].
  - exact find_game_exe_select.
  - reflexivity.
  - reflexivity.
  - split; intros pre post H Hin; apply listings_of_three in H;
      destruct pre as [| p1 [| p2 [| p3 pre]]]; simpl in H;
      try (destruct pre; simpl in H);
      repeat (destruct H as [H | H]; [try discriminate H; inversion H; subst |]);
      try contradiction; simpl in Hin;
      try reflexivity; exfalso; intuition discriminate.
Qed.

Lemma find_game_exe_heuristic_witness :
  find_game_exe "C:\Games\Halo"
    [File "unitycrashhandler64.exe"; File "Halo.exe"; File "HaloLauncher.exe"]
  = Some "C:\Games\Halo\Halo.exe"
  /\ find_game_exe "C:\Games\Halo"
       [File "HaloLauncher.exe"; File "unitycrashhandler64.exe"; File "Halo.exe"]
     = Some "C:\Games\Halo\HaloLauncher.exe".
Proof.
  split.
  - apply (proj1 (proj2 (proj2 (proj2 find_game_exe_heuristic)))
             [File "unitycrashhandler64.exe"] [File "HaloLauncher.exe"]).
    + apply perm_swap.
    + left. reflexivity.
  - apply (proj2 (proj2 (proj2 (proj2 find_game_exe_heuristic)))
             [] [File "unitycrashhandler64.exe"; File "Halo.exe"]).
    + apply Permutation_sym. exact (Permutation_rev halo_folder).
    + right. left. reflexivity.
Defined.

(** The folder Halo listed with HaloLauncher.exe before Halo.exe: the
    first step takes the first match in listing order, and Halo.exe is
    not the pick. *)
Lemma find_game_exe_halo_counterexample :
  Permutation
    [File "HaloLauncher.exe"; File "Halo.exe"; File "unitycrashhandler64.exe"] halo_folder
  /\ find_game_exe "C:\Games\Halo"
       [File "HaloLauncher.exe"; File "Halo.exe"; File "unitycrashhandler64.exe"]
     = Some "C:\Games\Halo\HaloLauncher.exe"
  /\ find_game_exe "C:\Games\Halo"
       [File "HaloLauncher.exe"; File "Halo.exe"; File "unitycrashhandler64.exe"]
     <> Some "C:\Games\Halo\Halo.exe".
Proof.
  split; [| split].
  - apply Permutation_sym.
    apply (perm_trans (l' := [File "Halo.exe"; File "HaloLauncher.exe"; File "unitycrashhandler64.exe"])).
    + apply perm_skip. apply perm_swap.
    + apply perm_swap.
  - reflexivity.
  - intros H. vm_compute in H. discriminate H.
Qed.

(** The other two folders of the specification's examples. *)
Example find_game_exe_game2 :
  find_game_exe "C:\Games\Game2" [File "UnityCrashHandler64.exe"; File "Launcher.exe"]
  = Some "C:\Games\Game2\Launcher.exe".
Proof. reflexivity. Qed.

Example find_game_exe_game3 :
  find_game_exe "C:\Games\Game3" [File "UnityCrashHandler64.exe"; File "foo.exe"]
  = Some "C:\Games\Game3\foo.exe".
Proof. reflexivity. Qed.

(** The first step takes the first match in listing order: were
    HaloLauncher.exe listed before Halo.exe, it would be the pick. *)
Example find_game_exe_halo_other_order :
  find_game_exe "C:\Games\Halo"
    [File "HaloLauncher.exe"; File "Halo.exe"; File "unitycrashhandler64.exe"]
  = Some "C:\Games\Halo\HaloLauncher.exe".
Proof. reflexivity. Qed.

(** An executable deeper in the tree is a candidate like the others. *)
Example find_game_exe_nested :
  find_game_exe "C:\Games\Doom"
    [File "readme.txt"; Dir "bin" [File "doom_x64.exe"; File "Doom.EXE"]]
  = Some "C:\Games\Doom\bin\Doom.EXE".
Proof. reflexivity. Qed.

(** C10. [find_game_exe] returns nothing exactly when no file beneath the
    folder has a name ending in ".exe", whatever the case of the letters;
    and a path it returns is the path of such a file beneath the folder. *)
Theorem find_game_exe_result folder_path contents :
  (find_game_exe folder_path contents = None <->
   forall d f, file_at folder_path contents d f -> is_exe_name f = false)
  /\ (forall c, find_game_exe folder_path contents = Some c ->
        In c (exe_candidates folder_path contents) /\
        exists d f, file_at folder_path contents d f /\ is_exe_name f = true
                    /\ c = Path.join d f).
Proof.
  rewrite find_game_exe_select. split.
  - rewrite select_none. split.
    + intros E d f Hat. destruct (is_exe_name f) eqn:Hexe; [| reflexivity].
      assert (In (Path.join d f) (exe_candidates folder_path contents)) as Hin
        by (apply exe_candidates_spec; eauto).
      rewrite E in Hin. contradiction.
    + intros H. destruct (exe_candidates folder_path contents) as [| c rest] eqn:E; [reflexivity |].
      assert (In c (exe_candidates folder_path contents)) as Hin by (rewrite E; left; reflexivity).
      apply exe_candidates_spec in Hin. destruct Hin as [d [f [Hat [Hexe _]]]].
      rewrite (H d f Hat) in Hexe. discriminate.
  - intros c H. apply select_in in H. split; [exact H |].
    apply exe_candidates_spec. exact H.
Qed.

Lemma find_game_exe_result_witness :
  exists d f, file_at "C:\Games\Halo" [File "notes.txt"; Dir "bin" [File "Halo.exe"]] d f
              /\ is_exe_name f = true
              /\ "C:\Games\Halo\bin\Halo.exe" = Path.join d f.
Proof.
  apply (proj2 (find_game_exe_result "C:\Games\Halo" [File "notes.txt"; Dir "bin" [File "Halo.exe"]])
               "C:\Games\Halo\bin\Halo.exe").
  reflexivity.
Defined.

(** ** Records from JSON entries *)

Lemma from_dict_record d :
  has_key d "name" -> has_key d "path" ->
  GameEntry.from_dict (PDict d) = Ok (record_of d).
Proof.
  intros [n Hn] [p Hp]. unfold GameEntry.from_dict, Py.item, Py.get, record_of, field.
  rewrite Hn, Hp. reflexivity.
Qed.

Lemma load_record_record d :
  has_key d "name" -> has_key d "path" ->
  load_record (PDict d) = Ok (record_of d).
Proof.
  intros Hn Hp. unfold load_record. rewrite (from_dict_record d Hn Hp). reflexivity.
Qed.

Lemma load_records_records ds :
  Forall (fun d => has_key d "name" /\ has_key d "path") ds ->
  load_records (map PDict ds) = (map record_of ds, Ok tt).
Proof.
  induction 1 as [| d ds [Hn Hp] _ IH]; simpl.
  - reflexivity.
  - rewrite (load_record_record d Hn Hp), IH. reflexivity.
Qed.

Lemma from_dict_depends_on_schema d d' :
  (forall k, In k schema_keys -> Py.lookup d k = Py.lookup d' k) ->
  GameEntry.from_dict (PDict d) = GameEntry.from_dict (PDict d').
Proof.
  intros H. unfold GameEntry.from_dict, Py.item, Py.get.
  rewrite !(H _) by (simpl; tauto). reflexivity.
Qed.

(** The loop of [load_games] appends the records of [load_records] and
    touches nothing else. *)
Lemma load_loop items : forall w,
  for_each items GameNestLauncher.append_loaded w
  = (set_games (games w ++ fst (load_records items)) w, snd (load_records items)).
Proof.
  induction items as [| x rest IH]; intros w; simpl.
  - unfold ret, set_games. rewrite app_nil_r. destruct w; reflexivity.
  - unfold bind at 1. unfold load_record, GameNestLauncher.append_loaded.
    unfold bind at 1, lift at 1.
    destruct (GameEntry.from_dict x) as [g | e] eqn:Eg.
    2:{ simpl. unfold set_games. rewrite app_nil_r. destruct w; reflexivity. }
    unfold bind at 1, lift at 1.
    destruct (Py.get x "notes" (PStr "")) as [n | e] eqn:En.
    2:{ simpl. unfold set_games. rewrite app_nil_r. destruct w; reflexivity. }
    unfold bind at 1, lift at 1.
    destruct (Py.get x "last_played" (PStr "Never")) as [l | e] eqn:El.
    2:{ simpl. unfold set_games. rewrite app_nil_r. destruct w; reflexivity. }
    unfold modify at 1. rewrite IH.
    destruct (load_records rest) as [gs r]. simpl.
    unfold set_games; simpl. rewrite <- app_assoc. reflexivity.
Qed.

(** ** Running monadic code step by step *)

Section Steps.
Context {A B : Type}.

Lemma bind_ret (a : A) (k : A -> M B) w : bind (ret a) k w = k a w.
Proof. reflexivity. Qed.

Lemma bind_raise (e : exn) (k : A -> M B) w : bind (raise e) k w = (w, Raise e).
Proof. reflexivity. Qed.

Lemma bind_lift (r : result A) (k : A -> M B) w :
  bind (lift r) k w = match r with Ok a => k a w | Raise e => (w, Raise e) end.
Proof. reflexivity. Qed.

Lemma bind_read (k : World -> M B) w : bind read k w = k w w.
Proof. reflexivity. Qed.

Lemma bind_modify (f : World -> World) (k : unit -> M B) w :
  bind (modify f) k w = k tt (f w).
Proof. reflexivity. Qed.

Lemma bind_bind {C} (m : M A) (k : A -> M B) (k' : B -> M C) w :
  bind (bind m k) k' w = bind m (fun a => bind (k a) k') w.
Proof. unfold bind. destruct (m w) as [w' [a | e]]; reflexivity. Qed.
End Steps.

Lemma bind_load_loop {B} items (k : unit -> M B) w :
  bind (for_each items GameNestLauncher.append_loaded) k w =
  match snd (load_records items) with
  | Ok _ => k tt (set_games (games w ++ fst (load_records items)) w)
  | Raise e => (set_games (games w ++ fst (load_records items)) w, Raise e)
  end.
Proof.
  unfold bind at 1. rewrite load_loop. destruct (snd (load_records items)) as [[] | e]; reflexivity.
Qed.

Lemma bind_json_load {B} (k : pyval -> M B) w v :
  games_file w = Json v -> bind GameNestLauncher.json_load k w = k v w.
Proof. intros H. unfold bind, GameNestLauncher.json_load. rewrite H. reflexivity. Qed.

(** Rewriting with the equations above, and case analysis on what the
    goal inspects next. *)
Ltac step_m :=
  first [ rewrite bind_bind | rewrite bind_ret | rewrite bind_raise | rewrite bind_read
        | rewrite bind_modify | rewrite bind_lift | rewrite bind_load_loop ].

Ltac case_m :=
  match goal with
  | |- context [match ?x with _ => _ end] => is_var x; destruct x
  | |- context [match ?x with _ => _ end] =>
      lazymatch x with
      | context [match _ with _ => _ end] => fail
      | _ => destruct x eqn:?
      end
  end.

Ltac unfold_world :=
  cbv beta iota zeta delta
    [bind try_except ret raise lift read modify
     games custom_scan_folders custom_background_path bg_blur_amount blur_slider
     games_file writable shown
     set_games set_custom_scan_folders set_custom_background_path
     set_bg_blur_amount set_blur_slider set_games_file show fst snd].

Ltac run_m := repeat first [progress unfold_world | case_m].

(** ** What saving and the slider leave alone *)

Lemma save_games_keeps w :
  let w' := fst (GameNestLauncher.save_games w) in
  catalog w' = catalog w /\ blur_slider w' = blur_slider w /\ writable w' = writable w.
Proof.
  destruct w. unfold GameNestLauncher.save_games, try_except, catalog.
  run_m; auto.
Qed.

Lemma save_games_returns w : snd (GameNestLauncher.save_games w) = Ok tt.
Proof.
  destruct w. unfold GameNestLauncher.save_games, try_except.
  run_m; try reflexivity; discriminate.
Qed.

Lemma setValue_keeps value w :
  let w' := fst (GameNestLauncher.blur_slider_setValue value w) in
  games w' = games w /\ custom_scan_folders w' = custom_scan_folders w
  /\ custom_background_path w' = custom_background_path w /\ writable w' = writable w.
Proof.
  destruct w.
  unfold GameNestLauncher.blur_slider_setValue, GameNestLauncher.set_background_blur,
    GameNestLauncher.save_games, try_except.
  run_m; auto.
Qed.

(** The records that [load_games] leaves in the catalog: those of the
    entries it got through. *)
Lemma load_games_records w v xs items :
  games_file w = Json v ->
  Py.get v "games" (PList []) = Ok xs -> Py.iterate xs = Ok items ->
  games (fst (GameNestLauncher.load_games w)) = fst (load_records items).
Proof.
  intros Hf Hx Hi. unfold GameNestLauncher.load_games.
  rewrite bind_read. unfold GameNestLauncher.games_file_exists. rewrite Hf.
  unfold try_except. rewrite (bind_json_load _ _ _ Hf).
  unfold GameNestLauncher.load_document.
  rewrite bind_modify, bind_lift, Hx, bind_lift, Hi, bind_load_loop.
  destruct (load_records items) as [recs r].
  destruct r as [[] | e].
  2:{ destruct w; destruct e; reflexivity. }
  cbv beta iota delta [fst snd].
  repeat (rewrite bind_lift; case_m; [rewrite bind_modify | destruct w; case_m; reflexivity]).
  rewrite bind_lift. case_m; [| destruct w; case_m; reflexivity].
  match goal with
  | |- context [GameNestLauncher.blur_slider_setValue ?r ?w0] =>
      pose proof (setValue_keeps r w0) as Hk;
      destruct (GameNestLauncher.blur_slider_setValue r w0) as [w1 res]
  end.
  simpl in Hk. destruct Hk as [Hg _].
  assert (games w1 = recs) as <- by (rewrite Hg; destruct w; reflexivity).
  destruct res as [[] | e]; [reflexivity |].
  destruct w1; destruct e; reflexivity.
Qed.

(** C8. A games entry that has a name and a path becomes the record of
    the schema: each optional field that is absent takes its default (no
    icon, not a favorite, empty notes, "Never" played, no playtime), each
    field that is present keeps its stored value, and keys outside the
    schema change nothing.  [load_games] puts these records in the
    catalog, in the order of the entries. *)
Theorem load_entry_defaults :
  (forall d, has_key d "name" -> has_key d "path" ->
     GameEntry.from_dict (PDict d) = Ok (record_of d)
     /\ load_record (PDict d) = Ok (record_of d))
  /\ (forall n p,
        GameEntry.from_dict (PDict [("name", n); ("path", p)]) =
        Ok {| GameEntry.name := n; GameEntry.path := p;
              GameEntry.icon_path := PNone; GameEntry.is_favorite := PBool false;
              GameEntry.notes := PStr ""; GameEntry.last_played := PStr "Never";
              GameEntry.total_playtime := PInt 0 |})
  /\ (forall d d',
        (forall k, In k schema_keys -> Py.lookup d k = Py.lookup d' k) ->
        GameEntry.from_dict (PDict d) = GameEntry.from_dict (PDict d'))
  /\ (forall w v ds,
        games_file w = Json v ->
        Py.get v "games" (PList []) = Ok (PList (map PDict ds)) ->
        Forall (fun d => has_key d "name" /\ has_key d "path") ds ->
        games (fst (GameNestLauncher.load_games w)) = map record_of ds).
Proof.
  split; [| split; [| split]].
  - intros d Hn Hp. split.
    + apply from_dict_record; assumption.
    + apply load_record_record; assumption.
  - intros n p. reflexivity.
  - exact from_dict_depends_on_schema.
  - intros w v ds Hf Hx Hall.
    rewrite (load_games_records w v (PList (map PDict ds)) (map PDict ds) Hf Hx eq_refl).
    rewrite (load_records_records ds Hall). reflexivity.
Qed.

Lemma load_entry_defaults_witness :
  games (fst (GameNestLauncher.load_games
    (GameNestLauncher.initial
       (Json (PDict [("games",
          PList (map PDict
            [ [("name", PStr "Halo"); ("path", PStr "C:\Games\Halo\Halo.exe");
               ("platform", PStr "pc"); ("is_favorite", PBool true)] ]))]))
       true)))
  = [ {| GameEntry.name := PStr "Halo"; GameEntry.path := PStr "C:\Games\Halo\Halo.exe";
         GameEntry.icon_path := PNone; GameEntry.is_favorite := PBool true;
         GameEntry.notes := PStr ""; GameEntry.last_played := PStr "Never";
         GameEntry.total_playtime := PInt 0 |} ].
Proof.
  apply (proj2 (proj2 (proj2 load_entry_defaults)) _
           (PDict [("games",
              PList (map PDict
                [ [("name", PStr "Halo"); ("path", PStr "C:\Games\Halo\Halo.exe");
                   ("platform", PStr "pc"); ("is_favorite", PBool true)] ]))])
           [ [("name", PStr "Halo"); ("path", PStr "C:\Games\Halo\Halo.exe");
              ("platform", PStr "pc"); ("is_favorite", PBool true)] ]).
  - reflexivity.
  - reflexivity.
  - repeat constructor; eexists; reflexivity.
Defined.

(** ** A file that cannot be loaded *)

Lemma load_games_failure w :
  load_fails (games_file w) ->
  exists e, GameNestLauncher.load_games w
            = (show (Warning "Failed to load games.json: " e) w, Ok tt).
Proof.
  unfold GameNestLauncher.load_games, GameNestLauncher.games_file_exists,
    GameNestLauncher.json_load, try_except.
  intros [H | [text H]]; destruct w; simpl in H; subst; run_m.
  - exists OSError. reflexivity.
  - exists JSONDecodeError. reflexivity.
Qed.

Lemma load_record_exn x e : load_record x = Raise e -> e <> SystemExit.
Proof.
  unfold load_record, GameEntry.from_dict, Py.item, Py.get.
  destruct x; try (intros [= <-]; discriminate).
  destruct (Py.lookup d "name"); [| intros [= <-]; discriminate].
  destruct (Py.lookup d "path"); [| intros [= <-]; discriminate].
  discriminate.
Qed.

Lemma load_records_faulty good bad rest e :
  snd (load_records good) = Ok tt -> load_record bad = Raise e ->
  load_records (good ++ bad :: rest) = (fst (load_records good), Raise e).
Proof.
  intros Hgood Hbad. induction good as [| x r IH]; simpl in *.
  - rewrite Hbad. reflexivity.
  - destruct (load_record x) as [g | e']; [| discriminate].
    destruct (load_records r) as [gs res]. simpl in *.
    rewrite (IH Hgood). reflexivity.
Qed.

(** *** No exception leaves [load_games] *)

Lemma no_exit_ret {A} (a : A) : no_exit (ret a).
Proof. intros w. discriminate. Qed.

Lemma no_exit_read : no_exit read.
Proof. intros w. discriminate. Qed.

Lemma no_exit_modify f : no_exit (modify f).
Proof. intros w. discriminate. Qed.

Lemma no_exit_lift {A} (r : result A) : r <> Raise SystemExit -> no_exit (lift r).
Proof. intros H w. exact H. Qed.

Lemma no_exit_bind {A B} (m : M A) (k : A -> M B) :
  no_exit m -> (forall a, no_exit (k a)) -> no_exit (bind m k).
Proof.
  intros Hm Hk w. unfold bind. specialize (Hm w).
  destruct (m w) as [w' [a | e]]; simpl in *; [apply Hk |].
  intros [= ->]. apply Hm. reflexivity.
Qed.

Lemma no_exit_for_each {A} (l : list A) (body : A -> M unit) :
  (forall x, no_exit (body x)) -> no_exit (for_each l body).
Proof.
  intros Hb. induction l as [| x r IH]; simpl.
  - apply no_exit_ret.
  - apply no_exit_bind; [apply Hb | intros _; exact IH].
Qed.

Lemma no_exit_returns (m : M unit) :
  (forall w, snd (m w) = Ok tt) -> no_exit m.
Proof. intros H w. rewrite H. discriminate. Qed.

Lemma try_except_returns (m : M unit) (h : exn -> M unit) w :
  no_exit m -> (forall e w', snd (h e w') = Ok tt) -> snd (try_except m h w) = Ok tt.
Proof.
  intros Hm Hh. unfold try_except. specialize (Hm w).
  destruct (m w) as [w' [[] | e]]; simpl in *; [reflexivity |].
  destruct e; try apply Hh. contradiction.
Qed.

Lemma get_no_exit x k d : Py.get x k d <> Raise SystemExit.
Proof. destruct x; discriminate. Qed.

Lemma from_dict_no_exit x : GameEntry.from_dict x <> Raise SystemExit.
Proof.
  unfold GameEntry.from_dict, Py.item.
  destruct x; try discriminate.
  destruct (Py.lookup d "name"); [| discriminate].
  destruct (Py.lookup d "path"); discriminate.
Qed.

Ltac no_exit_steps :=
  repeat match goal with
  | |- no_exit (bind _ _) => apply no_exit_bind; [| intros ?]
  | |- no_exit (for_each _ _) => apply no_exit_for_each; intros ?
  | |- no_exit (modify _) => apply no_exit_modify
  | |- no_exit read => apply no_exit_read
  | |- no_exit (ret _) => apply no_exit_ret
  | |- no_exit (raise _) => intros ?; discriminate
  | |- no_exit (lift (Py.get _ _ _)) => apply no_exit_lift, get_no_exit
  | |- no_exit (lift (GameEntry.from_dict _)) => apply no_exit_lift, from_dict_no_exit
  | |- no_exit (lift (Py.iterate ?x)) => apply no_exit_lift; destruct x; discriminate
  | |- no_exit (lift (Py.as_int ?x)) => apply no_exit_lift; destruct x; discriminate
  | |- no_exit GameNestLauncher.save_games => apply no_exit_returns, save_games_returns
  | |- no_exit (if ?b then _ else _) => destruct b
  end.

Lemma load_document_no_exit v : no_exit (GameNestLauncher.load_document v).
Proof.
  unfold GameNestLauncher.load_document, GameNestLauncher.append_loaded,
    GameNestLauncher.blur_slider_setValue, GameNestLauncher.set_background_blur.
  no_exit_steps.
Qed.

Lemma load_games_returns w : snd (GameNestLauncher.load_games w) = Ok tt.
Proof.
  unfold GameNestLauncher.load_games. rewrite bind_read.
  destruct (GameNestLauncher.games_file_exists w); [| apply save_games_returns].
  apply try_except_returns.
  - apply no_exit_bind.
    + intros w0. unfold GameNestLauncher.json_load. destruct (games_file w0); discriminate.
    + apply load_document_no_exit.
  - reflexivity.
Qed.

(** *** A failure that is reported leaves the file *)

Lemma setValue_outcome value w :
  match GameNestLauncher.blur_slider_setValue value w with
  | (w', Raise e) => games_file w' = games_file w /\ shown w' = shown w
  | (w', Ok _) =>
      shown w' = shown w
      \/ exists e, shown w' = (shown w ++ [Warning "Failed to save games.json: " e])%list
  end.
Proof.
  destruct w.
  unfold GameNestLauncher.blur_slider_setValue, GameNestLauncher.set_background_blur,
    GameNestLauncher.save_games, try_except.
  run_m; auto; right; eexists; reflexivity.
Qed.

(** When [load_document] raises, nothing has been written and nothing has
    been shown; when it returns, the one message it can have caused is
    that of a failed save. *)
Lemma load_document_outcome v w :
  match GameNestLauncher.load_document v w with
  | (w', Raise e) => games_file w' = games_file w /\ shown w' = shown w
  | (w', Ok _) =>
      shown w' = shown w
      \/ exists e, shown w' = (shown w ++ [Warning "Failed to save games.json: " e])%list
  end.
Proof.
  unfold GameNestLauncher.load_document.
  rewrite bind_modify, bind_lift.
  destruct (Py.get v "games" (PList [])) as [xs | e]; [| destruct w; split; reflexivity].
  rewrite bind_lift.
  destruct (Py.iterate xs) as [items | e]; [| destruct w; split; reflexivity].
  rewrite bind_load_loop.
  destruct (load_records items) as [recs [[] | e]]; [| destruct w; split; reflexivity].
  cbv beta iota delta [fst snd].
  repeat (rewrite bind_lift; case_m; [rewrite bind_modify | destruct w; split; reflexivity]).
  rewrite bind_lift. case_m; [| destruct w; split; reflexivity].
  match goal with
  | |- context [GameNestLauncher.blur_slider_setValue ?r ?w0] =>
      pose proof (setValue_outcome r w0) as Hk;
      destruct (GameNestLauncher.blur_slider_setValue r w0) as [w1 res]
  end.
  destruct w. exact Hk.
Qed.

Lemma load_games_reported w e :
  shown (fst (GameNestLauncher.load_games w))
  = (shown w ++ [Warning "Failed to load games.json: " e])%list ->
  games_file (fst (GameNestLauncher.load_games w)) = games_file w.
Proof.
  assert (forall (l : list message) x, l <> (l ++ [x])%list) as Hlen.
  { intros l x H. apply (f_equal (@List.length _)) in H. rewrite length_app in H. simpl in H. lia. }
  unfold GameNestLauncher.load_games. rewrite bind_read.
  destruct (games_file w) as [| | text | v] eqn:Hf;
    unfold GameNestLauncher.games_file_exists; rewrite Hf.
  - destruct w. unfold GameNestLauncher.save_games, try_except. run_m.
    + intros H. apply Hlen in H. contradiction.
    + intros H. apply app_inv_head in H. discriminate H.
  - intros _. unfold try_except, bind, GameNestLauncher.json_load. rewrite Hf.
    destruct w; simpl in *. exact Hf.
  - intros _. unfold try_except, bind, GameNestLauncher.json_load. rewrite Hf.
    destruct w; simpl in *. exact Hf.
  - unfold try_except. rewrite (bind_json_load _ _ _ Hf).
    pose proof (load_document_outcome v w) as Ho.
    destruct (GameNestLauncher.load_document v w) as [w' [[] | e']].
    + simpl. destruct Ho as [Ho | [e' Ho]]; rewrite Ho; intros H.
      * apply Hlen in H. contradiction.
      * apply app_inv_head in H. discriminate H.
    + intros _. destruct Ho as [Ho _]. rewrite <- Hf, <- Ho.
      destruct e'; destruct w'; reflexivity.
Qed.

(** The state in which [load_games] leaves the launcher when an entry of
    the games array cannot be made a record. *)
Lemma load_games_faulty w v xs good bad rest e :
  games_file w = Json v ->
  Py.get v "games" (PList []) = Ok xs ->
  Py.iterate xs = Ok (good ++ bad :: rest)%list ->
  snd (load_records good) = Ok tt ->
  load_record bad = Raise e ->
  GameNestLauncher.load_games w
  = (show (Warning "Failed to load games.json: " e)
       (set_games (fst (load_records good)) w), Ok tt).
Proof.
  intros Hf Hx Hi Hgood Hbad. unfold GameNestLauncher.load_games.
  rewrite bind_read. unfold GameNestLauncher.games_file_exists. rewrite Hf.
  unfold try_except. rewrite (bind_json_load _ _ _ Hf).
  unfold GameNestLauncher.load_document.
  rewrite bind_modify, bind_lift, Hx, bind_lift, Hi, bind_load_loop.
  rewrite (load_records_faulty good bad rest e Hgood Hbad).
  pose proof (load_record_exn bad e Hbad) as Hne.
  cbv beta iota delta [fst snd]. destruct w. destruct e; try reflexivity. contradiction.
Qed.

(** C7. [load_games] never crashes: whatever the backing file, it returns
    normally, and whenever it reports that it failed to load, the file is
    as it was.  When the file cannot be read or is no JSON text, it shows
    one warning that carries the error and leaves the catalog as it was;
    at start-up, the only place the program loads, that is the empty
    catalog.  When the file is JSON but an entry of its games array cannot
    be made a record, it shows the same warning and leaves the file as it
    was, but the catalog is not emptied: the records of the entries before
    the faulty one are in it, and scan folders, background and blur are
    as they were. *)
Theorem load_games_fails_gracefully :
  (forall w, snd (GameNestLauncher.load_games w) = Ok tt)
  /\ (forall w e,
        shown (fst (GameNestLauncher.load_games w))
        = (shown w ++ [Warning "Failed to load games.json: " e])%list ->
        games_file (fst (GameNestLauncher.load_games w)) = games_file w)
  /\ (forall w, load_fails (games_file w) ->
        let w' := fst (GameNestLauncher.load_games w) in
        (exists e, shown w' = (shown w ++ [Warning "Failed to load games.json: " e])%list)
        /\ catalog w' = catalog w
        /\ games_file w' = games_file w)
  /\ (forall file can_write, load_fails file ->
        let w' := fst (GameNestLauncher.startup file can_write) in
        snd (GameNestLauncher.startup file can_write) = Ok tt
        /\ (exists e, shown w' = [Warning "Failed to load games.json: " e])
        /\ catalog w' = empty_catalog
        /\ games w' = []
        /\ games_file w' = file)
  /\ (forall w v xs good bad rest e,
        games_file w = Json v ->
        Py.get v "games" (PList []) = Ok xs ->
        Py.iterate xs = Ok (good ++ bad :: rest)%list ->
        snd (load_records good) = Ok tt ->
        load_record bad = Raise e ->
        let w' := fst (GameNestLauncher.load_games w) in
        shown w' = (shown w ++ [Warning "Failed to load games.json: " e])%list
        /\ games w' = fst (load_records good)
        /\ custom_scan_folders w' = custom_scan_folders w
        /\ custom_background_path w' = custom_background_path w
        /\ bg_blur_amount w' = bg_blur_amount w
        /\ games_file w' = games_file w).
Proof.
  split; [exact load_games_returns |].
  split; [exact load_games_reported |].
  split; [| split].
  - intros w H. destruct (load_games_failure w H) as [e ->].
    destruct w. simpl. repeat split. exists e. reflexivity.
  - intros file can_write H. unfold GameNestLauncher.startup.
    destruct (load_games_failure (GameNestLauncher.initial file can_write)) as [e ->].
    + exact H.
    + simpl. repeat split. exists e. reflexivity.
  - intros w v xs good bad rest e Hf Hx Hi Hgood Hbad.
    rewrite (load_games_faulty w v xs good bad rest e Hf Hx Hi Hgood Hbad).
    destruct w. simpl. repeat split.
Qed.

Lemma load_games_fails_gracefully_witness :
  (let w' := fst (GameNestLauncher.startup (Malformed "{ games: [") true) in
   snd (GameNestLauncher.startup (Malformed "{ games: [") true) = Ok tt
   /\ (exists e, shown w' = [Warning "Failed to load games.json: " e])
   /\ catalog w' = empty_catalog
   /\ games w' = []
   /\ games_file w' = Malformed "{ games: [")
  /\ (let file := Json (PDict [("games", PList
           [ PDict [("name", PStr "A"); ("path", PStr "C:\a.exe")];
             PDict [("name", PStr "B")] ]);
           ("custom_scan_folders", PList [PStr "D:/Games"])]) in
      let w := GameNestLauncher.initial file true in
      let w' := fst (GameNestLauncher.load_games w) in
      shown w' = [Warning "Failed to load games.json: " (KeyError "path")]
      /\ games w' = [GameEntry.init (PStr "A") (PStr "C:\a.exe") PNone]
      /\ custom_scan_folders w' = PList []
      /\ custom_background_path w' = PNone
      /\ bg_blur_amount w' = PInt 0
      /\ games_file w' = file).
Proof.
  split.
  - apply (proj1 (proj2 (proj2 (proj2 load_games_fails_gracefully)))).
    right. exists "{ games: [". reflexivity.
  - intros file w.
    apply (proj2 (proj2 (proj2 (proj2 load_games_fails_gracefully))) w
             (PDict [("games", PList
                [ PDict [("name", PStr "A"); ("path", PStr "C:\a.exe")];
                  PDict [("name", PStr "B")] ]);
                ("custom_scan_folders", PList [PStr "D:/Games"])])
             (PList [ PDict [("name", PStr "A"); ("path", PStr "C:\a.exe")];
                      PDict [("name", PStr "B")] ])
             [PDict [("name", PStr "A"); ("path", PStr "C:\a.exe")]]
             (PDict [("name", PStr "B")]) [] (KeyError "path")).
    + reflexivity.
    + reflexivity.
    + reflexivity.
    + reflexivity.
    + reflexivity.
Defined.

(** A file that parses but has an entry without a path: loading it is
    reported as failed, and the catalog is not the empty one, for the
    record before that entry is in it. *)
Lemma load_games_partial_counterexample :
  let file := Json (PDict [("games", PList
       [ PDict [("name", PStr "A"); ("path", PStr "C:\a.exe")];
         PDict [("name", PStr "B")] ])]) in
  let w' := fst (GameNestLauncher.startup file true) in
  shown w' = [Warning "Failed to load games.json: " (KeyError "path")]
  /\ games w' = [GameEntry.init (PStr "A") (PStr "C:\a.exe") PNone]
  /\ catalog w' <> empty_catalog.
Proof.
  split; [reflexivity | split; [reflexivity |]].
  intros H. vm_compute in H. discriminate H.
Qed.

(** A file that parses is another matter: when an entry of its games
    array lacks a key, the records before that entry are in the catalog
    when the warning is shown. *)
Example load_games_stops_at_bad_entry :
  let file := Json (PDict [("games", PList
       [ PDict [("name", PStr "A"); ("path", PStr "C:\a.exe")];
         PDict [("name", PStr "B")] ])]) in
  GameNestLauncher.startup file true
  = (show (Warning "Failed to load games.json: " (KeyError "path"))
       (set_games [GameEntry.init (PStr "A") (PStr "C:\a.exe") PNone]
          (GameNestLauncher.initial file true)),
     Ok tt).
Proof. reflexivity. Qed.

(** ** Saving, then loading *)

Lemma load_record_game_json g : load_record (GameNestLauncher.game_json g) = Ok g.
Proof. destruct g. reflexivity. Qed.

Lemma load_records_game_json gs :
  load_records (map GameNestLauncher.game_json gs) = (gs, Ok tt).
Proof.
  induction gs as [| g gs IH]; cbn [map load_records].
  - reflexivity.
  - rewrite load_record_game_json, IH. reflexivity.
Qed.

Lemma save_games_writes w :
  writable w = true ->
  games_file (fst (GameNestLauncher.save_games w)) = Json (GameNestLauncher.document w).
Proof.
  intros H. destruct w. simpl in H. subst.
  unfold GameNestLauncher.save_games. reflexivity.
Qed.

Lemma clamp_in_range b : 0 <= b <= 20 -> Z.max 0 (Z.min 20 b) = b.
Proof. lia. Qed.

(** Loading a document that was saved from [w], into any launcher [w0]. *)
Lemma load_saved_document w w0 b :
  games_file w0 = Json (GameNestLauncher.document w) ->
  bg_blur_amount w = PInt b -> 0 <= b <= 20 ->
  catalog (fst (GameNestLauncher.load_games w0)) = catalog w
  /\ snd (GameNestLauncher.load_games w0) = Ok tt.
Proof.
  intros Hf Hb Hr.
  unfold GameNestLauncher.load_games.
  rewrite bind_read. unfold GameNestLauncher.games_file_exists. rewrite Hf.
  unfold try_except. rewrite (bind_json_load _ _ _ Hf).
  unfold GameNestLauncher.load_document.
  rewrite bind_modify, bind_lift.
  change (Py.get (GameNestLauncher.document w) "games" (PList []))
    with (Ok (PList (map GameNestLauncher.game_json (games w)))).
  cbv beta iota. rewrite bind_lift. cbv beta iota delta [Py.iterate].
  rewrite bind_load_loop, load_records_game_json. cbv beta iota delta [fst snd].
  rewrite bind_lift.
  change (Py.get (GameNestLauncher.document w) "custom_scan_folders" (PList []))
    with (Ok (custom_scan_folders w)).
  cbv beta iota. rewrite bind_modify, bind_lift.
  change (Py.get (GameNestLauncher.document w) "custom_background_path" PNone)
    with (Ok (custom_background_path w)).
  cbv beta iota. rewrite bind_modify, bind_lift.
  change (Py.get (GameNestLauncher.document w) "custom_background_blur" (PInt 0))
    with (Ok (bg_blur_amount w)).
  cbv beta iota. rewrite bind_modify, bind_lift. rewrite Hb.
  cbv beta iota delta [Py.as_int].
  unfold GameNestLauncher.blur_slider_setValue.
  rewrite (clamp_in_range b Hr).
  assert ((b <? - 2147483648) || (2147483647 <? b) = false) as ->.
  { apply orb_false_iff. split; apply Z.ltb_ge; lia. }
  unfold GameNestLauncher.set_background_blur, GameNestLauncher.save_games, try_except, catalog.
  destruct w as [gs csf bg blur sl f wr sh]. simpl in Hb. subst blur.
  destruct w0 as [gs0 csf0 bg0 blur0 sl0 f0 wr0 sh0].
  run_m; split; reflexivity.
Qed.

(** C2. Saving a catalog whose blur value is an integer of the slider's
    range, then loading the file that was written, gives back the same
    records with the same fields in the same order, the same scan folders,
    the same background path and the same blur value; the launcher that
    loads may be a new one or any other. *)
Theorem load_save_roundtrip (w w0 : World) (b : Z) :
  writable w = true ->
  bg_blur_amount w = PInt b -> 0 <= b <= 20 ->
  let file := games_file (fst (GameNestLauncher.save_games w)) in
  let loaded := GameNestLauncher.load_games (set_games_file file w0) in
  games (fst loaded) = games w
  /\ custom_scan_folders (fst loaded) = custom_scan_folders w
  /\ custom_background_path (fst loaded) = custom_background_path w
  /\ bg_blur_amount (fst loaded) = bg_blur_amount w
  /\ snd loaded = Ok tt.
Proof.
  intros Hw Hb Hr file loaded. subst file loaded.
  rewrite (save_games_writes w Hw).
  assert (games_file (set_games_file (Json (GameNestLauncher.document w)) w0)
          = Json (GameNestLauncher.document w)) as Hf by (destruct w0; reflexivity).
  destruct (load_saved_document w _ b Hf Hb Hr) as [Hc Hok].
  unfold catalog in Hc. injection Hc as H1 H2 H3 H4. repeat split; assumption.
Qed.

Lemma load_save_roundtrip_witness :
  let w := mkWorld
      [ {| GameEntry.name := PStr "Halo"; GameEntry.path := PStr "C:\Games\Halo\Halo.exe";
           GameEntry.icon_path := PNone; GameEntry.is_favorite := PBool true;
           GameEntry.notes := PStr "co-op"; GameEntry.last_played := PStr "2024-05-01 20:15:00";
           GameEntry.total_playtime := PInt 125 |};
        GameEntry.init (PStr "Doom") (PStr "C:\Games\Doom\doom.exe") (PStr "C:\Games\Doom\doom.bmp") ]
      (PList [PStr "D:/Games"]) (PStr "C:/bg.png") (PInt 7) 7 Absent true [] in
  let file := games_file (fst (GameNestLauncher.save_games w)) in
  let loaded := GameNestLauncher.load_games (set_games_file file (GameNestLauncher.initial Absent true)) in
  games (fst loaded) = games w
  /\ custom_scan_folders (fst loaded) = custom_scan_folders w
  /\ custom_background_path (fst loaded) = custom_background_path w
  /\ bg_blur_amount (fst loaded) = bg_blur_amount w
  /\ snd loaded = Ok tt.
Proof.
  intros w. apply (load_save_roundtrip w (GameNestLauncher.initial Absent true) 7).
  - reflexivity.
  - reflexivity.
  - lia.
Defined.

(** The range matters: a blur value above it comes back as the slider's
    maximum. *)
Example load_clamps_large_blur :
  bg_blur_amount (fst (GameNestLauncher.startup
     (Json (PDict [("custom_background_blur", PInt 50)])) true)) = PInt 20.
Proof. reflexivity. Qed.


(** ** Invariants of monadic code *)

Section Preservation.
Variable I : World -> Prop.

Lemma preserves_ret {A} (a : A) : preserves I (ret a).
Proof. intros w H. exact H. Qed.

Lemma preserves_raise {A} (e : exn) : preserves I (@raise A e).
Proof. intros w H. exact H. Qed.

Lemma preserves_lift {A} (r : result A) : preserves I (lift r).
Proof. intros w H. exact H. Qed.

Lemma preserves_read : preserves I read.
Proof. intros w H. exact H. Qed.

Lemma preserves_modify (f : World -> World) :
  (forall w, I w -> I (f w)) -> preserves I (modify f).
Proof. intros Hf w H. apply Hf. exact H. Qed.

Lemma preserves_bind {A B} (m : M A) (k : A -> M B) :
  preserves I m -> (forall a, preserves I (k a)) -> preserves I (bind m k).
Proof.
  intros Hm Hk w H. unfold bind. specialize (Hm w H).
  destruct (m w) as [w' [a | e]]; simpl in *.
  - apply Hk. exact Hm.
  - exact Hm.
Qed.

Lemma preserves_try (m : M unit) (h : exn -> M unit) :
  preserves I m -> (forall e, preserves I (h e)) -> preserves I (try_except m h).
Proof.
  intros Hm Hh w H. unfold try_except. specialize (Hm w H).
  destruct (m w) as [w' [a | e]]; simpl in *.
  - exact Hm.
  - destruct e; try (apply Hh; exact Hm); exact Hm.
Qed.

Lemma preserves_for_each {A} (l : list A) (body : A -> M unit) :
  (forall x, preserves I (body x)) -> preserves I (for_each l body).
Proof.
  intros Hb. induction l as [| x r IH]; simpl.
  - apply preserves_ret.
  - apply preserves_bind; [apply Hb | intros _; exact IH].
Qed.
End Preservation.

(** An invariant that looks at the blur value and at the file only is
    kept by every assignment to another attribute. *)
Ltac frame_modify :=
  apply preserves_modify;
  let w := fresh "w" in let H := fresh "H" in
  intros w H; destruct w; exact H.

Ltac preserve :=
  repeat match goal with
  | |- preserves _ (bind _ _) => apply preserves_bind; [| intros ?]
  | |- preserves _ (ret _) => apply preserves_ret
  | |- preserves _ (raise _) => apply preserves_raise
  | |- preserves _ (lift _) => apply preserves_lift
  | |- preserves _ read => apply preserves_read
  | |- preserves _ (try_except _ _) => apply preserves_try; [| intros ?]
  | |- preserves _ (for_each _ _) => apply preserves_for_each; intros ?
  | |- preserves _ (modify _) => frame_modify
  | |- preserves _ (match ?x with _ => _ end) => destruct x
  end.

(** ** The blur value *)

Lemma document_blur_ok w :
  blur_in_range (bg_blur_amount w) -> file_blur_ok (Json (GameNestLauncher.document w)).
Proof. intros H. exact H. Qed.

Lemma save_games_blur : preserves blur_invariant GameNestLauncher.save_games.
Proof.
  intros w [Hb Hf]. destruct w as [gs csf bg blur sl f wr sh].
  unfold GameNestLauncher.save_games. destruct wr; split; assumption.
Qed.

Lemma set_background_blur_blur value :
  0 <= value <= 20 -> preserves blur_invariant (GameNestLauncher.set_background_blur value).
Proof.
  intros Hr. unfold GameNestLauncher.set_background_blur.
  apply preserves_bind; [| intros _; apply save_games_blur].
  apply preserves_modify. intros w [_ Hf]. destruct w. split.
  - exists value. split; [reflexivity | exact Hr].
  - exact Hf.
Qed.

Lemma setValue_blur value : preserves blur_invariant (GameNestLauncher.blur_slider_setValue value).
Proof.
  unfold GameNestLauncher.blur_slider_setValue.
  destruct (_ || _); [apply preserves_raise |].
  apply preserves_bind; [apply preserves_read | intros w0].
  destruct (_ =? _); [apply preserves_ret |].
  apply preserves_bind; [frame_modify | intros _].
  apply set_background_blur_blur. lia.
Qed.

Lemma get_blur_in_range v blur :
  file_blur_ok (Json v) ->
  Py.get v "custom_background_blur" (PInt 0) = Ok blur -> blur_in_range blur.
Proof.
  destruct v; simpl; try discriminate.
  intros Hf [= <-]. destruct (Py.lookup d "custom_background_blur").
  - exact Hf.
  - exists 0. split; [reflexivity | lia].
Qed.

Lemma preserves_bind_lift I {A B} (r : result A) (k : A -> M B) :
  (forall a, r = Ok a -> preserves I (k a)) -> preserves I (bind (lift r) k).
Proof.
  intros Hk w H. rewrite bind_lift. destruct r as [a | e].
  - apply (Hk a eq_refl). exact H.
  - exact H.
Qed.

Lemma load_document_blur v :
  file_blur_ok (Json v) -> preserves blur_invariant (GameNestLauncher.load_document v).
Proof.
  intros Hv. unfold GameNestLauncher.load_document, GameNestLauncher.append_loaded.
  do 8 (apply preserves_bind; [solve [preserve] | intros ?]).
  apply preserves_bind_lift. intros blur Hblur.
  apply preserves_bind.
  - apply preserves_modify. intros w [_ Hf]. destruct w. split; [| exact Hf].
    exact (get_blur_in_range v blur Hv Hblur).
  - intros _. apply preserves_bind; [apply preserves_lift | intros radius].
    apply setValue_blur.
Qed.

Lemma load_games_blur : preserves blur_invariant GameNestLauncher.load_games.
Proof.
  intros w H. unfold GameNestLauncher.load_games. rewrite bind_read.
  destruct (GameNestLauncher.games_file_exists w); [| apply save_games_blur; exact H].
  refine (preserves_try blur_invariant _ _ _ _ w H); [| intros e; frame_modify].
  intros w1 H1. unfold bind, GameNestLauncher.json_load.
  destruct (games_file w1) as [| | text | v] eqn:E; try exact H1.
  apply load_document_blur; [| exact H1].
  destruct H1 as [_ Hf]. rewrite E in Hf. exact Hf.
Qed.

Lemma handle_blur icon ev : preserves blur_invariant (GameNestLauncher.handle icon ev).
Proof.
  destruct ev; cbn [GameNestLauncher.handle];
    unfold GameNestLauncher.toggle_favorite, GameNestLauncher.set_custom_background,
      GameNestLauncher.sidebar_context_menu, GameNestLauncher.launch_selected_game,
      GameNestLauncher.rename_game, GameNestLauncher.remove_game, GameNestLauncher.edit_notes,
      GameNestLauncher.on_add_clicked, GameNestLauncher.detect_games,
      GameNestLauncher.add_game_manually, GameNestLauncher.add_scan_folder,
      GameNestLauncher.remove_scan_folder, GameNestLauncher.reset_games_list;
    preserve; solve [apply save_games_blur | apply setValue_blur].
Qed.

Lemma initial_blur file can_write :
  file_blur_ok file -> blur_invariant (GameNestLauncher.initial file can_write).
Proof.
  intros H. split; [| exact H]. exists 0. split; [reflexivity | lia].
Qed.

(** *** The blur value alone *)

(** Comparisons of the code as facts for [lia]. *)
Ltac bool_facts :=
  repeat match goal with
  | H : (_ =? _) = true |- _ => apply Z.eqb_eq in H
  | H : (_ =? _) = false |- _ => apply Z.eqb_neq in H
  | H : (_ || _) = false |- _ => apply orb_false_iff in H; destruct H
  | H : (_ <? _) = false |- _ => apply Z.ltb_ge in H
  | H : (_ <? _) = true |- _ => apply Z.ltb_lt in H
  end.

Lemma blur_shown_in_range w : blur_shown w -> blur_in_range (bg_blur_amount w).
Proof. intros [H1 H2]. exists (blur_slider w). split; assumption. Qed.

Lemma blur_unset_shown w : blur_unset w -> blur_shown w.
Proof. intros [H1 H2]. split; [rewrite H1, H2; reflexivity | lia]. Qed.

Lemma save_games_shown : preserves blur_shown GameNestLauncher.save_games.
Proof.
  intros w H. destruct w as [gs csf bg blur sl f wr sh].
  unfold GameNestLauncher.save_games. destruct wr; exact H.
Qed.

(** [setValue] makes the blur value the position of the slider, when it
    was so before, and when it was the value handed over and the slider
    stood at 0. *)
Lemma setValue_shows value w :
  0 <= blur_slider w <= 20 ->
  bg_blur_amount w = PInt (blur_slider w)
  \/ bg_blur_amount w = PInt value /\ 0 <= value <= 2147483647 /\ blur_slider w = 0 ->
  blur_shown (fst (GameNestLauncher.blur_slider_setValue value w)).
Proof.
  intros Hr Hb. destruct w as [gs csf bg blur sl f wr sh]. simpl in *.
  unfold GameNestLauncher.blur_slider_setValue, GameNestLauncher.set_background_blur,
    GameNestLauncher.save_games, blur_shown.
  destruct (_ || _) eqn:Eo.
  - simpl. destruct Hb as [-> | (-> & Hv & ->)]; [split; [reflexivity | exact Hr] |].
    apply orb_true_iff in Eo. destruct Eo; bool_facts; lia.
  - rewrite bind_read. cbn [blur_slider].
    destruct (Z.max 0 (Z.min 20 value) =? sl) eqn:Ev; bool_facts.
    + simpl. destruct Hb as [-> | (-> & Hv & ->)]; split; auto; try lia. f_equal. lia.
    + destruct wr; simpl; split; auto; lia.
Qed.

Lemma setValue_shown value : preserves blur_shown (GameNestLauncher.blur_slider_setValue value).
Proof. intros w [Hb Hr]. apply setValue_shows; auto. Qed.

Lemma handle_shown icon ev : preserves blur_shown (GameNestLauncher.handle icon ev).
Proof.
  destruct ev; cbn [GameNestLauncher.handle];
    unfold GameNestLauncher.toggle_favorite, GameNestLauncher.set_custom_background,
      GameNestLauncher.sidebar_context_menu, GameNestLauncher.launch_selected_game,
      GameNestLauncher.rename_game, GameNestLauncher.remove_game, GameNestLauncher.edit_notes,
      GameNestLauncher.on_add_clicked, GameNestLauncher.detect_games,
      GameNestLauncher.add_game_manually, GameNestLauncher.add_scan_folder,
      GameNestLauncher.remove_scan_folder, GameNestLauncher.reset_games_list;
    preserve; solve [apply save_games_shown | apply setValue_shown].
Qed.

(** Code that keeps [I], followed by code that takes [I] to [J]. *)
Lemma establishes_bind (I J : World -> Prop) {A B} (m : M A) (k : A -> M B) :
  preserves I m -> (forall w, I w -> J w) ->
  (forall a w, I w -> J (fst (k a w))) ->
  forall w, I w -> J (fst (bind m k w)).
Proof.
  intros Hm Hw Hk w H. unfold bind. specialize (Hm w H).
  destruct (m w) as [w' [a | e]]; simpl in *.
  - apply Hk. exact Hm.
  - apply Hw. exact Hm.
Qed.

Lemma establishes_try (J : World -> Prop) (m : M unit) (h : exn -> M unit) w :
  J (fst (m w)) -> (forall e, preserves J (h e)) -> J (fst (try_except m h w)).
Proof.
  intros Hm Hh. unfold try_except.
  destruct (m w) as [w' [a | e]]; simpl in *.
  - exact Hm.
  - destruct e; try (apply Hh; exact Hm); exact Hm.
Qed.

Lemma get_blur_fits v blur :
  file_blur_fits (Json v) ->
  Py.get v "custom_background_blur" (PInt 0) = Ok blur ->
  exists b, blur = PInt b /\ 0 <= b <= 2147483647.
Proof.
  destruct v; simpl; try discriminate.
  intros Hf [= <-]. destruct (Py.lookup d "custom_background_blur").
  - exact Hf.
  - exists 0. split; [reflexivity | lia].
Qed.

Lemma load_document_shown v :
  file_blur_fits (Json v) ->
  forall w, blur_unset w -> blur_shown (fst (GameNestLauncher.load_document v w)).
Proof.
  intros Hv. unfold GameNestLauncher.load_document, GameNestLauncher.append_loaded.
  do 8 (apply (establishes_bind blur_unset blur_shown);
        [solve [preserve] | exact blur_unset_shown | intros ?]).
  intros w Hw. rewrite bind_lift.
  destruct (Py.get v "custom_background_blur" (PInt 0)) as [blur | e] eqn:Hblur;
    [| apply blur_unset_shown; exact Hw].
  destruct (get_blur_fits v blur Hv Hblur) as [b [-> Hb]].
  rewrite bind_modify, bind_lift. cbv beta iota delta [Py.as_int].
  destruct Hw as [_ Hs].
  apply setValue_shows; destruct w; simpl in *; [lia | right; auto].
Qed.

Lemma load_games_shown w :
  file_blur_fits (games_file w) -> blur_unset w ->
  blur_shown (fst (GameNestLauncher.load_games w)).
Proof.
  intros Hf Hw. unfold GameNestLauncher.load_games. rewrite bind_read.
  destruct (GameNestLauncher.games_file_exists w);
    [| apply save_games_shown, blur_unset_shown; exact Hw].
  apply establishes_try; [| intros e; frame_modify].
  unfold bind, GameNestLauncher.json_load.
  destruct (games_file w) as [| | text | v] eqn:E; try (apply blur_unset_shown; exact Hw).
  apply load_document_shown; assumption.
Qed.

(** C9. The blur value that the launcher holds is an integer between 0
    and 20 at every moment of every run that starts from a backing file
    whose stored blur is absent or an integer from 0 to 2147483647: the
    slider hands over a position of its range, and a stored value above
    20 reaches the launcher through the slider, as 20.  When the stored
    value is itself between 0 and 20, the value in the file stays in that
    range too.  Loading does not check the stored value: one below 0, or
    one that the slider refuses, is kept as it is. *)
Theorem blur_always_in_range icon file can_write evs :
  let w := fst (GameNestLauncher.run icon file can_write evs) in
  (file_blur_fits file -> blur_in_range (bg_blur_amount w))
  /\ (file_blur_ok file -> blur_in_range (bg_blur_amount w) /\ file_blur_ok (games_file w)).
Proof.
  split.
  - intros Hf. apply blur_shown_in_range. unfold GameNestLauncher.run.
    pose proof (load_games_shown (GameNestLauncher.initial file can_write) Hf
                  (conj eq_refl eq_refl)) as H.
    unfold bind.
    destruct (GameNestLauncher.load_games (GameNestLauncher.initial file can_write))
      as [w1 [[] | e]]; simpl in H |- *; [| exact H].
    apply (preserves_for_each blur_shown); [| exact H].
    intros ev. apply handle_shown.
  - intros Hf. unfold GameNestLauncher.run.
    apply (preserves_bind blur_invariant).
    + apply load_games_blur.
    + intros _. apply preserves_for_each. intros ev. apply handle_blur.
    + apply initial_blur. exact Hf.
Qed.

Lemma blur_always_in_range_witness :
  blur_in_range (bg_blur_amount (fst (GameNestLauncher.run (fun _ => None)
     (Json (PDict [("custom_background_blur", PInt 50)])) false
     [AddFolderClicked (Some "D:/Games"); BlurSliderMoved (-4)])))
  /\ (let w := fst (GameNestLauncher.run (fun _ => None)
                  (Json (PDict [("custom_background_blur", PInt 12)])) true
                  [BlurSliderMoved 35; AddFolderClicked (Some "D:/Games"); BlurSliderMoved (-4)]) in
      blur_in_range (bg_blur_amount w) /\ file_blur_ok (games_file w)).
Proof.
  split.
  - apply (proj1 (blur_always_in_range _ _ _ _)).
    exists 50. split; [reflexivity | lia].
  - apply (proj2 (blur_always_in_range _ _ _ _)).
    exists 12. split; [reflexivity | lia].
Defined.

(** A run that starts from a file with the blur -5 and sees no event: the
    launcher holds -5, which is no value of the range. *)
Lemma load_negative_blur_counterexample :
  let w := fst (GameNestLauncher.run (fun _ => None)
                  (Json (PDict [("custom_background_blur", PInt (-5))])) true []) in
  bg_blur_amount w = PInt (-5) /\ ~ blur_in_range (bg_blur_amount w).
Proof.
  split; [reflexivity |].
  intros [b [H Hb]]. vm_compute in H. injection H as <-. lia.
Qed.

Example slider_run_values :
  map (fun evs => bg_blur_amount (fst (GameNestLauncher.run (fun _ => None) Absent true evs)))
      [ [BlurSliderMoved 35]; [BlurSliderMoved 7]; [BlurSliderMoved 7; BlurSliderMoved (-4)] ]
  = [PInt 20; PInt 7; PInt 0].
Proof. reflexivity. Qed.

(** A file that does not follow the schema is taken as it is when the
    slider does not move: a blur value below the range stays. *)
Example load_keeps_negative_blur :
  bg_blur_amount (fst (GameNestLauncher.startup
     (Json (PDict [("custom_background_blur", PInt (-5))])) true)) = PInt (-5).
Proof. reflexivity. Qed.

(** So is a value that does not fit a C [int]: the slider refuses it, and
    the warning is that of a failed load. *)
Example load_keeps_oversized_blur :
  let w := fst (GameNestLauncher.startup
     (Json (PDict [("custom_background_blur", PInt 2147483648)])) true) in
  bg_blur_amount w = PInt 2147483648
  /\ shown w = [Warning "Failed to load games.json: " OverflowError].
Proof. split; reflexivity. Qed.

(** ** Detection *)

Lemma scan_root_fresh icon known root entries c :
  In c (GameNestLauncher.scan_root icon known root entries) ->
  exists entry_name exe,
    c = GameEntry.init (PStr entry_name) (PStr exe) (GameNestLauncher.icon_value icon exe)
    /\ existsb (fun g => Py.eq_str (GameEntry.path g) exe) known = false.
Proof.
  induction entries as [| e rest IH]; simpl.
  - contradiction.
  - destruct e as [f | n sub]; [exact IH |].
    destruct (find_game_exe (Path.join root n) sub) as [exe |]; [| exact IH].
    destruct (negb (Str.is_empty exe)); simpl; [| exact IH].
    destruct (existsb _ known) eqn:E; simpl; [exact IH |].
    intros [<- | H]; [| exact (IH H)].
    exists n, exe. split; [reflexivity | exact E].
Qed.

Lemma scan_roots_fresh icon fs known roots c :
  In c (GameNestLauncher.scan_roots icon fs known roots) ->
  exists entry_name exe,
    c = GameEntry.init (PStr entry_name) (PStr exe) (GameNestLauncher.icon_value icon exe)
    /\ existsb (fun g => Py.eq_str (GameEntry.path g) exe) known = false.
Proof.
  induction roots as [| root rest IH]; simpl.
  - contradiction.
  - destruct (listing fs root) as [entries |]; [| exact IH].
    intros H. apply in_app_or in H. destruct H as [H | H].
    + eapply scan_root_fresh; eauto.
    + exact (IH H).
Qed.

Lemma existsb_false_forall {A} (f : A -> bool) l :
  existsb f l = false -> forall x, In x l -> f x = false.
Proof.
  intros H x Hx. destruct (f x) eqn:E; [| reflexivity].
  assert (existsb f l = true) as Ht by (apply existsb_exists; eauto).
  rewrite H in Ht. discriminate.
Qed.

(** C4. Whatever the roots, the directories and the records already in
    the catalog, no candidate that the scan proposes has the path of a
    known record; a child folder whose chosen executable is known yields
    no candidate. *)
Theorem detect_skips_known_paths icon fs known :
  (forall roots c,
      In c (GameNestLauncher.scan_roots icon fs known roots) ->
      forall g, In g known ->
        Py.eq (GameEntry.path g) (GameEntry.path c) = false
        /\ forall p, GameEntry.path g = PStr p -> GameEntry.path c <> PStr p)
  /\ (forall root entry_name sub rest exe,
        find_game_exe (Path.join root entry_name) sub = Some exe ->
        existsb (fun g => Py.eq_str (GameEntry.path g) exe) known = true ->
        GameNestLauncher.scan_root icon known root (Dir entry_name sub :: rest)
        = GameNestLauncher.scan_root icon known root rest).
Proof.
  split.
  - intros roots c Hc g Hg.
    apply scan_roots_fresh in Hc. destruct Hc as [n [exe [-> Hfresh]]].
    pose proof (existsb_false_forall _ _ Hfresh g Hg) as Hne. cbv beta in Hne.
    split; [exact Hne |].
    intros p Hp. simpl. intros [= <-].
    rewrite Hp in Hne. unfold Py.eq_str in Hne. simpl in Hne.
    rewrite String.eqb_refl in Hne. discriminate.
  - intros root n sub rest exe Hfind Hknown. simpl.
    rewrite Hfind, Hknown, andb_false_r. reflexivity.
Qed.

Lemma detect_skips_known_paths_witness :
  let fs := [("C:\Games", [ Dir "Halo" [File "Halo.exe"]; Dir "Doom" [File "doom.exe"] ])] in
  let known := [GameEntry.init (PStr "Halo") (PStr "C:\Games\Halo\Halo.exe") PNone] in
  GameNestLauncher.scan_roots (fun _ => None) fs known ["C:\Games"]
  = [GameEntry.init (PStr "Doom") (PStr "C:\Games\Doom\doom.exe") PNone]
  /\ PStr "C:\Games\Doom\doom.exe" <> PStr "C:\Games\Halo\Halo.exe".
Proof.
  intros fs known. split; [reflexivity |].
  refine (proj2 (proj1 (detect_skips_known_paths (fun _ => None) fs known) ["C:\Games"]
            (GameEntry.init (PStr "Doom") (PStr "C:\Games\Doom\doom.exe") PNone) _
            (GameEntry.init (PStr "Halo") (PStr "C:\Games\Halo\Halo.exe") PNone) _)
            "C:\Games\Halo\Halo.exe" eq_refl).
  - left. reflexivity.
  - left. reflexivity.
Defined.

(** ** Writing the document after a change *)

Lemma save_games_persists w :
  writable w = true -> persisted (fst (GameNestLauncher.save_games w)).
Proof.
  intros H. destruct w. simpl in H. subst. reflexivity.
Qed.

(** Every handler but the two of the scan folders leaves the file equal to
    the document of the launcher, when the file can be written. *)
Lemma handlers_that_save icon ev w :
  match ev with
  | AddFolderClicked _ | RemoveFolderClicked _ => False
  | _ => True
  end ->
  writable w = true -> persisted w ->
  persisted (fst (GameNestLauncher.handle icon ev w)).
Proof.
  intros Hev Hw Hp. destruct w as [gs csf bg blur sl f wr sh].
  unfold persisted in *. simpl in Hw, Hp. subst wr.
  destruct ev; try contradiction; cbn [GameNestLauncher.handle];
    unfold GameNestLauncher.toggle_favorite, GameNestLauncher.set_custom_background,
      GameNestLauncher.sidebar_context_menu, GameNestLauncher.launch_selected_game,
      GameNestLauncher.rename_game, GameNestLauncher.remove_game, GameNestLauncher.edit_notes,
      GameNestLauncher.on_add_clicked, GameNestLauncher.detect_games,
      GameNestLauncher.add_game_manually, GameNestLauncher.reset_games_list,
      GameNestLauncher.blur_slider_setValue, GameNestLauncher.set_background_blur,
      GameNestLauncher.save_games;
    run_m; first [exact Hp | reflexivity].
Qed.

(** C6, as the program has it.  Adding a scan folder changes the list of
    the launcher and writes nothing: after it the file still holds the
    document from before, without the folder.  Removing one does the
    same. *)
Theorem scan_folder_change_not_written :
  let w0 := fst (GameNestLauncher.startup Absent true) in
  let w1 := fst (GameNestLauncher.add_scan_folder (Some "D:/Games") w0) in
  let w2 := fst (GameNestLauncher.remove_scan_folder ["D:/Games"] (fst (GameNestLauncher.save_games w1))) in
  persisted w0
  /\ custom_scan_folders w1 = PList [PStr "D:/Games"]
  /\ games_file w1 = games_file w0
  /\ ~ persisted w1
  /\ custom_scan_folders w2 = PList []
  /\ games_file w2 = Json (GameNestLauncher.document w1)
  /\ ~ persisted w2.
Proof.
  cbv zeta. repeat split; try reflexivity; unfold persisted; simpl; discriminate.
Qed.

(** ** Inserting a record *)

Lemma add_game_manually_appends icon exe w :
  games (fst (GameNestLauncher.add_game_manually icon (Some exe) w))
  = (games w ++ [GameEntry.init (PStr (Path.splitext_root (Path.basename exe))) (PStr exe)
                                (GameNestLauncher.icon_value icon exe)])%list.
Proof.
  destruct w. unfold GameNestLauncher.add_game_manually, GameNestLauncher.save_games.
  run_m; reflexivity.
Qed.

(** C3, as the program has it.  Adding by hand the executable of a record
    that is in the catalog appends a second record with the same path. *)
Theorem add_game_manually_duplicates :
  let halo := GameEntry.init (PStr "Halo") (PStr "C:\Games\Halo\Halo.exe") PNone in
  let w := set_games [halo] (GameNestLauncher.initial Absent true) in
  games (fst (GameNestLauncher.add_game_manually (fun _ => None) (Some "C:\Games\Halo\Halo.exe") w))
  = [halo; halo].
Proof. reflexivity. Qed.

(** The other way in, accepting detected candidates, does refuse a path
    that a record has. *)
Lemma accept_selected_known s selected gs :
  existsb (fun g => Py.eq (GameEntry.path g) (GameEntry.path s)) gs = true ->
  GameNestLauncher.accept_selected (s :: selected) gs
  = GameNestLauncher.accept_selected selected gs.
Proof. intros H. simpl. rewrite H. reflexivity. Qed.

Lemma accept_selected_duplicate_noop s gs :
  existsb (fun g => Py.eq (GameEntry.path g) (GameEntry.path s)) gs = true ->
  GameNestLauncher.accept_selected [s] gs = gs.
Proof. intros H. rewrite accept_selected_known by exact H. reflexivity. Qed.

Lemma ordered_pairs_snoc {A} (R : A -> A -> Prop) l x :
  ForallOrdPairs R l -> Forall (fun y => R y x) l -> ForallOrdPairs R (l ++ [x]).
Proof.
  induction 1 as [| a l Ha _ IH]; intros Hx; simpl.
  - constructor; constructor.
  - inversion Hx as [| ? ? Hax Hlx]; subst. constructor.
    + apply Forall_app. split; [exact Ha | constructor; [exact Hax | constructor]].
    + apply IH. exact Hlx.
Qed.

(** X5. Accepting candidates keeps the paths of the catalog distinct. *)
Lemma accept_selected_distinct selected : forall gs,
  ForallOrdPairs (fun g h => Py.eq (GameEntry.path g) (GameEntry.path h) = false) gs ->
  ForallOrdPairs (fun g h => Py.eq (GameEntry.path g) (GameEntry.path h) = false)
                 (GameNestLauncher.accept_selected selected gs).
Proof.
  induction selected as [| s rest IH]; intros gs H; simpl.
  - exact H.
  - destruct (existsb _ gs) eqn:E; simpl.
    + apply IH. exact H.
    + apply IH. apply ordered_pairs_snoc; [exact H |].
      apply Forall_forall. intros g Hg.
      exact (existsb_false_forall _ _ E g Hg).
Qed.

(** ** Launching *)

Lemma launch_selected_game_keeps item started w :
  let w' := fst (GameNestLauncher.launch_selected_game item started w) in
  catalog w' = catalog w /\ games_file w' = games_file w.
Proof.
  destruct w. unfold GameNestLauncher.launch_selected_game, try_except, catalog.
  run_m; split; reflexivity.
Qed.

(** C5, as the program has it.  The method that the Launch button and the
    context menu call starts the executable and changes no record: the
    playtime of the launched record and its last-played text stay as they
    were, whatever the session lasts. *)
Theorem launch_records_no_session :
  let halo := GameEntry.init (PStr "Halo") (PStr "C:\Games\Halo\Halo.exe") PNone in
  let w := set_games [halo] (fst (GameNestLauncher.startup Absent true)) in
  let w' := fst (GameNestLauncher.launch_selected_game (Some "C:\Games\Halo\Halo.exe") true w) in
  games w' = [halo]
  /\ map GameEntry.total_playtime (games w') = [PInt 0]
  /\ map GameEntry.last_played (games w') = [PStr "Never"]
  /\ games_file w' = games_file w.
Proof. repeat split. Qed.

(** The function of the module that no button calls does the
    bookkeeping: 125 seconds on a record at 0 give 125, and the time of
    the end of the session is written down. *)
Example module_level_launch_records_session :
  let halo := GameEntry.init (PStr "Halo") (PStr "C:\Games\Halo\Halo.exe") PNone in
  let w := set_games [halo] (fst (GameNestLauncher.startup Absent true)) in
  let now := {| year := 2024; month := 5; day := 1; hour := 20; minute := 15; second := 9 |} in
  let w' := fst (launch_selected_game (Some "C:\Games\Halo\Halo.exe") true 125 now w) in
  games w' = [GameEntry.set_last_played (PStr "2024-05-01 20:15:09")
                (GameEntry.set_total_playtime (PInt 125) halo)]
  /\ persisted w'.
Proof. split; reflexivity. Qed.

(** It adds what it measures, without a lower bound. *)
Example module_level_launch_negative_session :
  let halo := GameEntry.init (PStr "Halo") (PStr "C:\Games\Halo\Halo.exe") PNone in
  let w := set_games [halo] (fst (GameNestLauncher.startup Absent true)) in
  let now := {| year := 2024; month := 5; day := 1; hour := 20; minute := 15; second := 9 |} in
  map GameEntry.total_playtime
      (games (fst (launch_selected_game (Some "C:\Games\Halo\Halo.exe") true (-3) now w)))
  = [PInt (-3)].
Proof. reflexivity. Qed.

(** * Further properties *)

(** ** What the chooser prefers *)

Lemma find_none_existsb {A} (f : A -> bool) l : find f l = None -> existsb f l = false.
Proof.
  induction l as [| x r IH]; simpl; [reflexivity |].
  destruct (f x); [discriminate | exact IH].
Qed.

Lemma find_some_existsb {A} (f : A -> bool) l x : find f l = Some x -> existsb f l = true.
Proof.
  intros H. apply find_some in H. apply existsb_exists. exists x. exact H.
Qed.

Lemma find_some_true {A} (f : A -> bool) l x : find f l = Some x -> f x = true.
Proof. intros H. apply find_some in H. tauto. Qed.

(** X1. The pick of [find_game_exe] respects the order of the steps: it passes
    the exclusion filter whenever some candidate does; it matches the
    folder's name whenever some candidate that passes the filter does; and
    when none does, it is a launcher whenever some candidate that passes
    the filter is one. *)
Theorem find_game_exe_priorities folder_path contents c :
  find_game_exe folder_path contents = Some c ->
  let cs := exe_candidates folder_path contents in
  let n := Path.basename folder_path in
  (existsb Heuristic.passes_exclusion cs = true -> Heuristic.passes_exclusion c = true)
  /\ (existsb (fun x => Heuristic.name_matches n x && Heuristic.passes_exclusion x) cs = true ->
      Heuristic.name_matches n c = true)
  /\ (existsb (fun x => Heuristic.name_matches n x && Heuristic.passes_exclusion x) cs = false ->
      existsb (fun x => Heuristic.is_launcher x && Heuristic.passes_exclusion x) cs = true ->
      Heuristic.is_launcher c = true).
Proof.
  cbv zeta. rewrite find_game_exe_select. unfold Heuristic.select. intros H.
  destruct (find _ (exe_candidates folder_path contents)) as [c1 |] eqn:E1.
  { injection H as <-. pose proof (find_some_existsb _ _ _ E1) as S1.
    apply find_some_true in E1. apply andb_prop in E1. destruct E1 as [Hn Hp].
    repeat split; auto. rewrite S1. discriminate. }
  pose proof (find_none_existsb _ _ E1) as N1.
  destruct (find (fun c0 => Heuristic.is_launcher c0 && Heuristic.passes_exclusion c0) _)
    as [c2 |] eqn:E2.
  { injection H as <-. apply find_some_true in E2. apply andb_prop in E2. destruct E2 as [Hl Hp].
    repeat split; auto. rewrite N1. discriminate. }
  pose proof (find_none_existsb _ _ E2) as N2.
  destruct (find Heuristic.passes_exclusion _) as [c3 |] eqn:E3.
  { injection H as <-. apply find_some_true in E3.
    repeat split; auto; [rewrite N1 | rewrite N2]; discriminate. }
  pose proof (find_none_existsb _ _ E3) as N3.
  repeat split; [rewrite N3 | rewrite N1 | rewrite N2]; discriminate.
Qed.

Lemma find_game_exe_priorities_witness :
  Heuristic.passes_exclusion "C:\Games\Game2\Launcher.exe" = true.
Proof.
  refine (proj1 (find_game_exe_priorities "C:\Games\Game2"
            [File "UnityCrashHandler64.exe"; File "Launcher.exe"]
            "C:\Games\Game2\Launcher.exe" _) _); reflexivity.
Defined.

(** ** Where candidates come from *)

Lemma scan_root_origin icon known root entries c :
  In c (GameNestLauncher.scan_root icon known root entries) ->
  exists entry_name sub exe,
    In (Dir entry_name sub) entries
    /\ find_game_exe (Path.join root entry_name) sub = Some exe
    /\ c = GameEntry.init (PStr entry_name) (PStr exe) (GameNestLauncher.icon_value icon exe).
Proof.
  induction entries as [| e rest IH]; simpl.
  - contradiction.
  - assert (In c (GameNestLauncher.scan_root icon known root rest) ->
            exists entry_name sub exe,
              (e = Dir entry_name sub \/ In (Dir entry_name sub) rest)
              /\ find_game_exe (Path.join root entry_name) sub = Some exe
              /\ c = GameEntry.init (PStr entry_name) (PStr exe)
                       (GameNestLauncher.icon_value icon exe)) as IH'.
    { intros H. destruct (IH H) as [n [sub [exe [Hin Hrest]]]]. exists n, sub, exe. auto. }
    destruct e as [f | n sub]; [exact IH' |].
    destruct (find_game_exe (Path.join root n) sub) as [exe |] eqn:E; [| exact IH'].
    destruct (negb (Str.is_empty exe) && negb (existsb _ known)); [| exact IH'].
    intros [<- | H]; [| exact (IH' H)].
    exists n, sub, exe. auto.
Qed.

(** X2. Every candidate of the scan stands for a child directory of a root
    that exists: it bears the directory's name, and its path is the
    executable that [find_game_exe] picks in that directory, one of the
    executables beneath it. *)
Theorem scan_candidates_origin icon fs known roots c :
  In c (GameNestLauncher.scan_roots icon fs known roots) ->
  exists root entries entry_name sub exe,
    In root roots /\ listing fs root = Some entries
    /\ In (Dir entry_name sub) entries
    /\ find_game_exe (Path.join root entry_name) sub = Some exe
    /\ In exe (exe_candidates (Path.join root entry_name) sub)
    /\ c = GameEntry.init (PStr entry_name) (PStr exe) (GameNestLauncher.icon_value icon exe).
Proof.
  induction roots as [| root rest IH]; simpl.
  - contradiction.
  - assert (In c (GameNestLauncher.scan_roots icon fs known rest) ->
            exists root0 entries entry_name sub exe,
              (root = root0 \/ In root0 rest) /\ listing fs root0 = Some entries
              /\ In (Dir entry_name sub) entries
              /\ find_game_exe (Path.join root0 entry_name) sub = Some exe
              /\ In exe (exe_candidates (Path.join root0 entry_name) sub)
              /\ c = GameEntry.init (PStr entry_name) (PStr exe)
                       (GameNestLauncher.icon_value icon exe)) as IH'.
    { intros H. destruct (IH H) as [r [es [n [sub [exe [Hr Hrest]]]]]].
      exists r, es, n, sub, exe. auto. }
    destruct (listing fs root) as [entries |] eqn:E; [| exact IH'].
    intros H. apply in_app_or in H. destruct H as [H | H]; [| exact (IH' H)].
    apply scan_root_origin in H. destruct H as [n [sub [exe [Hin [Hfind ->]]]]].
    exists root, entries, n, sub, exe. repeat split; auto.
    rewrite find_game_exe_select in Hfind. eapply select_in; eauto.
Qed.

Lemma scan_candidates_origin_witness :
  exists root entries entry_name sub exe,
    In root ["C:\Games"]
    /\ listing [("C:\Games", [File "readme.txt"; Dir "Doom" [File "doom.exe"]])] root = Some entries
    /\ In (Dir entry_name sub) entries
    /\ find_game_exe (Path.join root entry_name) sub = Some exe
    /\ In exe (exe_candidates (Path.join root entry_name) sub)
    /\ GameEntry.init (PStr "Doom") (PStr "C:\Games\Doom\doom.exe") PNone
       = GameEntry.init (PStr entry_name) (PStr exe)
           (GameNestLauncher.icon_value (fun _ => None) exe).
Proof.
  apply (scan_candidates_origin (fun _ => None)
           [("C:\Games", [File "readme.txt"; Dir "Doom" [File "doom.exe"]])] [] ["C:\Games"]).
  left. reflexivity.
Defined.

(** ** Roots that do not exist *)

Lemma existing_filter fs l :
  GameNestLauncher.existing fs (map PStr l) = Ok (filter (folder_exists fs) l).
Proof.
  induction l as [| p r IH]; simpl.
  - reflexivity.
  - rewrite IH. unfold folder_exists. destruct (listing fs p); reflexivity.
Qed.

Lemma to_scan_filter fs l :
  GameNestLauncher.to_scan fs (PList (map PStr l))
  = Ok (filter (folder_exists fs) (default_folders ++ l)).
Proof.
  unfold GameNestLauncher.to_scan. rewrite <- map_app. apply existing_filter.
Qed.

Lemma filter_none {A} (f : A -> bool) l :
  (forall x, In x l -> f x = false) -> filter f l = [].
Proof.
  induction l as [| x r IH]; intros H; simpl; [reflexivity |].
  rewrite (H x (or_introl eq_refl)). apply IH. intros y Hy. apply H. right. exact Hy.
Qed.

(** X3. When none of the default folders and none of the scan folders exists,
    [detect_games] raises nothing and changes nothing: it tells that no
    game was found. *)
Theorem detect_games_no_roots icon fs selection w l :
  folders_are w l ->
  (forall p, In p (default_folders ++ l) -> listing fs p = None) ->
  GameNestLauncher.detect_games icon fs selection w
  = (show (Information "Detect" "No games found in the specified folders.") w, Ok tt).
Proof.
  intros Hl Hnone. unfold GameNestLauncher.detect_games.
  rewrite bind_read, bind_lift, Hl, to_scan_filter.
  rewrite filter_none.
  - reflexivity.
  - intros p Hp. unfold folder_exists. rewrite (Hnone p Hp). reflexivity.
Qed.

Lemma detect_games_no_roots_witness :
  GameNestLauncher.detect_games (fun _ => None) [("E:\Other", [Dir "Halo" [File "Halo.exe"]])]
    (Some [0%nat]) (set_custom_scan_folders (PList (map PStr ["D:/Games"]))
                      (GameNestLauncher.initial Absent true))
  = (show (Information "Detect" "No games found in the specified folders.")
       (set_custom_scan_folders (PList (map PStr ["D:/Games"]))
          (GameNestLauncher.initial Absent true)), Ok tt).
Proof.
  apply (detect_games_no_roots _ _ _ _ ["D:/Games"]).
  - reflexivity.
  - intros p Hp. simpl in Hp.
    repeat (destruct Hp as [<- | Hp]; [reflexivity |]). contradiction.
Defined.

(** ** What detection does to the catalog *)

Lemma accept_selected_appends selected : forall gs,
  exists added,
    GameNestLauncher.accept_selected selected gs = (gs ++ added)%list
    /\ forall s, In s added ->
         In s selected
         /\ forall g, In g gs -> Py.eq (GameEntry.path g) (GameEntry.path s) = false.
Proof.
  induction selected as [| s rest IH]; intros gs; simpl.
  - exists []. split; [rewrite app_nil_r; reflexivity | contradiction].
  - destruct (existsb _ gs) eqn:E; simpl.
    + destruct (IH gs) as [added [Heq Hadded]]. exists added. split; [exact Heq |].
      intros s' Hs'. destruct (Hadded s' Hs') as [Hin Hfresh]. auto.
    + destruct (IH (gs ++ [s])%list) as [added [Heq Hadded]]. exists (s :: added). split.
      * rewrite Heq, <- app_assoc. reflexivity.
      * intros s' [<- | Hs'].
        -- split; [left; reflexivity |]. intros g Hg.
           exact (existsb_false_forall _ _ E g Hg).
        -- destruct (Hadded s' Hs') as [Hin Hfresh]. split; [right; exact Hin |].
           intros g Hg. apply Hfresh. apply in_or_app. left. exact Hg.
Qed.

(** X4. [detect_games] only ever appends: whatever the directories and
    whatever the user selects, the records that were in the catalog stay,
    in their order, and each record that comes after them has a path that
    none of them had; scan folders, background and blur stay as they
    were. *)
Theorem detect_games_only_appends icon fs selection w :
  let w' := fst (GameNestLauncher.detect_games icon fs selection w) in
  (exists added,
      games w' = (games w ++ added)%list
      /\ forall s, In s added -> forall g, In g (games w) ->
           Py.eq (GameEntry.path g) (GameEntry.path s) = false)
  /\ custom_scan_folders w' = custom_scan_folders w
  /\ custom_background_path w' = custom_background_path w
  /\ bg_blur_amount w' = bg_blur_amount w.
Proof.
  assert (exists added, games w = (games w ++ added)%list
          /\ forall s, In s added -> forall g, In g (games w) ->
               Py.eq (GameEntry.path g) (GameEntry.path s) = false) as Hsame.
  { exists []. split; [rewrite app_nil_r; reflexivity | contradiction]. }
  unfold GameNestLauncher.detect_games. rewrite bind_read, bind_lift.
  destruct (GameNestLauncher.to_scan fs (custom_scan_folders w)) as [roots | e];
    [| cbn; auto].
  destruct (GameNestLauncher.scan_roots icon fs (games w) roots) as [| c cs];
    [destruct w; cbn; auto |].
  destruct selection as [rows |]; [| cbn; auto].
  rewrite bind_lift.
  destruct (GameNestLauncher.selected_candidates (c :: cs) rows) as [selected | e];
    [| cbn; auto].
  rewrite bind_modify.
  destruct (accept_selected_appends selected (games w)) as [added [Heq Hadded]].
  pose proof (save_games_keeps
    (set_games (GameNestLauncher.accept_selected selected (games w)) w)) as Hk.
  cbv zeta in Hk. destruct Hk as [Hc _]. unfold catalog in Hc. injection Hc as H1 H2 H3 H4.
  cbv zeta. rewrite H1, H2, H3, H4. destruct w; cbn in *. repeat split; auto.
  exists added. split; [exact Heq |]. intros s Hs. apply (Hadded s Hs).
Qed.

Lemma accept_selected_distinct_witness :
  distinct_paths
    (GameNestLauncher.accept_selected
       [ GameEntry.init (PStr "Halo") (PStr "C:\Games\Halo\Halo.exe") PNone;
         GameEntry.init (PStr "Halo 2") (PStr "C:\Games\Halo\Halo.exe") PNone;
         GameEntry.init (PStr "Doom") (PStr "C:\Games\Doom\doom.exe") PNone ]
       []).
Proof.
  apply accept_selected_distinct. constructor.
Defined.

(** ** The file over a run *)

Lemma save_games_writable : preserves (fun w => writable w = true) GameNestLauncher.save_games.
Proof.
  intros w H. destruct w as [gs csf bg blur sl f wr sh]. simpl in H. subst. reflexivity.
Qed.

Lemma handle_writable icon ev :
  preserves (fun w => writable w = true) (GameNestLauncher.handle icon ev).
Proof.
  destruct ev; cbn [GameNestLauncher.handle];
    unfold GameNestLauncher.toggle_favorite, GameNestLauncher.set_custom_background,
      GameNestLauncher.sidebar_context_menu, GameNestLauncher.launch_selected_game,
      GameNestLauncher.rename_game, GameNestLauncher.remove_game, GameNestLauncher.edit_notes,
      GameNestLauncher.on_add_clicked, GameNestLauncher.detect_games,
      GameNestLauncher.add_game_manually, GameNestLauncher.add_scan_folder,
      GameNestLauncher.remove_scan_folder, GameNestLauncher.reset_games_list,
      GameNestLauncher.blur_slider_setValue, GameNestLauncher.set_background_blur;
    preserve; apply save_games_writable.
Qed.

Lemma handle_saved icon ev :
  folder_event ev = false -> preserves saved (GameNestLauncher.handle icon ev).
Proof.
  intros Hev w [Hw Hp]. split.
  - apply handle_writable. exact Hw.
  - apply handlers_that_save; auto. destruct ev; try exact I; discriminate.
Qed.

(** X7. As long as no scan folder is added or removed, the file on disk is
    the document of the launcher after every event: each handler that
    changes the catalog writes it before it returns. *)
Theorem file_follows_catalog icon evs w :
  forallb (fun ev => negb (folder_event ev)) evs = true ->
  writable w = true -> persisted w ->
  persisted (fst (for_each evs (GameNestLauncher.handle icon) w)).
Proof.
  intros Hevs Hw Hp. assert (saved w) as Hs by (split; assumption). clear Hw Hp.
  revert w Hs. induction evs as [| ev rest IH]; intros w Hs; simpl.
  - exact (proj2 Hs).
  - simpl in Hevs. apply andb_prop in Hevs. destruct Hevs as [Hev Hrest].
    apply negb_true_iff in Hev.
    pose proof (handle_saved icon ev Hev w Hs) as Hs'.
    unfold bind. destruct (GameNestLauncher.handle icon ev w) as [w' [[] | e]]; simpl in *.
    + apply IH; assumption.
    + exact (proj2 Hs').
Qed.

Lemma file_follows_catalog_witness :
  persisted (fst (for_each
     [ AddClicked true (ManualAction (Some "C:\Games\Halo\Halo.exe"));
       FavoriteClicked (Some "C:\Games\Halo\Halo.exe");
       BlurSliderMoved 9;
       ContextMenuRequested (Some "C:\Games\Halo\Halo.exe") (NotesAction "co-op" true) ]
     (GameNestLauncher.handle (fun _ => None))
     (fst (GameNestLauncher.startup Absent true)))).
Proof.
  apply file_follows_catalog; reflexivity.
Defined.

(** ** Looking records up and editing them *)

Lemma bind_ok {A B} (m : M A) (k : A -> M B) w a :
  snd (m w) = Ok a -> bind m k w = k a (fst (m w)).
Proof. unfold bind. destruct (m w) as [w' r]. simpl. intros ->. reflexivity. Qed.

Lemma eq_str_true v s : Py.eq_str v s = true -> v = PStr s.
Proof.
  unfold Py.eq_str. destruct v; simpl; try discriminate.
  intros H. apply String.eqb_eq in H. subst. reflexivity.
Qed.

Lemma eq_PStr_sym s v : Py.eq (PStr s) v = Py.eq v (PStr s).
Proof. destruct v; simpl; try reflexivity. apply String.eqb_sym. Qed.

Lemma locate_some p gs i :
  locate p gs = Some i ->
  exists l1 g l2,
    gs = (l1 ++ g :: l2)%list /\ List.length l1 = i
    /\ GameEntry.path g = PStr p
    /\ (forall h, In h l1 -> Py.eq_str (GameEntry.path h) p = false).
Proof.
  revert i. induction gs as [| g r IH]; intros i; simpl; [discriminate |].
  destruct (Py.eq_str (GameEntry.path g) p) eqn:E.
  - intros [= <-]. exists [], g, r. repeat split; auto.
    + apply eq_str_true. exact E.
    + contradiction.
  - destruct (locate p r) as [j |]; simpl; [| discriminate].
    intros [= <-]. destruct (IH j eq_refl) as [l1 [g' [l2 [-> [Hlen [Hp Hl1]]]]]].
    exists (g :: l1), g', l2. repeat split; simpl; auto.
    intros h [<- | Hh]; auto.
Qed.

Lemma locate_none p gs :
  locate p gs = None <-> forall g, In g gs -> Py.eq_str (GameEntry.path g) p = false.
Proof.
  induction gs as [| g r IH]; simpl.
  - split; [contradiction | reflexivity].
  - destruct (Py.eq_str (GameEntry.path g) p) eqn:E.
    + split; [discriminate |]. intros H. rewrite (H g (or_introl eq_refl)) in E. discriminate.
    + destruct (locate p r) as [j |]; simpl.
      * split; [discriminate |]. intros H.
        assert (@None nat = None) as Hn by reflexivity.
        destruct IH as [_ IH]. discriminate IH. intros h Hh. apply H. right. exact Hh.
      * split; [| reflexivity]. intros _ h [<- | Hh]; [exact E |].
        destruct IH as [IH _]. exact (IH eq_refl h Hh).
Qed.

Lemma update_at_middle l1 g l2 f :
  update_at (List.length l1) f (l1 ++ g :: l2) = (l1 ++ f g :: l2)%list.
Proof. induction l1 as [| x r IH]; simpl; [reflexivity | rewrite IH; reflexivity]. Qed.

Lemma remove_at_middle l1 (g : GameEntry.t) l2 :
  remove_at (List.length l1) (l1 ++ g :: l2) = (l1 ++ l2)%list.
Proof. induction l1 as [| x r IH]; simpl; [reflexivity | rewrite IH; reflexivity]. Qed.

Lemma paths_update_at i f gs :
  (forall g, GameEntry.path (f g) = GameEntry.path g) ->
  paths (update_at i f gs) = paths gs.
Proof.
  intros Hf. revert i. induction gs as [| g r IH]; intros i; destruct i; simpl;
    try reflexivity; [rewrite Hf | rewrite IH]; reflexivity.
Qed.

Lemma locate_paths p gs gs' : paths gs = paths gs' -> locate p gs = locate p gs'.
Proof.
  revert gs'. induction gs as [| g r IH]; intros [| g' r']; simpl; try discriminate; auto.
  intros [= Hg Hr]. rewrite Hg, (IH r' Hr). reflexivity.
Qed.

Lemma toggle_favorite_effect p w :
  snd (GameNestLauncher.toggle_favorite (Some p) w) = Ok tt
  /\ games (fst (GameNestLauncher.toggle_favorite (Some p) w))
     = match locate p (games w) with
       | Some i => update_at i flip_favorite (games w)
       | None => games w
       end.
Proof.
  unfold GameNestLauncher.toggle_favorite. rewrite bind_read.
  destruct (locate p (games w)) as [i |]; [| split; reflexivity].
  rewrite bind_modify. split; [apply save_games_returns |].
  match goal with
  | |- games (fst (GameNestLauncher.save_games ?w0)) = _ =>
      pose proof (save_games_keeps w0) as Hk
  end.
  cbv zeta in Hk. destruct Hk as [Hc _]. unfold catalog in Hc. injection Hc as H1 _ _ _.
  rewrite H1. destruct w; reflexivity.
Qed.

(** X8. Clicking the favorite button twice on a record whose flag is a
    boolean leaves the records as they were. *)
Theorem toggle_favorite_twice p w :
  (forall g, In g (games w) -> exists b, GameEntry.is_favorite g = PBool b) ->
  games (fst ((GameNestLauncher.toggle_favorite (Some p) ;;
               GameNestLauncher.toggle_favorite (Some p)) w))
  = games w.
Proof.
  intros Hbool.
  destruct (toggle_favorite_effect p w) as [Hok Hg].
  rewrite (bind_ok _ _ _ _ Hok).
  destruct (toggle_favorite_effect p (fst (GameNestLauncher.toggle_favorite (Some p) w)))
    as [_ Hg2].
  rewrite Hg2, Hg. clear Hg Hg2 Hok.
  destruct (locate p (games w)) as [i |] eqn:E.
  - rewrite (locate_paths p _ (games w))
      by (apply paths_update_at; intros g; destruct g; reflexivity).
    rewrite E.
    destruct (locate_some p _ i E) as [l1 [g [l2 [Hgs [Hlen _]]]]].
    rewrite Hgs. subst i. rewrite !update_at_middle.
    destruct (Hbool g) as [b Hb]; [rewrite Hgs; apply in_or_app; right; left; reflexivity |].
    destruct g. simpl in Hb. subst. unfold flip_favorite. simpl.
    rewrite negb_involutive. reflexivity.
  - rewrite E. reflexivity.
Qed.

Lemma toggle_favorite_twice_witness :
  let w := set_games [GameEntry.init (PStr "Halo") (PStr "C:\Games\Halo\Halo.exe") PNone]
             (GameNestLauncher.initial Absent true) in
  games (fst ((GameNestLauncher.toggle_favorite (Some "C:\Games\Halo\Halo.exe") ;;
               GameNestLauncher.toggle_favorite (Some "C:\Games\Halo\Halo.exe")) w))
  = games w.
Proof.
  intros w. apply toggle_favorite_twice.
  intros g [<- | []]. exists false. reflexivity.
Defined.

Lemma save_games_paths ps :
  preserves (fun w => paths (games w) = ps) GameNestLauncher.save_games.
Proof.
  intros w H. pose proof (save_games_keeps w) as Hk. cbv zeta in Hk.
  destruct Hk as [Hc _]. unfold catalog in Hc. injection Hc as H1 _ _ _.
  rewrite H1. exact H.
Qed.

Ltac edit_modify :=
  apply preserves_modify;
  let w := fresh "w" in let H := fresh "H" in
  intros w H; destruct w; simpl in *;
  rewrite paths_update_at; [exact H | intros g; destruct g; reflexivity].

(** X9. Renaming, editing notes, marking a favorite, launching, changing the
    background, the blur or the scan folders never changes the path of a
    record, nor the number or the order of the records. *)
Theorem edits_keep_paths icon ev w :
  keeps_records ev = true ->
  paths (games (fst (GameNestLauncher.handle icon ev w))) = paths (games w).
Proof.
  intros Hev.
  refine ((_ : preserves (fun w0 => paths (games w0) = paths (games w))
                         (GameNestLauncher.handle icon ev)) w eq_refl).
  destruct ev as [ | | | item action | | | | | ]; try discriminate;
    [ | | | destruct action; try discriminate | | | ];
    cbn [GameNestLauncher.handle];
    unfold GameNestLauncher.toggle_favorite, GameNestLauncher.set_custom_background,
      GameNestLauncher.sidebar_context_menu, GameNestLauncher.launch_selected_game,
      GameNestLauncher.rename_game, GameNestLauncher.edit_notes,
      GameNestLauncher.add_scan_folder, GameNestLauncher.remove_scan_folder,
      GameNestLauncher.blur_slider_setValue, GameNestLauncher.set_background_blur;
    preserve; first [apply save_games_paths | edit_modify].
Qed.

Lemma edits_keep_paths_witness :
  let w := set_games [GameEntry.init (PStr "Halo") (PStr "C:\Games\Halo\Halo.exe") PNone]
             (GameNestLauncher.initial Absent true) in
  paths (games (fst (GameNestLauncher.handle (fun _ => None)
     (ContextMenuRequested (Some "C:\Games\Halo\Halo.exe") (RenameAction "Halo: CE" true)) w)))
  = paths (games w).
Proof.
  intros w. apply edits_keep_paths. reflexivity.
Defined.

(** ** Removing and finding records *)

Lemma ordered_pairs_suffix {A} (R : A -> A -> Prop) l1 l2 :
  ForallOrdPairs R (l1 ++ l2) -> ForallOrdPairs R l2.
Proof.
  induction l1 as [| x r IH]; simpl; [auto |].
  intros H. inversion H; subst. auto.
Qed.

Lemma remove_game_effect game w :
  games (fst (GameNestLauncher.remove_game game true w)) = remove_at game (games w).
Proof.
  unfold GameNestLauncher.remove_game. rewrite bind_modify.
  match goal with
  | |- games (fst (GameNestLauncher.save_games ?w0)) = _ =>
      pose proof (save_games_keeps w0) as Hk
  end.
  cbv zeta in Hk. destruct Hk as [Hc _]. unfold catalog in Hc. injection Hc as H1 _ _ _.
  rewrite H1. destruct w; reflexivity.
Qed.

(** X10. Removing a record through the context menu takes out the first
    record that has the item's path and keeps all the others in their
    order; when the paths of the catalog are distinct, no record with
    that path is left. *)
Theorem context_menu_remove p w i :
  locate p (games w) = Some i ->
  let w' := fst (GameNestLauncher.sidebar_context_menu (Some p) (RemoveAction true) w) in
  (exists l1 g l2,
      games w = (l1 ++ g :: l2)%list /\ games w' = (l1 ++ l2)%list
      /\ GameEntry.path g = PStr p
      /\ forall h, In h l1 -> Py.eq_str (GameEntry.path h) p = false)
  /\ (distinct_paths (games w) -> locate p (games w') = None).
Proof.
  intros E. cbv zeta. unfold GameNestLauncher.sidebar_context_menu.
  rewrite bind_read, E, remove_game_effect.
  destruct (locate_some p _ i E) as [l1 [g [l2 [Hgs [Hlen [Hp Hl1]]]]]].
  rewrite Hgs. subst i. rewrite remove_at_middle. split.
  - exists l1, g, l2. auto.
  - intros Hd. apply locate_none. intros h Hh.
    apply in_app_or in Hh. destruct Hh as [Hh | Hh]; [exact (Hl1 h Hh) |].
    apply ordered_pairs_suffix in Hd. inversion Hd as [| ? ? Hg _]; subst.
    rewrite Forall_forall in Hg. specialize (Hg h Hh). cbv beta in Hg.
    rewrite Hp, eq_PStr_sym in Hg. exact Hg.
Qed.

Lemma context_menu_remove_witness :
  let halo := GameEntry.init (PStr "Halo") (PStr "C:\Games\Halo\Halo.exe") PNone in
  let doom := GameEntry.init (PStr "Doom") (PStr "C:\Games\Doom\doom.exe") PNone in
  let w := set_games [doom; halo] (GameNestLauncher.initial Absent true) in
  let w' := fst (GameNestLauncher.sidebar_context_menu (Some "C:\Games\Halo\Halo.exe")
                   (RemoveAction true) w) in
  locate "C:\Games\Halo\Halo.exe" (games w') = None.
Proof.
  intros halo doom w.
  refine (proj2 (context_menu_remove "C:\Games\Halo\Halo.exe" w 1%nat _) _).
  - reflexivity.
  - repeat constructor.
Defined.

(** With two records of one path, which adding by hand allows, one
    removal leaves the other. *)
Example context_menu_remove_duplicate :
  let halo := GameEntry.init (PStr "Halo") (PStr "C:\Games\Halo\Halo.exe") PNone in
  let w := set_games [halo; halo] (GameNestLauncher.initial Absent true) in
  games (fst (GameNestLauncher.sidebar_context_menu (Some "C:\Games\Halo\Halo.exe")
                (RemoveAction true) w)) = [halo].
Proof. reflexivity. Qed.

Lemma locate_appended p g : forall gs,
  GameEntry.path g = PStr p ->
  exists i h,
    locate p (gs ++ [g]) = Some i /\ nth_error (gs ++ [g]) i = Some h
    /\ GameEntry.path h = PStr p /\ (i <= List.length gs)%nat.
Proof.
  intros gs Hp. induction gs as [| x r IH]; simpl.
  - exists 0%nat, g. rewrite Hp. unfold Py.eq_str. simpl. rewrite String.eqb_refl.
    repeat split; auto.
  - destruct (Py.eq_str (GameEntry.path x) p) eqn:E.
    + exists 0%nat, x. repeat split; auto; [apply eq_str_true; exact E | lia].
    + destruct IH as [i [h [Hl [Hn [Hh Hi]]]]]. exists (S i), h. rewrite Hl.
      repeat split; auto. lia.
Qed.

(** X11. A game added by hand can be looked up by its path right away: the
    lookup finds a record with that path, the new one or one that was
    there before. *)
Theorem added_game_is_found icon exe w :
  let w' := fst (GameNestLauncher.add_game_manually icon (Some exe) w) in
  exists i g,
    locate exe (games w') = Some i /\ nth_error (games w') i = Some g
    /\ GameEntry.path g = PStr exe /\ (i <= List.length (games w))%nat.
Proof.
  cbv zeta. rewrite add_game_manually_appends. apply locate_appended. reflexivity.
Qed.

(** ** The list of scan folders *)

Lemma str_in_strings f l :
  exists b, Py.str_in f (PList (map PStr l)) = Ok b /\ (b = true <-> In f l).
Proof.
  simpl. eexists. split; [reflexivity |].
  rewrite existsb_exists. split.
  - intros [x [Hx E]]. apply in_map_iff in Hx. destruct Hx as [s [<- Hs]].
    apply eq_str_true in E. injection E as ->. exact Hs.
  - intros H. exists (PStr f). split; [apply in_map; exact H |].
    unfold Py.eq_str. simpl. apply String.eqb_refl.
Qed.

Lemma remove_str_strings f l :
  NoDup l ->
  exists l', Py.remove_str f (map PStr l) = map PStr l' /\ NoDup l'
             /\ forall x, In x l' <-> In x l /\ x <> f.
Proof.
  induction 1 as [| a r Ha Hr IH]; simpl.
  - exists []. split; [reflexivity | split; [constructor | simpl; tauto]].
  - unfold Py.eq_str. simpl. destruct (String.eqb_spec a f) as [-> | Hne].
    + exists r. split; [reflexivity | split; [exact Hr |]].
      intros x. split.
      * intros Hx. split; [right; exact Hx | intros ->; contradiction].
      * intros [[<- | Hx] Hxf]; [contradiction | exact Hx].
    + destruct IH as [l' [Heq [Hnd Hin]]]. exists (a :: l').
      split; [simpl; rewrite Heq; reflexivity | split].
      * constructor; [| exact Hnd]. intros Hc. apply Hin in Hc. tauto.
      * intros x. simpl. rewrite Hin. split.
        -- intros [<- | [Hx Hxf]]; auto.
        -- intros [[<- | Hx] Hxf]; auto.
Qed.

Lemma add_scan_folder_present folder w l :
  folders_are w l -> In folder l ->
  GameNestLauncher.add_scan_folder (Some folder) w = (w, Ok tt).
Proof.
  unfold folders_are. intros Hl Hin. unfold GameNestLauncher.add_scan_folder.
  rewrite bind_read, bind_lift, Hl.
  destruct (str_in_strings folder l) as [b [-> Hb]].
  destruct b; [reflexivity |]. apply Hb in Hin. discriminate.
Qed.

Lemma add_scan_folder_absent folder w l :
  folders_are w l -> ~ In folder l ->
  GameNestLauncher.add_scan_folder (Some folder) w
  = (set_custom_scan_folders (PList (map PStr (l ++ [folder]))) w, Ok tt).
Proof.
  unfold folders_are. intros Hl Hin. unfold GameNestLauncher.add_scan_folder.
  rewrite bind_read, bind_lift, Hl.
  destruct (str_in_strings folder l) as [b [-> Hb]].
  destruct b; [exfalso; apply Hin; apply Hb; reflexivity |].
  simpl. unfold modify. rewrite map_app. reflexivity.
Qed.

(** X12. Adding a scan folder keeps the list free of duplicates: a folder
    that is in the list is not added again, a new one goes to the end,
    and no exception is raised. *)
Theorem add_scan_folder_no_duplicates folder w l :
  folders_are w l -> NoDup l ->
  let r := GameNestLauncher.add_scan_folder (Some folder) w in
  snd r = Ok tt
  /\ (In folder l -> fst r = w)
  /\ (~ In folder l -> fst r = set_custom_scan_folders (PList (map PStr (l ++ [folder]))) w)
  /\ exists l', folders_are (fst r) l' /\ NoDup l' /\ In folder l'
                /\ forall x, In x l' <-> x = folder \/ In x l.
Proof.
  intros Hl Hnd. cbv zeta.
  destruct (in_dec string_dec folder l) as [Hin | Hnin].
  - rewrite (add_scan_folder_present folder w l Hl Hin). simpl.
    split; [reflexivity |]. split; [reflexivity |]. split; [intros Hc; contradiction |].
    exists l. split; [exact Hl |]. split; [exact Hnd |]. split; [exact Hin |].
    intros x. split; [auto | intros [-> | Hx]; auto].
  - rewrite (add_scan_folder_absent folder w l Hl Hnin). simpl.
    split; [reflexivity |]. split; [intros Hc; contradiction |].
    split; [reflexivity |].
    exists (l ++ [folder])%list. split; [| split; [| split]].
    + unfold folders_are. destruct w; reflexivity.
    + apply NoDup_app.
      * exact Hnd.
      * constructor; [simpl; tauto | constructor].
      * intros x Hx [<- | []]. contradiction.
    + apply in_or_app. right. left. reflexivity.
    + intros x. rewrite in_app_iff. simpl. split.
      * intros [Hx | [<- | []]]; auto.
      * intros [-> | Hx]; auto.
Qed.

Lemma add_scan_folder_no_duplicates_witness :
  let w := set_custom_scan_folders (PList (map PStr ["D:/Games"]))
             (GameNestLauncher.initial Absent true) in
  snd (GameNestLauncher.add_scan_folder (Some "D:/Games") w) = Ok tt
  /\ fst (GameNestLauncher.add_scan_folder (Some "D:/Games") w) = w.
Proof.
  intros w.
  destruct (add_scan_folder_no_duplicates "D:/Games" w ["D:/Games"]) as [Hok [Hsame _]].
  - reflexivity.
  - repeat constructor. simpl. tauto.
  - split; [exact Hok | apply Hsame; left; reflexivity].
Defined.

Lemma remove_one_folder folder w l :
  custom_scan_folders w = PList (map PStr l) -> NoDup l ->
  let body :=
    (w <- read ;;
     present <- lift (Py.str_in folder (custom_scan_folders w)) ;;
     if present then
       match custom_scan_folders w with
       | PList l => modify (set_custom_scan_folders (PList (Py.remove_str folder l)))
       | _ => raise AttributeError
       end
     else ret tt) in
  snd (body w) = Ok tt
  /\ exists l', fst (body w) = set_custom_scan_folders (PList (map PStr l')) w
                /\ NoDup l' /\ forall x, In x l' <-> In x l /\ x <> folder.
Proof.
  intros Hl Hnd. cbv zeta. rewrite bind_read, bind_lift, Hl.
  destruct (str_in_strings folder l) as [b [-> Hb]].
  destruct b; simpl.
  - destruct (remove_str_strings folder l Hnd) as [l' [Heq [Hnd' Hin]]].
    split; [reflexivity |]. exists l'. rewrite Heq.
    split; [reflexivity | split; [exact Hnd' | exact Hin]].
  - assert (~ In folder l) as Hnin by (intros Hc; apply Hb in Hc; discriminate).
    split; [reflexivity |]. exists l. split; [| split; [exact Hnd |]].
    + destruct w; simpl in *. rewrite Hl. reflexivity.
    + intros x. split; [| tauto].
      intros Hx. split; [exact Hx | intros ->; contradiction].
Qed.

(** X13. Removing the selected scan folders from a list without duplicates
    leaves exactly the folders that were not selected, without
    duplicates, touches nothing else, and raises nothing. *)
Theorem remove_scan_folder_exact selected : forall w l,
  folders_are w l -> NoDup l ->
  let r := GameNestLauncher.remove_scan_folder selected w in
  snd r = Ok tt
  /\ exists l', fst r = set_custom_scan_folders (PList (map PStr l')) w
                /\ NoDup l' /\ forall x, In x l' <-> In x l /\ ~ In x selected.
Proof.
  unfold GameNestLauncher.remove_scan_folder.
  induction selected as [| folder rest IH]; intros w l Hl Hnd; cbv zeta.
  - simpl. split; [reflexivity |]. exists l. split; [| split; [exact Hnd |]].
    + unfold folders_are in Hl. destruct w; simpl in *. rewrite Hl. reflexivity.
    + intros x. tauto.
  - cbn [for_each].
    destruct (remove_one_folder folder w l Hl Hnd) as [Hok [l1 [Hw1 [Hnd1 Hin1]]]].
    rewrite (bind_ok _ _ _ _ Hok). rewrite Hw1.
    destruct (IH (set_custom_scan_folders (PList (map PStr l1)) w) l1)
      as [Hok2 [l2 [Hw2 [Hnd2 Hin2]]]].
    + destruct w; reflexivity.
    + exact Hnd1.
    + split; [exact Hok2 |]. exists l2. split; [| split; [exact Hnd2 |]].
      * rewrite Hw2. destruct w; reflexivity.
      * intros x. rewrite Hin2, Hin1. simpl. split.
        -- intros [[Hx Hne] Hnr]. split; [exact Hx |]. intros [Hc | Hc]; auto.
        -- intros [Hx Hns]. split; [split; [exact Hx |] |].
           ++ intros ->. apply Hns. left. reflexivity.
           ++ intros Hc. apply Hns. right. exact Hc.
Qed.

Lemma remove_scan_folder_exact_witness :
  let w := set_custom_scan_folders (PList (map PStr ["D:/Games"; "E:/Old"; "F:/More"]))
             (GameNestLauncher.initial Absent true) in
  fst (GameNestLauncher.remove_scan_folder ["E:/Old"; "Z:/Unknown"] w)
  = set_custom_scan_folders (PList (map PStr ["D:/Games"; "F:/More"])) w
  /\ snd (GameNestLauncher.remove_scan_folder ["E:/Old"; "Z:/Unknown"] w) = Ok tt.
Proof.
  intros w.
  destruct (remove_scan_folder_exact ["E:/Old"; "Z:/Unknown"] w ["D:/Games"; "E:/Old"; "F:/More"])
    as [Hok _].
  - reflexivity.
  - repeat constructor; simpl; intuition discriminate.
  - split; [reflexivity | exact Hok].
Defined.

(** ** Files that parse but are no catalog *)

(** X14. When an entry of the games array cannot be made a record (it is no
    object, or it lacks the name or the path), [load_games] keeps the
    records of the entries before it, shows a warning with the error, and
    takes nothing else from the file: scan folders, background and blur
    stay as they were. *)
Theorem load_games_faulty_entry w v xs good bad rest e :
  games_file w = Json v ->
  Py.get v "games" (PList []) = Ok xs ->
  Py.iterate xs = Ok (good ++ bad :: rest)%list ->
  snd (load_records good) = Ok tt ->
  load_record bad = Raise e ->
  GameNestLauncher.load_games w
  = (show (Warning "Failed to load games.json: " e)
       (set_games (fst (load_records good)) w), Ok tt).
Proof.
  intros Hf Hx Hi Hgood Hbad. unfold GameNestLauncher.load_games.
  rewrite bind_read. unfold GameNestLauncher.games_file_exists. rewrite Hf.
  unfold try_except. rewrite (bind_json_load _ _ _ Hf).
  unfold GameNestLauncher.load_document.
  rewrite bind_modify, bind_lift, Hx, bind_lift, Hi, bind_load_loop.
  rewrite (load_records_faulty good bad rest e Hgood Hbad).
  pose proof (load_record_exn bad e Hbad) as Hne.
  cbv beta iota delta [fst snd]. destruct w. destruct e; try reflexivity. contradiction.
Qed.

Lemma load_games_faulty_entry_witness :
  let file := Json (PDict [("games", PList
       [ PDict [("name", PStr "A"); ("path", PStr "C:\a.exe")];
         PStr "B";
         PDict [("name", PStr "C"); ("path", PStr "C:\c.exe")] ]);
       ("custom_scan_folders", PList [PStr "D:/Games"])]) in
  GameNestLauncher.load_games (GameNestLauncher.initial file true)
  = (show (Warning "Failed to load games.json: " TypeError)
       (set_games [GameEntry.init (PStr "A") (PStr "C:\a.exe") PNone]
          (GameNestLauncher.initial file true)), Ok tt).
Proof.
  intros file.
  apply (load_games_faulty_entry (GameNestLauncher.initial file true)
           (PDict [("games", PList
              [ PDict [("name", PStr "A"); ("path", PStr "C:\a.exe")];
                PStr "B";
                PDict [("name", PStr "C"); ("path", PStr "C:\c.exe")] ]);
              ("custom_scan_folders", PList [PStr "D:/Games"])])
           (PList [ PDict [("name", PStr "A"); ("path", PStr "C:\a.exe")];
                    PStr "B";
                    PDict [("name", PStr "C"); ("path", PStr "C:\c.exe")] ])
           [PDict [("name", PStr "A"); ("path", PStr "C:\a.exe")]]
           (PStr "B")
           [PDict [("name", PStr "C"); ("path", PStr "C:\c.exe")]]
           TypeError); reflexivity.
Defined.

(** X15. A file whose JSON value is no object (a list, a number, a string,
    null) is reported with a warning; the records in memory are dropped
    and nothing else changes. *)
Theorem load_games_not_an_object w v :
  games_file w = Json v ->
  (forall d, v <> PDict d) ->
  GameNestLauncher.load_games w
  = (show (Warning "Failed to load games.json: " AttributeError) (set_games [] w), Ok tt).
Proof.
  intros Hf Hv. unfold GameNestLauncher.load_games.
  rewrite bind_read. unfold GameNestLauncher.games_file_exists. rewrite Hf.
  unfold try_except. rewrite (bind_json_load _ _ _ Hf).
  unfold GameNestLauncher.load_document. rewrite bind_modify, bind_lift.
  destruct v; try reflexivity. exfalso. apply (Hv d). reflexivity.
Qed.

Lemma load_games_not_an_object_witness :
  GameNestLauncher.startup (Json (PList [])) true
  = (show (Warning "Failed to load games.json: " AttributeError)
       (set_games [] (GameNestLauncher.initial (Json (PList [])) true)), Ok tt).
Proof.
  apply (load_games_not_an_object _ (PList [])); [reflexivity | discriminate].
Defined.

(** ** Records and their JSON form *)

(** X16. A record survives the trip through its dictionary: [from_dict] gives
    back the record that [to_dict] was made from, and the same holds for
    the entry that [save_games] writes, which is that dictionary and has
    the seven keys of the schema whatever the values. *)
Theorem game_entry_round_trip g :
  GameEntry.from_dict (GameEntry.to_dict g) = Ok g
  /\ GameNestLauncher.game_json g = GameEntry.to_dict g
  /\ exists d, GameEntry.to_dict g = PDict d /\ map fst d = schema_keys.
Proof.
  destruct g. split; [reflexivity | split; [reflexivity |]].
  eexists. split; reflexivity.
Qed.

(** ** Hours, minutes, seconds *)

(** X17. The three numbers shown for a playtime add up to it, with minutes and
    seconds below 60, for every integer; the hours of a playtime that is
    not negative are not negative. *)
Theorem playtime_parts_exact seconds :
  match playtime_parts seconds with
  | (h, m, s) =>
      h * 3600 + m * 60 + s = seconds
      /\ 0 <= m < 60 /\ 0 <= s < 60
      /\ (0 <= seconds -> 0 <= h)
  end.
Proof.
  unfold playtime_parts.
  pose proof (Z.div_mod seconds 3600 ltac:(lia)) as H1.
  pose proof (Z.mod_pos_bound seconds 3600 ltac:(lia)) as B1.
  pose proof (Z.div_mod (seconds mod 3600) 60 ltac:(lia)) as H2.
  pose proof (Z.mod_pos_bound (seconds mod 3600) 60 ltac:(lia)) as B2.
  pose proof (Z.mod_pos_bound seconds 60 ltac:(lia)) as B3.
  assert ((seconds mod 3600) mod 60 = seconds mod 60) as E.
  { apply Z.mod_mod_divide. exists 60. reflexivity. }
  rewrite E in *.
  assert (0 <= (seconds mod 3600) / 60 < 60) as B4.
  { split; [apply Z.div_pos; lia | apply Z.div_lt_upper_bound; lia]. }
  assert (0 <= seconds -> 0 <= seconds / 3600) as B5 by (intros; apply Z.div_pos; lia).
  repeat split; try lia; exact B5.
Qed.

Example playtime_parts_values :
  map playtime_parts [0; 125; 3600; 7384; -1] = [(0, 0, 0); (0, 2, 5); (1, 0, 0); (2, 3, 4); (-1, 59, 59)].
Proof. reflexivity. Qed.

(** ** The animated gradient *)

Lemma tick_iter custom n shift :
  Py.truthy custom = false ->
  Nat.iter (S n) (tick custom) shift = (shift + Z.of_nat (S n)) mod 360.
Proof.
  intros Hc. induction n as [| n IH].
  - simpl. unfold tick, update_default_background. rewrite Hc. reflexivity.
  - change (Nat.iter (S (S n)) (tick custom) shift)
      with (tick custom (Nat.iter (S n) (tick custom) shift)).
    rewrite IH. unfold tick, update_default_background. rewrite Hc. cbn [fst].
    rewrite Zplus_mod_idemp_l. f_equal. lia.
Qed.

(** X18. Without a custom background every tick leaves the gradient shift
    between 0 and 359; the two hues handed to the colour are in that range
    too; after any number of ticks the shift is the start plus that
    number, modulo 360, so 360 ticks bring a shift of the range back to
    itself.  With a custom background a tick changes nothing. *)
Theorem gradient_shift_cycle custom shift n :
  (Py.truthy custom = false ->
     0 <= Nat.iter (S n) (tick custom) shift < 360
     /\ Nat.iter (S n) (tick custom) shift = (shift + Z.of_nat (S n)) mod 360
     /\ (0 <= shift < 360 -> Nat.iter 360 (tick custom) shift = shift)
     /\ exists h1 h2, snd (update_default_background custom shift) = Some (h1, h2)
                      /\ h1 = tick custom shift /\ 0 <= h1 < 360 /\ 0 <= h2 < 360)
  /\ (Py.truthy custom = true ->
        update_default_background custom shift = (shift, None)).
Proof.
  split.
  - intros Hc. rewrite (tick_iter custom n shift Hc).
    split; [apply Z.mod_pos_bound; lia |]. split; [reflexivity |]. split.
    + intros Hr. rewrite (tick_iter custom 359 shift Hc).
      change (Z.of_nat 360) with (1 * 360). rewrite Z_mod_plus_full.
      apply Z.mod_small. exact Hr.
    + unfold tick, update_default_background. rewrite Hc. cbn [fst snd].
      eexists. eexists. split; [reflexivity |]. split; [reflexivity |].
      split; apply Z.mod_pos_bound; lia.
  - intros Hc. unfold update_default_background. rewrite Hc. reflexivity.
Qed.

Lemma gradient_shift_cycle_witness :
  Nat.iter 360 (tick PNone) 217 = 217.
Proof.
  refine (proj1 (proj2 (proj2 (proj1 (gradient_shift_cycle PNone 217 0) eq_refl))) _). lia.
Defined.

(** ** The search bar *)

Lemma filter_sidebar_items_strings query gs :
  (forall g, In g gs -> exists n, GameEntry.name g = PStr n) ->
  filter_sidebar_items query gs = Ok (map sidebar_item (filter (name_contains query) gs)).
Proof.
  induction gs as [| g r IH]; intros H; simpl; [reflexivity |].
  destruct (H g (or_introl eq_refl)) as [n Hn].
  unfold name_contains at 1. rewrite Hn.
  rewrite IH by (intros h Hh; apply H; right; exact Hh).
  destruct (Str.contains query (Str.lower n)); [| reflexivity].
  simpl. unfold sidebar_item at 2. rewrite Hn. reflexivity.
Qed.

Lemma filter_sidebar_items_raises query gs g :
  In g gs -> (forall n, GameEntry.name g <> PStr n) ->
  filter_sidebar_items query gs = Raise AttributeError.
Proof.
  intros Hin Hg. induction gs as [| x r IH]; simpl; [contradiction |].
  destruct Hin as [-> | Hin].
  - destruct (GameEntry.name g) eqn:E; try reflexivity. exfalso. exact (Hg s eq_refl).
  - rewrite (IH Hin). destruct (GameEntry.name x); reflexivity.
Qed.

Lemma contains_empty s : Str.contains "" s = true.
Proof. destruct s; reflexivity. Qed.

Lemma filter_all {A} (f : A -> bool) l : (forall x, In x l -> f x = true) -> filter f l = l.
Proof.
  induction l as [| x r IH]; intros H; simpl; [reflexivity |].
  rewrite (H x (or_introl eq_refl)), IH; [reflexivity |].
  intros y Hy. apply H. right. exact Hy.
Qed.

(** X19. The search shows, in the order of the catalog, the games whose name
    contains the typed text, letters compared in lower case, each with its
    name and its path; an empty text shows all the games.  If a record has
    a name that is no string the search raises. *)
Theorem filter_sidebar_result text w :
  ((forall g, In g (games w) -> exists n, GameEntry.name g = PStr n) ->
     filter_sidebar text w
     = Ok (map sidebar_item (filter (name_contains (Str.lower text)) (games w)))
     /\ filter_sidebar "" w = Ok (map sidebar_item (games w)))
  /\ ((exists g, In g (games w) /\ forall n, GameEntry.name g <> PStr n) ->
        filter_sidebar text w = Raise AttributeError).
Proof.
  unfold filter_sidebar. split.
  - intros H. split; [apply filter_sidebar_items_strings; exact H |].
    rewrite (filter_sidebar_items_strings _ _ H). f_equal. f_equal.
    apply filter_all. intros g Hg. destruct (H g Hg) as [n Hn].
    unfold name_contains. rewrite Hn. apply contains_empty.
  - intros [g [Hin Hg]]. eapply filter_sidebar_items_raises; eauto.
Qed.

Lemma filter_sidebar_result_witness :
  let w := set_games
      [ GameEntry.init (PStr "Halo") (PStr "C:\Games\Halo\Halo.exe") PNone;
        GameEntry.init (PStr "Doom") (PStr "C:\Games\Doom\doom.exe") PNone;
        GameEntry.init (PStr "HALO 2") (PStr "C:\Games\Halo2\halo2.exe") PNone ]
      (GameNestLauncher.initial Absent true) in
  filter_sidebar "hAl" w
  = Ok [ (PStr "Halo", PStr "C:\Games\Halo\Halo.exe");
         (PStr "HALO 2", PStr "C:\Games\Halo2\halo2.exe") ].
Proof.
  intros w.
  refine (proj1 (proj1 (filter_sidebar_result "hAl" w) _)).
  intros g Hg. simpl in Hg.
  repeat (destruct Hg as [<- | Hg]; [eexists; reflexivity |]). contradiction.
Defined.

(** ** The module-level launch *)

Lemma nth_error_middle {A} (l1 : list A) g l2 :
  nth_error (l1 ++ g :: l2) (List.length l1) = Some g.
Proof. induction l1 as [| x r IH]; simpl; auto. Qed.

(** X20. The module-level [launch_selected_game], when the process starts and
    the playtime of the selected record is an integer: that record, and
    no other, gets the session added to its playtime and the formatted
    time as its last-played text, and the document is written. *)
Theorem module_level_launch_session p w i secs now :
  locate p (games w) = Some i -> writable w = true ->
  let r := launch_selected_game (Some p) true secs now w in
  exists l1 g l2,
    games w = (l1 ++ g :: l2)%list /\ List.length l1 = i /\ GameEntry.path g = PStr p
    /\ forall t, GameEntry.total_playtime g = PInt t ->
         games (fst r)
         = (l1 ++ GameEntry.set_last_played (PStr (format_datetime now))
                    (GameEntry.set_total_playtime (PInt (t + secs)) g) :: l2)%list
         /\ persisted (fst r) /\ snd r = Ok tt.
Proof.
  intros E Hw. cbv zeta.
  destruct (locate_some p _ i E) as [l1 [g [l2 [Hgs [Hlen [Hp Hl1]]]]]].
  exists l1, g, l2. repeat split; auto.
  all: unfold launch_selected_game; rewrite bind_read, E; unfold try_except;
    rewrite bind_ret, bind_read, Hgs; subst i; rewrite nth_error_middle, bind_lift, H;
    cbv beta iota delta [Py.add_int]; rewrite !bind_modify;
    destruct w as [gs csf bg blur sl f wr sh]; simpl in Hw, Hgs; subst;
    unfold GameNestLauncher.save_games, try_except; unfold_world;
    rewrite ?update_at_middle; reflexivity.
Qed.

Lemma module_level_launch_session_witness :
  let halo := GameEntry.init (PStr "Halo") (PStr "C:\Games\Halo\Halo.exe") PNone in
  let w := set_games [halo] (GameNestLauncher.initial Absent true) in
  let now := {| year := 2024; month := 12; day := 31; hour := 23; minute := 59; second := 7 |} in
  exists l1 g l2,
    games w = (l1 ++ g :: l2)%list /\ List.length l1 = 0%nat
    /\ GameEntry.path g = PStr "C:\Games\Halo\Halo.exe"
    /\ forall t, GameEntry.total_playtime g = PInt t ->
         games (fst (launch_selected_game (Some "C:\Games\Halo\Halo.exe") true 125 now w))
         = (l1 ++ GameEntry.set_last_played (PStr (format_datetime now))
                    (GameEntry.set_total_playtime (PInt (t + 125)) g) :: l2)%list
         /\ persisted (fst (launch_selected_game (Some "C:\Games\Halo\Halo.exe") true 125 now w))
         /\ snd (launch_selected_game (Some "C:\Games\Halo\Halo.exe") true 125 now w) = Ok tt.
Proof.
  intros halo w now.
  apply (module_level_launch_session "C:\Games\Halo\Halo.exe" w 0%nat 125 now); reflexivity.
Defined.

(** X21. When the process cannot be started, or when the playtime of the
    record is no number, the module-level [launch_selected_game] shows a
    warning and leaves records and file as they were. *)
Theorem module_level_launch_failure p w i g popen_ok secs now :
  locate p (games w) = Some i -> nth_error (games w) i = Some g ->
  popen_ok = false \/ Py.add_int (GameEntry.total_playtime g) secs = Raise TypeError ->
  exists e, launch_selected_game (Some p) popen_ok secs now w
            = (show (Warning "Failed to launch: " e) w, Ok tt).
Proof.
  intros E Hn Hfail. unfold launch_selected_game. rewrite bind_read, E. unfold try_except.
  destruct popen_ok.
  - destruct Hfail as [Hc | Hadd]; [discriminate |].
    rewrite bind_ret, bind_read, Hn, bind_lift, Hadd. exists TypeError. reflexivity.
  - rewrite bind_raise. exists OSError. reflexivity.
Qed.

Lemma module_level_launch_failure_witness :
  let broken := GameEntry.set_total_playtime PNone
                  (GameEntry.init (PStr "Halo") (PStr "C:\Games\Halo\Halo.exe") PNone) in
  let w := set_games [broken] (GameNestLauncher.initial Absent true) in
  let now := {| year := 2024; month := 12; day := 31; hour := 23; minute := 59; second := 7 |} in
  exists e, launch_selected_game (Some "C:\Games\Halo\Halo.exe") true 125 now w
            = (show (Warning "Failed to launch: " e) w, Ok tt).
Proof.
  intros broken w now.
  apply (module_level_launch_failure "C:\Games\Halo\Halo.exe" w 0%nat broken true 125 now).
  - reflexivity.
  - reflexivity.
  - right. reflexivity.
Defined.

(** ** Paths *)

Lemma split_tail_plain n :
  Str.all_chars (fun c => negb (Path.is_sep c) && negb (Ascii.eqb c ":"%char)) n = true ->
  Path.split_tail n = (false, n).
Proof.
  induction n as [| c r IH]; simpl; [reflexivity |].
  intros H. apply andb_prop in H. destruct H as [Hc Hr].
  apply andb_prop in Hc. destruct Hc as [Hsep _]. apply negb_true_iff in Hsep.
  rewrite (IH Hr), Hsep. reflexivity.
Qed.

Lemma split_tail_after_sep x c n :
  Path.is_sep c = true -> Path.split_tail n = (false, n) ->
  Path.split_tail (x ++ String c n) = (true, n).
Proof.
  intros Hc Hn. induction x as [| d r IH]; simpl.
  - rewrite Hn, Hc. reflexivity.
  - rewrite IH. reflexivity.
Qed.

Lemma rfind_from_bounds f s : forall i,
  0 <= i -> Str.rfind_from f s i = -1 \/ i <= Str.rfind_from f s i < i + Str.len s.
Proof.
  unfold Str.len. induction s as [| c r IH]; intros i Hi; simpl; [left; reflexivity |].
  destruct (IH (i + 1) ltac:(lia)) as [-> | Hb].
  - simpl. destruct (f c); [right | left; reflexivity]. lia.
  - destruct (Z.leb_spec 0 (Str.rfind_from f r (i + 1))); [right |]; lia.
Qed.

Lemma rfind_from_last f s : forall i,
  0 <= i -> Str.rfind_from f s i = i + Str.len s - 1 -> s <> EmptyString ->
  exists x c, s = x ++ String c EmptyString /\ f c = true.
Proof.
  unfold Str.len. induction s as [| c r IH]; intros i Hi Hj Hne; [congruence |].
  simpl in Hj. destruct r as [| d r'].
  - simpl in Hj. destruct (f c) eqn:E; [| lia].
    exists EmptyString, c. split; [reflexivity | exact E].
  - pose proof (rfind_from_bounds f (String d r') (i + 1) ltac:(lia)) as Hb.
    unfold Str.len in Hb.
    destruct (Z.leb_spec 0 (Str.rfind_from f (String d r') (i + 1))) as [Hpos | Hneg].
    + destruct (IH (i + 1) ltac:(lia)) as [x [c' [Hx Hc']]].
      * rewrite Hj. simpl String.length. lia.
      * discriminate.
      * exists (String c x), c'. rewrite Hx. split; [reflexivity | exact Hc'].
    + simpl String.length in Hj. destruct (f c); lia.
Qed.

Lemma ends_with_sep_last p :
  Path.ends_with_sep p = true ->
  exists x c, p = x ++ String c EmptyString /\ Path.is_sep c = true.
Proof.
  unfold Path.ends_with_sep, Str.rfind. intros H. apply andb_prop in H. destruct H as [H0 H1].
  apply Z.leb_le in H0. apply Z.eqb_eq in H1.
  apply (rfind_from_last Path.is_sep p 0); try lia.
  intros ->. simpl in H0. lia.
Qed.

Lemma append_assoc a b c : ((a ++ b) ++ c)%string = (a ++ (b ++ c))%string.
Proof. induction a as [| x r IH]; simpl; [reflexivity | rewrite IH; reflexivity]. Qed.

Lemma plain_name_no_drive n :
  plain_name n = true -> Path.splitdrive n = (EmptyString, n).
Proof.
  unfold plain_name. destruct n as [| a [| b r]]; simpl; try reflexivity.
  intros H. apply andb_prop in H. destruct H as [_ H].
  apply andb_prop in H. destruct H as [H _].
  apply andb_prop in H. destruct H as [_ H]. apply negb_true_iff in H.
  rewrite H. reflexivity.
Qed.

Lemma plain_name_not_absolute n : plain_name n = true -> Path.starts_with_sep n = false.
Proof.
  unfold plain_name. destruct n as [| a r]; simpl; [reflexivity |].
  intros H. apply andb_prop in H. destruct H as [H _].
  apply andb_prop in H. destruct H as [H _]. apply negb_true_iff in H. exact H.
Qed.

(** The tail of [rest ++ name], where [rest] is empty or ends in a
    separator after the one [join] may add, is [name]. *)
Lemma split_tail_joined rest n :
  plain_name n = true ->
  snd (Path.split_tail
         ((if negb (Str.is_empty rest) && negb (Path.ends_with_sep rest)
           then rest ++ Path.sep else rest) ++ n)) = n.
Proof.
  intros Hn. pose proof (split_tail_plain n Hn) as Hs.
  destruct rest as [| a r].
  - simpl. rewrite Hs. reflexivity.
  - cbn [Str.is_empty negb andb].
    destruct (Path.ends_with_sep (String a r)) eqn:E; cbn [negb].
    + destruct (ends_with_sep_last _ E) as [x [c [-> Hc]]].
      rewrite append_assoc. simpl (String c EmptyString ++ n)%string.
      rewrite (split_tail_after_sep x c n Hc Hs). reflexivity.
    + unfold Path.sep. rewrite append_assoc. simpl (String "\" EmptyString ++ n)%string.
      rewrite (split_tail_after_sep (String a r) "\"%char n eq_refl Hs). reflexivity.
Qed.

Lemma join_plain root n :
  plain_name n = true ->
  Path.join root n
  = (fst (Path.splitdrive root)
     ++ (if negb (Str.is_empty (snd (Path.splitdrive root)))
            && negb (Path.ends_with_sep (snd (Path.splitdrive root)))
         then snd (Path.splitdrive root) ++ Path.sep
         else snd (Path.splitdrive root))
     ++ n)%string.
Proof.
  intros Hn. unfold Path.join.
  rewrite (plain_name_no_drive n Hn), (plain_name_not_absolute n Hn).
  destruct (Path.splitdrive root) as [drive rest]. reflexivity.
Qed.

Lemma splitdrive_joined root n :
  plain_name n = true ->
  let rest := snd (Path.splitdrive root) in
  let joined := ((if negb (Str.is_empty rest) && negb (Path.ends_with_sep rest)
                  then rest ++ Path.sep else rest) ++ n)%string in
  snd (Path.splitdrive (fst (Path.splitdrive root) ++ joined)) = joined.
Proof.
  intros Hn. cbv zeta.
  destruct root as [| a [| b r]].
  - simpl. rewrite (plain_name_no_drive n Hn). reflexivity.
  - cbn [Path.splitdrive fst snd Str.is_empty negb andb String.append].
    destruct (Path.ends_with_sep (String a EmptyString)) eqn:E; cbn [negb].
    + destruct n as [| c n']; [reflexivity |].
      unfold plain_name in Hn. simpl in Hn.
      apply andb_prop in Hn. destruct Hn as [Hc _].
      apply andb_prop in Hc. destruct Hc as [_ Hc]. apply negb_true_iff in Hc.
      simpl. rewrite Hc. reflexivity.
    + reflexivity.
  - assert (Path.splitdrive (String a (String b r))
            = if Ascii.eqb b ":"%char
              then (String a (String b EmptyString), r)
              else (EmptyString, String a (String b r))) as -> by reflexivity.
    destruct (Ascii.eqb b ":"%char) eqn:Eb; cbn [fst snd].
    + simpl. rewrite Eb. reflexivity.
    + cbn [Str.is_empty negb andb].
      destruct (Path.ends_with_sep (String a (String b r))); cbn [negb];
        simpl; rewrite Eb; reflexivity.
Qed.

Lemma basename_of_join root n :
  plain_name n = true -> Path.basename (Path.join root n) = n.
Proof.
  intros Hn. rewrite (join_plain root n Hn). unfold Path.basename.
  rewrite (splitdrive_joined root n Hn). apply split_tail_joined. exact Hn.
Qed.

(** X22. For a child directory with a plain name, [find_game_exe] selects by
    that very name: the name the detected record gets is the name the
    first step of the heuristic looks for. *)
Theorem detection_selects_by_directory_name root entry_name sub :
  plain_name entry_name = true ->
  find_game_exe (Path.join root entry_name) sub
  = Heuristic.select entry_name (exe_candidates (Path.join root entry_name) sub).
Proof.
  intros Hn. rewrite find_game_exe_select, (basename_of_join root entry_name Hn). reflexivity.
Qed.

Lemma detection_selects_by_directory_name_witness :
  find_game_exe (Path.join "C:\Games" "Halo") [File "setup.exe"; File "halo_game.exe"]
  = Heuristic.select "Halo"
      (exe_candidates (Path.join "C:\Games" "Halo") [File "setup.exe"; File "halo_game.exe"]).
Proof. apply detection_selects_by_directory_name. reflexivity. Defined.

(** ** The slider and the blur value *)

Lemma save_games_slider : preserves slider_shows_blur GameNestLauncher.save_games.
Proof.
  intros w (Hb & Hr & Hf). destruct w as [gs csf bg blur sl f wr sh]. simpl in *. subst.
  unfold GameNestLauncher.save_games, slider_shows_blur.
  destruct wr; simpl; repeat split; auto; try lia.
  exists sl. split; [reflexivity | lia].
Qed.

Lemma setValue_slider value :
  preserves (fun w => 0 <= blur_slider w <= 20 /\ file_blur_ok (games_file w)
                      /\ (bg_blur_amount w = PInt (blur_slider w)
                          \/ bg_blur_amount w = PInt value /\ 0 <= value <= 20))
            (GameNestLauncher.blur_slider_setValue value)
  /\ forall w, 0 <= blur_slider w <= 20 -> file_blur_ok (games_file w) ->
       bg_blur_amount w = PInt (blur_slider w)
       \/ bg_blur_amount w = PInt value /\ 0 <= value <= 20 ->
       slider_shows_blur (fst (GameNestLauncher.blur_slider_setValue value w)).
Proof.
  assert (forall w, 0 <= blur_slider w <= 20 -> file_blur_ok (games_file w) ->
       bg_blur_amount w = PInt (blur_slider w)
       \/ bg_blur_amount w = PInt value /\ 0 <= value <= 20 ->
       slider_shows_blur (fst (GameNestLauncher.blur_slider_setValue value w))) as Main.
  { intros w Hr Hf Hb. destruct w as [gs csf bg blur sl f wr sh]. simpl in *.
    unfold GameNestLauncher.blur_slider_setValue, GameNestLauncher.set_background_blur,
      GameNestLauncher.save_games, slider_shows_blur.
    destruct (_ || _) eqn:Eo; [simpl; destruct Hb as [-> | [-> Hv]]; bool_facts;
      repeat split; auto; try lia; apply orb_true_iff in Eo; destruct Eo; bool_facts; lia |].
    rewrite bind_read. cbn [blur_slider].
    destruct (Z.max 0 (Z.min 20 value) =? sl) eqn:Ev; bool_facts.
    - simpl. destruct Hb as [-> | [-> Hv]]; repeat split; auto; try lia. f_equal. lia.
    - destruct wr; simpl; repeat split; auto; try lia.
      exists (Z.max 0 (Z.min 20 value)). split; [reflexivity | lia]. }
  split; [| exact Main].
  intros w (Hr & Hf & Hb). destruct (Main w Hr Hf Hb) as (H1 & H2 & H3). auto.
Qed.

Lemma handle_slider icon ev : preserves slider_shows_blur (GameNestLauncher.handle icon ev).
Proof.
  destruct ev; cbn [GameNestLauncher.handle];
    unfold GameNestLauncher.toggle_favorite, GameNestLauncher.set_custom_background,
      GameNestLauncher.sidebar_context_menu, GameNestLauncher.launch_selected_game,
      GameNestLauncher.rename_game, GameNestLauncher.remove_game, GameNestLauncher.edit_notes,
      GameNestLauncher.on_add_clicked, GameNestLauncher.detect_games,
      GameNestLauncher.add_game_manually, GameNestLauncher.add_scan_folder,
      GameNestLauncher.remove_scan_folder, GameNestLauncher.reset_games_list;
    preserve; try apply save_games_slider.
  intros w (Hb & Hr & Hf). apply (proj2 (setValue_slider position)); auto.
Qed.

Lemma load_document_slider v :
  file_blur_ok (Json v) -> preserves slider_shows_blur (GameNestLauncher.load_document v).
Proof.
  intros Hv. unfold GameNestLauncher.load_document, GameNestLauncher.append_loaded.
  do 8 (apply preserves_bind; [solve [preserve] | intros ?]).
  apply preserves_bind_lift. intros blur Hblur.
  destruct (get_blur_in_range v blur Hv Hblur) as [b [-> Hb]].
  intros w (Hs & Hr & Hf). rewrite bind_modify, bind_lift. cbv beta iota delta [Py.as_int].
  apply (proj2 (setValue_slider b)); destruct w; simpl in *; auto.
Qed.

Lemma load_games_slider : preserves slider_shows_blur GameNestLauncher.load_games.
Proof.
  intros w H. unfold GameNestLauncher.load_games. rewrite bind_read.
  destruct (GameNestLauncher.games_file_exists w); [| apply save_games_slider; exact H].
  refine (preserves_try slider_shows_blur _ _ _ _ w H); [| intros e; frame_modify].
  intros w1 H1. unfold bind, GameNestLauncher.json_load.
  destruct (games_file w1) as [| | text | v] eqn:E; try exact H1.
  apply load_document_slider; [| exact H1].
  destruct H1 as (_ & _ & Hf). rewrite E in Hf. exact Hf.
Qed.

(** X23. Over every run that starts from a file following the schema, the
    position of the blur slider and the blur value of the launcher are the
    same number: what the slider shows is what is saved. *)
Theorem slider_always_shows_blur icon file can_write evs :
  file_blur_ok file ->
  let w := fst (GameNestLauncher.run icon file can_write evs) in
  bg_blur_amount w = PInt (blur_slider w) /\ 0 <= blur_slider w <= 20.
Proof.
  intros Hf. cbv zeta.
  assert (slider_shows_blur (fst (GameNestLauncher.run icon file can_write evs))) as (H1 & H2 & _).
  { unfold GameNestLauncher.run. apply (preserves_bind slider_shows_blur).
    - apply load_games_slider.
    - intros _. apply preserves_for_each. intros ev. apply handle_slider.
    - split; [reflexivity | split; [simpl; lia | exact Hf]]. }
  split; assumption.
Qed.

Lemma slider_always_shows_blur_witness :
  let w := fst (GameNestLauncher.run (fun _ => None)
                  (Json (PDict [("custom_background_blur", PInt 12)])) true
                  [ResetClicked true; BlurSliderMoved 35]) in
  bg_blur_amount w = PInt (blur_slider w) /\ 0 <= blur_slider w <= 20.
Proof.
  apply slider_always_shows_blur. exists 12. split; [reflexivity | lia].
Defined.

(** ** Names without their extension *)

Lemma all_chars_append f a b :
  Str.all_chars f (a ++ b) = Str.all_chars f a && Str.all_chars f b.
Proof.
  induction a as [| c r IH]; simpl; [reflexivity |].
  rewrite IH, andb_assoc. reflexivity.
Qed.

Lemma rfind_from_none f s : forall i,
  Str.all_chars (fun c => negb (f c)) s = true -> Str.rfind_from f s i = -1.
Proof.
  induction s as [| c r IH]; intros i H; simpl in *; [reflexivity |].
  apply andb_prop in H. destruct H as [Hc Hr]. apply negb_true_iff in Hc.
  rewrite (IH (i + 1) Hr), Hc. reflexivity.
Qed.

Lemma rfind_from_marker f stem c ext : forall i,
  0 <= i -> f c = true -> Str.all_chars (fun x => negb (f x)) ext = true ->
  Str.rfind_from f (stem ++ String c ext) i = i + Str.len stem.
Proof.
  unfold Str.len. induction stem as [| d r IH]; intros i Hi Hc Hext; simpl.
  - rewrite (rfind_from_none f ext (i + 1) Hext), Hc. simpl. lia.
  - rewrite (IH (i + 1) ltac:(lia) Hc Hext).
    destruct (Z.leb_spec 0 (i + 1 + Z.of_nat (String.length r))); lia.
Qed.

Lemma substring_prefix s t : String.substring 0 (String.length s) (s ++ t) = s.
Proof.
  induction s as [| c r IH]; simpl.
  - destruct t; reflexivity.
  - rewrite IH. reflexivity.
Qed.

Lemma slice_prefix s t : Str.slice (s ++ t) 0 (Str.len s) = s.
Proof.
  unfold Str.slice, Str.len. rewrite Z.sub_0_r, Nat2Z.id. apply substring_prefix.
Qed.

Lemma splitext_root_of_stem stem ext :
  Str.all_chars (fun c => negb (Path.is_sep c)) stem = true ->
  Str.all_chars (fun c => negb (Path.is_sep c)) ext = true ->
  Str.all_chars (fun c => negb (Path.is_dot c)) ext = true ->
  Str.all_chars Path.is_dot stem = false ->
  Path.splitext_root (stem ++ String "." ext) = stem.
Proof.
  intros Hs He Hd Hn. unfold Path.splitext_root, Str.rfind.
  rewrite (rfind_from_none Path.is_sep (stem ++ String "." ext) 0)
    by (rewrite all_chars_append, Hs; simpl; exact He).
  rewrite (rfind_from_marker Path.is_dot stem "."%char ext 0 ltac:(lia) eq_refl Hd).
  assert ((-1 <? 0 + Str.len stem) = true) as -> by (apply Z.ltb_lt; unfold Str.len; lia).
  change (-1 + 1) with 0. rewrite Z.add_0_l, slice_prefix, Hn. reflexivity.
Qed.

(** X24. A game added by hand from [directory\stem.ext] is named [stem], has
    the picked path, the icon the provider finds, and the defaults
    elsewhere; it goes to the end of the catalog and the document is
    written. *)
Theorem add_game_manually_record icon directory stem ext w :
  plain_name (stem ++ String "." ext) = true ->
  Str.all_chars (fun c => negb (Path.is_dot c)) ext = true ->
  Str.all_chars Path.is_dot stem = false ->
  writable w = true ->
  let exe := Path.join directory (stem ++ String "." ext) in
  let w' := fst (GameNestLauncher.add_game_manually icon (Some exe) w) in
  games w' = (games w ++ [GameEntry.init (PStr stem) (PStr exe)
                            (GameNestLauncher.icon_value icon exe)])%list
  /\ persisted w'.
Proof.
  intros Hp Hd Hn Hw. cbv zeta. split.
  - rewrite add_game_manually_appends, (basename_of_join directory _ Hp).
    rewrite splitext_root_of_stem; auto.
    + unfold plain_name in Hp. rewrite all_chars_append in Hp.
      apply andb_prop in Hp. destruct Hp as [Hs _].
      clear - Hs. induction stem as [| c r IH]; simpl in *; [reflexivity |].
      apply andb_prop in Hs. destruct Hs as [Hc Hr].
      apply andb_prop in Hc. destruct Hc as [Hc _]. rewrite Hc, (IH Hr). reflexivity.
    + unfold plain_name in Hp. rewrite all_chars_append in Hp.
      apply andb_prop in Hp. destruct Hp as [_ He]. simpl in He.
      clear - He. induction ext as [| c r IH]; simpl in *; [reflexivity |].
      apply andb_prop in He. destruct He as [Hc Hr].
      apply andb_prop in Hc. destruct Hc as [Hc _]. rewrite Hc, (IH Hr). reflexivity.
  - unfold GameNestLauncher.add_game_manually. rewrite bind_modify.
    apply save_games_persists. destruct w; exact Hw.
Qed.

Lemma add_game_manually_record_witness :
  let w := GameNestLauncher.initial Absent true in
  let exe := Path.join "D:/Games/Halo" ("Halo 2.5" ++ String "." "exe") in
  let w' := fst (GameNestLauncher.add_game_manually (fun _ => None) (Some exe) w) in
  games w' = (games w ++ [GameEntry.init (PStr "Halo 2.5") (PStr exe) PNone])%list
  /\ persisted w'.
Proof.
  intros w.
  apply (add_game_manually_record (fun _ => None) "D:/Games/Halo" "Halo 2.5" "exe" w);
    reflexivity.
Defined.
